(** * convertcsvhomepass: placemark file to table conversion (app.py)

    A shallow embedding of [app.py]: the KML placemark extractor, the
    boundary assignment loop, the cached and throttled reverse geocoder and
    the column ordering of [convert], together with the properties the
    specification states about them.

    Conventions of the embedding:
    - a Python [str] is a [string] whose characters are code points below 256;
    - an exception is a value of [exn]; fallible code returns [result];
    - the libraries the program calls (float parsing and formatting, shapely,
      zipfile, the HTTP client, and what pandas stores for a [None]) are
      interfaces (type classes); every theorem holds for all their
      implementations, and small instances run the program on concrete
      inputs. *)

From Stdlib Require Import ZArith List String Ascii Bool Lia.
From stdpp Require Import base option list gmap strings.
Import ListNotations.
Local Open Scope string_scope.
Local Open Scope list_scope.

(** ** Exceptions and fallible computations *)

Inductive exn : Type :=
| HTTPException (status_code : Z) (detail : string)
| ValueError
| TypeError
| AttributeError
| BadZipFile
| RequestException
| HTTPError
| JSONDecodeError
| InterfaceError
| KeyError.

Inductive result (A : Type) : Type :=
| Ok (a : A)
| Raise (e : exn).
Arguments Ok {A} a.
Arguments Raise {A} e.

Definition rbind {A B} (r : result A) (k : A -> result B) : result B :=
  match r with
  | Ok a => k a
  | Raise e => Raise e
  end.

Declare Scope result_scope.
Delimit Scope result_scope with result.
Notation "'let?' x ':=' r 'in' k" := (rbind r (fun x => k))
  (at level 10, x name, r at level 100, k at level 200) : result_scope.
Notation "'let?' ( x , y ) ':=' r 'in' k" :=
  (rbind r (fun xy => let '(x, y) := xy in k))
  (at level 10, x name, y name, r at level 100, k at level 200)
  : result_scope.
Local Open Scope result_scope.

Definition is_http_exception (e : exn) : bool :=
  match e with
  | HTTPException _ _ => true
  | _ => false
  end.

(** ** Python string methods *)

Module Str.

(** [str.isspace] on one character, for code points below 256. *)
Definition isspace (c : ascii) : bool :=
  let n := nat_of_ascii c in
  (((9 <=? n) && (n <=? 13)) || ((28 <=? n) && (n <=? 32))
   || (n =? 133) || (n =? 160))%nat.

Fixpoint lstrip_l (s : list ascii) : list ascii :=
  match s with
  | c :: s' => if isspace c then lstrip_l s' else s
  | [] => []
  end.

Definition strip_l (s : list ascii) : list ascii :=
  rev (lstrip_l (rev (lstrip_l s))).

(** [s.strip()] *)
Definition strip (s : string) : string :=
  string_of_list_ascii (strip_l (list_ascii_of_string s)).

(** [s.split()]: the maximal runs of non-whitespace characters. [cur] is
    the run being read, in reverse. *)
Fixpoint split_ws_l (cur : list ascii) (s : list ascii) : list string :=
  match s with
  | [] =>
      match cur with
      | [] => []
      | _ => [string_of_list_ascii (rev cur)]
      end
  | c :: s' =>
      if isspace c then
        match cur with
        | [] => split_ws_l [] s'
        | _ => string_of_list_ascii (rev cur) :: split_ws_l [] s'
        end
      else split_ws_l (c :: cur) s'
  end.

Definition split_ws (s : string) : list string :=
  split_ws_l [] (list_ascii_of_string s).

(** [s.split(sep)] for a one-character separator: empty fields are kept. *)
Fixpoint split_on_l (sep : ascii) (cur : list ascii) (s : list ascii)
  : list string :=
  match s with
  | [] => [string_of_list_ascii (rev cur)]
  | c :: s' =>
      if Ascii.eqb c sep
      then string_of_list_ascii (rev cur) :: split_on_l sep [] s'
      else split_on_l sep (c :: cur) s'
  end.

Definition split_on (sep : ascii) (s : string) : list string :=
  split_on_l sep [] (list_ascii_of_string s).

(** [str.lower] on one character, for code points below 256. *)
Definition lower_char (c : ascii) : ascii :=
  let n := nat_of_ascii c in
  if (((65 <=? n) && (n <=? 90))
      || ((192 <=? n) && (n <=? 222) && negb (n =? 215)))%nat
  then ascii_of_nat (n + 32)
  else c.

Definition lower (s : string) : string :=
  string_of_list_ascii (map lower_char (list_ascii_of_string s)).

Fixpoint startswith_l (p s : list ascii) : bool :=
  match p, s with
  | [], _ => true
  | a :: p', b :: s' => Ascii.eqb a b && startswith_l p' s'
  | _ :: _, [] => false
  end.

(** [s.endswith(suffix)] *)
Definition endswith (s suffix : string) : bool :=
  startswith_l (rev (list_ascii_of_string suffix))
               (rev (list_ascii_of_string s)).

(** Truth value of a [str]: non-empty. *)
Definition truthy (s : string) : bool :=
  match s with
  | EmptyString => false
  | String _ _ => true
  end.

End Str.

(** ** Python dictionaries

    A dict keeps its keys in insertion order, and assigning to a key that is
    present replaces the value in place. Column order depends on it, so a
    dict is an association list without repeated keys. *)

Section Dict.
Context {K V : Type} `{EqDecision K}.

Fixpoint dict_get (k : K) (d : list (K * V)) : option V :=
  match d with
  | [] => None
  | (k', v) :: d' => if decide (k' = k) then Some v else dict_get k d'
  end.

(** [d[k] = v] *)
Fixpoint dict_set (k : K) (v : V) (d : list (K * V)) : list (K * V) :=
  match d with
  | [] => [(k, v)]
  | (k', v') :: d' =>
      if decide (k' = k) then (k', v) :: d' else (k', v') :: dict_set k v d'
  end.

Definition dict_keys (d : list (K * V)) : list K := map fst d.

(** [{**d, **items}]: the items are assigned one after the other. *)
Definition dict_update (d items : list (K * V)) : list (K * V) :=
  fold_left (fun acc kv => dict_set (fst kv) (snd kv) acc) items d.

End Dict.

(** ** The parsed document tree (lxml elements) *)

#[warnings="-register-all"]
Inductive elem : Type :=
| Elem (tag : string) (attrib : list (string * string))
       (text : option string) (children : list elem).

Definition tag (e : elem) : string := let 'Elem t _ _ _ := e in t.
Definition attrib (e : elem) : list (string * string) :=
  let 'Elem _ a _ _ := e in a.
Definition text (e : elem) : option string := let 'Elem _ _ t _ := e in t.
Definition children (e : elem) : list elem := let 'Elem _ _ _ c := e in c.

(** [KML_NS]: the qualified tag of [kml:local]. *)
Definition kml (local : string) : string :=
  "{http://www.opengis.net/kml/2.2}" ++ local.

(** The proper descendants of an element in document order. *)
Fixpoint descendants (e : elem) : list elem :=
  match e with
  | Elem _ _ _ cs => List.flat_map (fun c => c :: descendants c) cs
  end.

Definition has_tag (t : string) (e : elem) : bool := String.eqb (tag e) t.

(** The path step [//t] (every descendant with tag [t]) and the step [/t]
    (every child with tag [t]). *)
Definition desc (t : string) (e : elem) : list elem :=
  List.filter (has_tag t) (descendants e).
Definition child (t : string) (e : elem) : list elem :=
  List.filter (has_tag t) (children e).

(** [e.find(path)] is the first element of [e.findall(path)]. *)
Definition first {A} (l : list A) : option A :=
  match l with
  | [] => None
  | x :: _ => Some x
  end.

(** [e.get(name)] *)
Definition get_attr (name : string) (e : elem) : option string :=
  dict_get name (attrib e).

(** ** The libraries the program calls *)

(** Python floats: [float(s)] on a [str] ([None] when it raises
    [ValueError]), the format [f"{x:.5f}"], and the NaN pandas fills a
    missing cell with. *)
Class FloatOps : Type := {
  float : Type;
  float_of_str : string -> option float;
  fmt5 : float -> string;
  nan : float
}.

(** A value held by a record or a table cell: [None], a [str] or a float. *)
Inductive pyval `{FloatOps} : Type :=
| VNone
| VStr (s : string)
| VFloat (x : float).

(** Column names and attribute names: [d.get("name")] is [None] when the
    attribute is missing. *)
Abbreviation key := (option string).

(** shapely: [point_xy x y] is [Point(x, y)] on two floats; what [Point]
    does with an argument that is not a float is left to the library
    ([point_coerce]). [Polygon(coords)] may raise. *)
Class Shapely `{FloatOps} : Type := {
  point : Type;
  polygon : Type;
  prepared : Type;
  point_xy : float -> float -> point;
  point_coerce : pyval -> pyval -> result point;
  Polygon : list (float * float) -> result polygon;
  prep : polygon -> prepared;
  contains : prepared -> point -> bool;
  touches : polygon -> point -> bool
}.

Abbreviation bytes := (list Byte.byte).

(** zipfile: [ZipFile(io.BytesIO(b))], [z.namelist()] and [z.read(name)]. *)
Class Zip : Type := {
  archive : Type;
  ZipFile : bytes -> result archive;
  namelist : archive -> list string;
  zread : archive -> string -> result bytes
}.

(** lxml: [etree.fromstring(b)], [None] when it raises. *)
Class Lxml : Type := {
  fromstring : bytes -> option elem
}.

(** The object [r.json()] returns. The address components of the provider
    are strings, as the declared result [str | None] of the lookup says;
    numbers and booleans are not part of the model. *)
#[warnings="-register-all"]
Inductive json : Type :=
| JNull
| JStr (s : string)
| JArr (items : list json)
| JObj (items : list (string * json)).

(** What one request to the provider comes to: [requests.get] raises,
    [raise_for_status] raises, [r.json()] raises, or [r.json()] returns. *)
Inductive reply : Type :=
| ConnectionFailed
| BadStatus
| NotJson
| Payload (j : json).

(** The provider: the reply to the [n]-th request of the process, for the
    coordinate sent; and Python's [str(j)]. *)
Class Provider `{FloatOps} : Type := {
  http_get : nat -> float -> float -> reply;
  str_json : json -> string
}.

(** pandas. Where a column or a row is made from Python values: the
    columns of [pd.DataFrame(records)], the Series [df.apply] returns, a
    list assigned as a column, and the row handed to the function of
    [df.apply(..., axis=1)] or yielded by [df.iterrows()]. *)
Inductive site : Type :=
| FromRecords
| FromApply
| FromList
| RowOfApply
| RowOfIterrows.

(** pandas keeps a [str] and a float as they are and fills a missing entry
    with NaN. What it stores for a [None] depends on the dtype it infers
    from the values of the column or row (and on its version): [None] in an
    object column, NaN in a float or string column. [none_in s raw] is that
    value, for the values [raw] at the site [s] ([None] in [raw] is a
    missing entry). *)
Class Pandas `{FloatOps} : Type := {
  none_in : site -> list (option pyval) -> pyval;
  none_in_null :
    forall s raw, none_in s raw = VNone \/ none_in s raw = VFloat nan
}.

(** ** Placemark extractor *)

(** [for x in l: ...] where the body appends a record, skips ([continue]) or
    raises. *)
Fixpoint collect {A B} (body : A -> result (option B)) (l : list A)
  : result (list B) :=
  match l with
  | [] => Ok []
  | x :: rest =>
      let? r := body x in
      let? rs := collect body rest in
      Ok (match r with
          | Some b => b :: rs
          | None => rs
          end)
  end.

(** [a, b, *_ = l] *)
Definition unpack2 (l : list string) : result (string * string) :=
  match l with
  | a :: b :: _ => Ok (a, b)
  | _ => Raise ValueError
  end.

(** [(t or "")] *)
Definition or_empty (t : option string) : string :=
  match t with
  | Some s => s
  | None => ""
  end.

Definition parse_extended_data (pm : elem) : list (key * option string) :=
  match first (desc (kml "ExtendedData") pm) with
  | None => []
  | Some ext =>
      let out :=
        fold_left
          (fun out d =>
             dict_set (get_attr "name" d)
                      (match first (child (kml "value") d) with
                       | Some val_el => text val_el
                       | None => None
                       end) out)
          (desc (kml "Data") ext) [] in
      fold_left
        (fun out sd =>
           fold_left
             (fun out s => dict_set (get_attr "name" s) (text s) out)
             (desc (kml "SimpleData") sd) out)
        (desc (kml "SchemaData") ext) out
  end.

(** Line 79: the boundary identifier of a polygon placemark. *)
Definition boundary_name (pm : elem) : string :=
  match first (child (kml "name") pm) with
  | Some name_el =>
      match text name_el with
      | Some t => if Str.truthy t then Str.strip t else "UNKNOWN_BOUNDARY"
      | None => "UNKNOWN_BOUNDARY"
      end
  | None => "UNKNOWN_BOUNDARY"
  end.

(** Line 103: the label of a point placemark. *)
Definition homepass_name (pm : elem) : option string :=
  match first (child (kml "name") pm) with
  | Some name_el =>
      match text name_el with
      | Some t => if Str.truthy t then Some (Str.strip t) else None
      | None => None
      end
  | None => None
  end.

(** Line 105: [pm.find(".//kml:Point/kml:coordinates")] *)
Definition point_coords_el (pm : elem) : option elem :=
  first (List.flat_map (child (kml "coordinates")) (desc (kml "Point") pm)).

(** Line 81:
    [pm.find(".//kml:outerBoundaryIs//kml:LinearRing//kml:coordinates")] *)
Definition ring_coords_el (pm : elem) : option elem :=
  first (List.flat_map (desc (kml "coordinates"))
           (List.flat_map (desc (kml "LinearRing"))
              (desc (kml "outerBoundaryIs") pm))).

(** [coords_el is None or not (coords_el.text or "").strip()] *)
Definition no_coords (coords_el : option elem) : bool :=
  match coords_el with
  | None => true
  | Some el => negb (Str.truthy (Str.strip (or_empty (text el))))
  end.

(** [coords_el.text.strip()], read once [no_coords] is false. *)
Definition coords_text (coords_el : option elem) : string :=
  Str.strip (or_empty (from_option text None coords_el)).

Section Extractor.
Context `{FloatOps}.

Definition of_text (t : option string) : pyval :=
  match t with
  | None => VNone
  | Some s => VStr s
  end.

(** [float(s)] on a [str] *)
Definition float_str (s : string) : result float :=
  match float_of_str s with
  | Some x => Ok x
  | None => Raise ValueError
  end.

(** [float(v)] *)
Definition py_float (v : pyval) : result float :=
  match v with
  | VFloat x => Ok x
  | VStr s => float_str s
  | VNone => Raise TypeError
  end.

(** Lines 85-88: the ring of a polygon from its tokens. *)
Fixpoint ring_coords (tokens : list string) : result (list (float * float)) :=
  match tokens with
  | [] => Ok []
  | token :: rest =>
      let? (lon, lat) := unpack2 (Str.split_on "," token) in
      let? x := float_str lon in
      let? y := float_str lat in
      let? cs := ring_coords rest in
      Ok ((x, y) :: cs)
  end.

(** Lines 97-113, the body of the loop of [parse_points]. *)
Definition point_record (pm : elem) : result (option (list (key * pyval))) :=
  match first (desc (kml "Point") pm) with
  | None => Ok None
  | Some _ =>
      let hp_name := homepass_name pm in
      let coords_el := point_coords_el pm in
      if no_coords coords_el then Ok None
      else
        let? (lon, lat) :=
          unpack2 (Str.split_on "," (coords_text coords_el)) in
        let? lon := float_str lon in
        let? lat := float_str lat in
        let data := parse_extended_data pm in
        Ok (Some (dict_update
                    [(Some "homepass", of_text hp_name);
                     (Some "lat", VFloat lat);
                     (Some "lon", VFloat lon)]
                    (map (fun kv => (fst kv, of_text (snd kv))) data)))
  end.

Definition parse_points (root : elem) : result (list (list (key * pyval))) :=
  collect point_record (desc (kml "Placemark") root).

Context `{!Shapely}.

(** Lines 73-91, the body of the loop of [parse_polygons]. *)
Definition polygon_record (pm : elem)
  : result (option (string * prepared * polygon)) :=
  match first (desc (kml "Polygon") pm) with
  | None => Ok None
  | Some _ =>
      let bname := boundary_name pm in
      let coords_el := ring_coords_el pm in
      if no_coords coords_el then Ok None
      else
        let? coords := ring_coords (Str.split_ws (coords_text coords_el)) in
        let? poly := Polygon coords in
        Ok (Some (bname, prep poly, poly))
  end.

Definition parse_polygons (root : elem)
  : result (list (string * prepared * polygon)) :=
  collect polygon_record (desc (kml "Placemark") root).

(** ** Boundary index *)

(** [Point(x, y)] *)
Definition Point (x y : pyval) : result point :=
  match x, y with
  | VFloat a, VFloat b => Ok (point_xy a b)
  | _, _ => point_coerce x y
  end.

(** Lines 118-123: the loop of [assign_boundary]. *)
Fixpoint first_match (p : point) (polygons : list (string * prepared * polygon))
  : option string :=
  match polygons with
  | [] => None
  | (bname, ppoly, poly) :: rest =>
      if contains ppoly p || touches poly p then Some bname
      else first_match p rest
  end.

Definition assign_boundary (lat lon : pyval)
           (polygons : list (string * prepared * polygon))
  : result (option string) :=
  let? p := Point lon lat in
  Ok (first_match p polygons).

End Extractor.

(** ** Container unpacking *)

Section Container.
Context `{Zip}.

Definition is_kml_name (n : string) : bool :=
  Str.endswith (Str.lower n) ".kml".

Definition extract_kml_bytes (upload_bytes : bytes) (filename : option string)
  : result bytes :=
  let name := Str.lower (or_empty filename) in
  if Str.endswith name ".kml" then Ok upload_bytes
  else if Str.endswith name ".kmz" then
    let? z := ZipFile upload_bytes in
    let kml_files := List.filter is_kml_name (namelist z) in
    match kml_files with
    | [] => Raise (HTTPException 400 "KMZ tidak berisi file .kml")
    | n :: _ => zread z n
    end
  else Raise (HTTPException 400 "File harus .kmz atau .kml").

End Container.

(** ** Geocode client and cache store *)

(** [o.get(k, default)]: only a dict has [get]. *)
Definition py_get (o : json) (k : string) (default : json) : result json :=
  match o with
  | JObj items => Ok (from_option id default (dict_get k items))
  | _ => Raise AttributeError
  end.

(** Truth value of an object: [None] and the empty containers are false. *)
Definition json_truthy (j : json) : bool :=
  match j with
  | JNull => false
  | JStr s => Str.truthy s
  | JArr l => negb (Nat.eqb (length l) 0)
  | JObj l => negb (Nat.eqb (length l) 0)
  end.

(** Lines 144-145: the street-like name in the payload. *)
Definition select_road (j : json) : result json :=
  let? addr := py_get j "address" (JObj []) in
  let? road := py_get addr "road" JNull in
  if json_truthy road then Ok road
  else
    let? residential := py_get addr "residential" JNull in
    if json_truthy residential then Ok residential
    else py_get addr "pedestrian" JNull.

(** The value sqlite3 binds for the [road TEXT] column: [None] is NULL, a
    [str] is text, a list or a dict cannot be bound. *)
Definition sql_text (road : json) : result (option string) :=
  match road with
  | JNull => Ok None
  | JStr s => Ok (Some s)
  | _ => Raise InterfaceError
  end.

Section Geocode.
Context `{FloatOps} `{!Provider}.

(** The table [geocache]: primary key [(lat_round, lon_round)], columns
    [road] (nullable) and [raw_json]; the requests sent to the provider so
    far; the number of throttle sleeps so far. *)
Record world : Type := World {
  cache : gmap (string * string) (option string * string);
  requests : list (float * float);
  sleeps : nat
}.

Definition sent (lat lon : float) (w : world) : world :=
  World (cache w) (requests w ++ [(lat, lon)]) (sleeps w).

Definition reverse_geocode_nominatim_cached (lat lon : float) (w : world)
  : result (option string) * world :=
  let lat_r := fmt5 lat in
  let lon_r := fmt5 lon in
  match cache w !! (lat_r, lon_r) with
  | Some row => (Ok (fst row), w)
  | None =>
      let w1 := sent lat lon w in
      match http_get (length (requests w)) lat lon with
      | ConnectionFailed => (Raise RequestException, w1)
      | BadStatus => (Raise HTTPError, w1)
      | NotJson => (Raise JSONDecodeError, w1)
      | Payload j =>
          match (let? road := select_road j in sql_text road) with
          | Raise e => (Raise e, w1)
          | Ok road =>
              let raw := String.substring 0 2000 (str_json j) in
              (Ok road,
               World (<[(lat_r, lon_r) := (road, raw)]> (cache w1))
                     (requests w1) (S (sleeps w1)))
          end
      end
  end.

End Geocode.

(** ** Conversion pipeline *)

(** [c in cols] *)
Fixpoint mem (c : key) (cols : list key) : bool :=
  match cols with
  | [] => false
  | c' :: rest => bool_decide (c' = c) || mem c rest
  end.

Section Pipeline.
Context `{FloatOps} `{!Pandas}.

(** A pandas DataFrame, as far as [convert] uses one: the column labels
    in order and, for every row, the value stored under each column. *)
Record frame : Type := Frame {
  columns : list key;
  rows : list (list (key * pyval))
}.

Definition add_column (cols : list key) (c : key) : list key :=
  if mem c cols then cols else cols ++ [c].

(** The value pandas stores for the entry [x] of the values [raw]. *)
Definition stored (s : site) (raw : list (option pyval)) (x : option pyval)
  : pyval :=
  match x with
  | None => VFloat nan
  | Some VNone => none_in s raw
  | Some v => v
  end.

(** The column labels of [pd.DataFrame(points)]: the keys of the records
    in the order they are first seen. *)
Definition record_keys (points : list (list (key * pyval))) : list key :=
  fold_left (fun cols r => fold_left add_column (dict_keys r) cols) points [].

(** The values of the records under the key [c]. *)
Definition column (points : list (list (key * pyval))) (c : key)
  : list (option pyval) :=
  map (dict_get c) points.

(** The row of the frame for the record [r]. *)
Definition frame_row (points : list (list (key * pyval)))
           (r : list (key * pyval)) : list (key * pyval) :=
  map (fun c => (c, stored FromRecords (column points c) (dict_get c r)))
      (record_keys points).

(** [pd.DataFrame(points)] *)
Definition DataFrame (points : list (list (key * pyval))) : frame :=
  Frame (record_keys points) (map (frame_row points) points).

(** The value of the frame in the row [r] under the column [c]. *)
Definition cell (r : list (key * pyval)) (c : key) : pyval :=
  from_option id (VFloat nan) (dict_get c r).

(** [r[c]] on a row [r] that [df.apply] or [df.iterrows] hands out. *)
Definition item (s : site) (r : list (key * pyval)) (c : key)
  : result pyval :=
  match dict_get c r with
  | Some v => Ok (stored s (map (fun kv => Some (snd kv)) r) (Some v))
  | None => Raise KeyError
  end.

(** [df[c] = vals] *)
Definition set_column (s : site) (c : key) (vals : list pyval) (df : frame)
  : frame :=
  Frame (add_column (columns df) c)
        (zip_with (fun r v => dict_set c (stored s (map Some vals) (Some v)) r)
                  (rows df) vals).

(** The table handed to [to_csv]: header and rows. *)
Record table : Type := Table {
  header : list key;
  body : list (list pyval)
}.

(** [df[cols]] *)
Definition select (cols : list key) (df : frame) : table :=
  Table cols (map (fun r => map (cell r) cols) (rows df)).

Definition front : list key :=
  [Some "homepass"; Some "lat"; Some "lon"; Some "nama_jalan";
   Some "boundary"].

(** Lines 193-194. *)
Definition order_columns (df_columns : list key) : list key :=
  List.filter (fun c => mem c df_columns) front
  ++ List.filter (fun c => negb (mem c front)) df_columns.

(** [df.apply(f, axis=1)] for an [f] that may raise. *)
Fixpoint apply_rows {A B} (f : A -> result B) (l : list A) : result (list B) :=
  match l with
  | [] => Ok []
  | x :: rest =>
      let? y := f x in
      let? ys := apply_rows f rest in
      Ok (y :: ys)
  end.

Context `{!Shapely} `{!Provider}.

(** Line 180: the boundary label of one row. *)
Definition row_boundary (polygons : list (string * prepared * polygon))
           (r : list (key * pyval)) : result (option string) :=
  let? lat := item RowOfApply r (Some "lat") in
  let? lon := item RowOfApply r (Some "lon") in
  assign_boundary lat lon polygons.

(** [float(r[c])] in the geocode loop. *)
Definition row_float (r : list (key * pyval)) (c : key) : result float :=
  let? v := item RowOfIterrows r c in
  py_float v.

(** Lines 186-189: the street name of one row; any exception gives
    [None]. *)
Definition row_street (r : list (key * pyval)) (w : world)
  : option string * world :=
  match row_float r (Some "lat") with
  | Raise _ => (None, w)
  | Ok lat =>
      match row_float r (Some "lon") with
      | Raise _ => (None, w)
      | Ok lon =>
          match reverse_geocode_nominatim_cached lat lon w with
          | (Ok road, w') => (road, w')
          | (Raise _, w') => (None, w')
          end
      end
  end.

(** Lines 184-189: the geocode loop. *)
Fixpoint geocode_rows (rs : list (list (key * pyval))) (w : world)
  : list (option string) * world :=
  match rs with
  | [] => ([], w)
  | r :: rest =>
      let '(street, w1) := row_street r w in
      let '(streets, w2) := geocode_rows rest w1 in
      (street :: streets, w2)
  end.

Definition no_points : exn :=
  HTTPException 400 "Tidak ada titik (Point/homepass) ditemukan di file.".

(** Lines 176-195: from the extracted polygons and points to the table. *)
Definition build_table (polygons : list (string * prepared * polygon))
           (points : list (list (key * pyval)))
           (with_geocode : option string) (w : world)
  : result table * world :=
  match points with
  | [] => (Raise no_points, w)
  | _ :: _ =>
      let df := DataFrame points in
      match apply_rows (row_boundary polygons) (rows df) with
      | Raise e => (Raise e, w)
      | Ok labels =>
          let df :=
            set_column FromApply (Some "boundary") (map of_text labels) df in
          let '(df, w') :=
            match with_geocode with
            | Some _ =>
                let '(streets, w') := geocode_rows (rows df) w in
                (set_column FromList (Some "nama_jalan")
                            (map of_text streets) df, w')
            | None => (df, w)
            end in
          (Ok (select (order_columns (columns df)) df), w')
      end
  end.

(** Lines 173-195: [convert] once the document is parsed. *)
Definition convert_root (root : elem) (with_geocode : option string)
           (w : world) : result table * world :=
  match parse_polygons root with
  | Raise e => (Raise e, w)
  | Ok polygons =>
      match parse_points root with
      | Raise e => (Raise e, w)
      | Ok points => build_table polygons points with_geocode w
      end
  end.

Context `{!Zip} `{!Lxml}.

Definition convert (filename : option string) (raw : bytes)
           (with_geocode : option string) (w : world)
  : result table * world :=
  match extract_kml_bytes raw filename with
  | Raise e => (Raise e, w)
  | Ok kml_bytes =>
      match fromstring kml_bytes with
      | None => (Raise (HTTPException 400 "KML tidak valid / gagal diparse."), w)
      | Some root => convert_root root with_geocode w
      end
  end.

End Pipeline.

(** ** An instance of the libraries on an integer grid

    Used to run the program on concrete documents: floats are the integers
    and NaN, a polygon is the rectangle spanned by its vertices, [Point]
    reads an argument that is not a float with [float()], the archive
    reader knows one container, and the provider answers three requests. *)

Module Grid.

Inductive gfloat : Type :=
| GNaN
| GNum (z : Z).

Fixpoint digits (acc : Z) (s : list ascii) : option Z :=
  match s with
  | [] => Some acc
  | c :: s' =>
      let n := nat_of_ascii c in
      if ((48 <=? n) && (n <=? 57))%nat
      then digits (10 * acc + Z.of_nat (n - 48)) s'
      else None
  end.

Definition unsigned (s : list ascii) : option Z :=
  match s with
  | [] => None
  | _ => digits 0 s
  end.

(** [float(s)] for signed decimal integers and ["nan"]. *)
Definition gfloat_of_str (s : string) : option gfloat :=
  match list_ascii_of_string (Str.strip s) with
  | "n" :: "a" :: "n" :: [] => Some GNaN
  | "-" :: s' => GNum <$> (Z.opp <$> unsigned s')
  | "+" :: s' => GNum <$> unsigned s'
  | s' => GNum <$> unsigned s'
  end%char.

Fixpoint show_nat (fuel n : nat) (acc : string) : string :=
  let acc' := String (ascii_of_nat (48 + n mod 10)) acc in
  match fuel with
  | O => acc'
  | S fuel' => if (n <? 10)%nat then acc' else show_nat fuel' (n / 10) acc'
  end.

Definition gfmt5 (x : gfloat) : string :=
  match x with
  | GNaN => "nan"
  | GNum z =>
      (if (z <? 0)%Z then "-" else "")
      ++ show_nat (Z.abs_nat z) (Z.abs_nat z) ".00000"
  end.

#[export] Instance grid_float : FloatOps :=
  {| float := gfloat; float_of_str := gfloat_of_str; fmt5 := gfmt5;
     nan := GNaN |}.

(** A rectangle [xmin, xmax, ymin, ymax]. *)
Definition rect : Type := Z * Z * Z * Z.

Fixpoint span (r : rect) (vs : list (gfloat * gfloat)) : result rect :=
  match vs with
  | [] => Ok r
  | (GNum x, GNum y) :: vs' =>
      let '(x0, x1, y0, y1) := r in
      span (Z.min x0 x, Z.max x1 x, Z.min y0 y, Z.max y1 y) vs'
  | _ => Raise ValueError
  end.

Definition grid_polygon (vs : list (gfloat * gfloat)) : result rect :=
  match vs with
  | (GNum x, GNum y) :: _ :: _ :: _ => span (x, x, y, y) vs
  | _ => Raise ValueError
  end.

Definition inside (r : rect) (p : gfloat * gfloat) : bool :=
  match p with
  | (GNum x, GNum y) =>
      let '(x0, x1, y0, y1) := r in
      ((x0 <? x) && (x <? x1) && (y0 <? y) && (y <? y1))%Z
  | _ => false
  end.

Definition on_border (r : rect) (p : gfloat * gfloat) : bool :=
  match p with
  | (GNum x, GNum y) =>
      let '(x0, x1, y0, y1) := r in
      ((x0 <=? x) && (x <=? x1) && (y0 <=? y) && (y <=? y1))%Z
      && negb (inside r p)
  | _ => false
  end.

#[export] Instance grid_shapely : Shapely :=
  {| point := gfloat * gfloat;
     polygon := rect;
     prepared := rect;
     point_xy := fun x y => (x, y);
     point_coerce := fun x y =>
       let? a := py_float x in
       let? b := py_float y in
       Ok (a, b);
     Polygon := grid_polygon;
     prep := fun r => r;
     contains := inside;
     touches := on_border |}.

(** The dtype rule of the instance: a [None] stays [None] in a column of
    strings and numbers together and in a column of [None] only, and is NaN
    in a column of strings, or of numbers, with missing entries or
    without. *)
Definition is_str (x : option pyval) : bool :=
  match x with
  | Some (VStr _) => true
  | _ => false
  end.

Definition is_num (x : option pyval) : bool :=
  match x with
  | Some (VFloat (GNum _)) => true
  | _ => false
  end.

Definition is_nan (x : option pyval) : bool :=
  match x with
  | None | Some (VFloat GNaN) => true
  | _ => false
  end.

Definition keeps_none (raw : list (option pyval)) : bool :=
  (existsb is_str raw && existsb is_num raw)
  || negb (existsb is_str raw || existsb is_num raw || existsb is_nan raw).

Definition grid_none_in (s : site) (raw : list (option pyval)) : pyval :=
  if keeps_none raw then VNone else VFloat GNaN.

Definition grid_none_in_null (s : site) (raw : list (option pyval))
  : grid_none_in s raw = VNone \/ grid_none_in s raw = VFloat GNaN :=
  match keeps_none raw as b
        return (if b then VNone else VFloat GNaN) = VNone
               \/ (if b then VNone else VFloat GNaN) = VFloat GNaN
  with
  | true => or_introl eq_refl
  | false => or_intror eq_refl
  end.

#[export] Instance grid_pandas : Pandas :=
  {| none_in := grid_none_in; none_in_null := grid_none_in_null |}.

Definition street_payload (name : string) : json :=
  JObj [("place_id", JStr "1");
        ("address", JObj [("road", JStr name); ("city", JStr "Bandung")])].

(** The first request is answered with a street, the second fails, the
    third finds no address. *)
#[export] Instance grid_provider : Provider :=
  {| http_get := fun n _ _ =>
       match n with
       | 0%nat => Payload (street_payload "Jalan Merdeka")
       | 1%nat => ConnectionFailed
       | _ => Payload (JObj [("error", JStr "Unable to geocode")])
       end;
     str_json := fun _ => "{...}" |}.

Definition bytes_of (s : string) : bytes := list_byte_of_string s.

Definition two_kml : list (string * bytes) :=
  [("readme.txt", bytes_of "hello");
   ("doc.KML", bytes_of "<kml>first</kml>");
   ("extra.kml", bytes_of "<kml>second</kml>")].

(** [z.read(name)] reads the last member listed under [name]. *)
Definition grid_read (z : list (string * bytes)) (name : string)
  : result bytes :=
  match dict_get name (rev z) with
  | Some b => Ok b
  | None => Raise BadZipFile
  end.

#[export] Instance grid_zip : Zip :=
  {| archive := list (string * bytes);
     ZipFile := fun b =>
       if String.eqb (string_of_list_byte b) "PK-two" then Ok two_kml
       else Raise BadZipFile;
     namelist := map fst;
     zread := grid_read |}.

(** Documents. *)
Definition el (t : string) (cs : list elem) : elem := Elem (kml t) [] None cs.
Definition leaf (t : string) (s : string) : elem := Elem (kml t) [] (Some s) [].

Definition polygon_pm (name : option string) (ring : string) : elem :=
  el "Placemark"
     (match name with
      | Some n => [leaf "name" n]
      | None => []
      end
      ++ [el "Polygon"
            [el "outerBoundaryIs"
                [el "LinearRing" [leaf "coordinates" ring]]]]).

Definition point_pm (name : string) (coords : string) (ext : list elem)
  : elem :=
  el "Placemark"
     ([leaf "name" name; el "Point" [leaf "coordinates" coords]] ++ ext).

Definition data (name value : string) : elem :=
  Elem (kml "Data") [("name", name)] None [leaf "value" value].
Definition simple (name value : string) : elem :=
  Elem (kml "SimpleData") [("name", name)] (Some value) [].

Definition document (pms : list elem) : elem :=
  el "kml" [el "Document" pms].

Definition w0 : world := World ∅ [] 0.

Definition vnum (z : Z) : pyval := VFloat (GNum z).

End Grid.

(** ** Views used to state the properties *)

Definition data_value (d : elem) : option string :=
  match first (child (kml "value") d) with
  | Some val_el => text val_el
  | None => None
  end.

(** The flat name/value pairs of an [ExtendedData] element, and its
    schema-based pairs, in the order the loops of [parse_extended_data]
    visit them. *)
Definition data_items (ext : elem) : list (key * option string) :=
  map (fun d => (get_attr "name" d, data_value d)) (desc (kml "Data") ext).

Definition schema_items (ext : elem) : list (key * option string) :=
  map (fun s => (get_attr "name" s, text s))
      (List.flat_map (desc (kml "SimpleData")) (desc (kml "SchemaData") ext)).

(** ** Sample documents *)

Definition both_forms : elem :=
  Grid.point_pm "hp1" "7,7,0"
    [Grid.el "ExtendedData"
       [Grid.data "owner" "flat";
        Grid.el "SchemaData" [Grid.simple "owner" "schema"]]].

Definition both_forms_ext : elem :=
  Grid.el "ExtendedData"
    [Grid.data "owner" "flat";
     Grid.el "SchemaData" [Grid.simple "owner" "schema"]].


Definition square_ring : string := "0,0,0 10,0,0 10,10,0 0,10,0 0,0,0".

Definition zone_a : elem := Grid.polygon_pm (Some " Zone A ") square_ring.
Definition zone_a_name : elem := Grid.leaf "name" " Zone A ".
Definition zone_blank : elem := Grid.polygon_pm (Some "   ") square_ring.

Definition point_no_text : elem := Grid.point_pm "hp0" "   " [].
Definition point_bad_text : elem := Grid.point_pm "hp1" "abc" [].
Definition point_good : elem := Grid.point_pm "hp2" "5,5,0" [].
Definition ring_bad_text : elem := Grid.polygon_pm (Some "Zone B") "0,0 10,x 10,10".

(** A token of a coordinate list that lines 87-88 cannot read: it has fewer
    than two comma-separated fields, or one of the first two is not a
    float. *)
Definition bad_token `{FloatOps} (token : string) : Prop :=
  ∀ lon lat,
    unpack2 (Str.split_on "," token) = Ok (lon, lat) →
    float_of_str lon = None ∨ float_of_str lat = None.

(** The match test of line 120 on one entry of the polygon list: the point
    is strictly interior ([contains]) or on the boundary ([touches]). *)
Definition encloses `{Shapely} (p : point)
           (entry : string * prepared * polygon) : bool :=
  contains (snd (fst entry)) p || touches (snd entry) p.

Definition rect_a : Grid.rect := (0, 10, 0, 10)%Z.
Definition rect_b : Grid.rect := (5, 20, 5, 20)%Z.
Definition entry_a : string * Grid.rect * Grid.rect := ("A", rect_a, rect_a).
Definition entry_b : string * Grid.rect * Grid.rect := ("B", rect_b, rect_b).

(** Whether an object is a dict. *)
Definition is_obj (j : json) : bool :=
  match j with
  | JObj _ => true
  | _ => false
  end.

(** The cache key of a coordinate (lines 127-128). *)
Definition cache_key `{FloatOps} (lat lon : float) : string * string :=
  (fmt5 lat, fmt5 lon).

Definition w_null : @world Grid.grid_float :=
  @World Grid.grid_float
         {[ ("7.00000", "7.00000") := (None, "{...}") ]} [] 0.

(** One request has been sent: the next one is the provider's second. *)
Definition w_one : @world Grid.grid_float :=
  @World Grid.grid_float ∅ [(Grid.GNum 1, Grid.GNum 1)] 1.

Definition w_one_after : @world Grid.grid_float :=
  @World Grid.grid_float
         {[ ("9.00000", "9.00000") := (None, "{...}") ]}
         [(Grid.GNum 1, Grid.GNum 1); (Grid.GNum 7, Grid.GNum 7);
          (Grid.GNum 9, Grid.GNum 9)] 2.

Definition row_77 : list (key * @pyval Grid.grid_float) :=
  [(Some "homepass", @VStr Grid.grid_float "hp1"); (Some "lat", Grid.vnum 7);
   (Some "lon", Grid.vnum 7)].
Definition row_99 : list (key * @pyval Grid.grid_float) :=
  [(Some "homepass", @VStr Grid.grid_float "hp2"); (Some "lat", Grid.vnum 9);
   (Some "lon", Grid.vnum 9)].

(** The keys of a stream in the order they are first seen. *)
Fixpoint first_seen (l : list key) : list key :=
  match l with
  | [] => []
  | c :: l' =>
      c :: List.filter (fun c' => negb (bool_decide (c' = c))) (first_seen l')
  end.

(** The attribute names of all records, record after record. *)
Definition all_keys `{FloatOps} (points : list (list (key * pyval)))
  : list key :=
  List.flat_map dict_keys points.

Definition polygons_only : elem := Grid.document [zone_a; zone_blank].

Definition one_point : elem :=
  Grid.document
    [zone_a;
     Grid.point_pm "hp1" "7,7,0"
       [Grid.el "ExtendedData"
          [Grid.data "owner" "flat"; Grid.data "kind" "house"]];
     Grid.point_pm "hp2" "30,30"
       [Grid.el "ExtendedData"
          [Grid.data "kind" "shop"; Grid.data "floors" "2"]]].

(** The frame of [convert] after line 180 and after line 190, the table of
    lines 193-195, and the values pandas stores in the three kinds of
    column. *)
Definition labelled `{Pandas} (points : list (list (key * pyval)))
           (labels : list (option string)) : frame :=
  set_column FromApply (Some "boundary") (map of_text labels)
             (DataFrame points).

Definition geocoded `{Pandas} (df : frame) (streets : list (option string))
  : frame :=
  set_column FromList (Some "nama_jalan") (map of_text streets) df.

Definition table_of `{FloatOps} (df : frame) : table :=
  select (order_columns (columns df)) df.

Definition record_cell `{Pandas} (points : list (list (key * pyval)))
           (r : list (key * pyval)) (c : key) : pyval :=
  stored FromRecords (column points c) (dict_get c r).

Definition label_cell `{Pandas} (labels : list (option string))
           (label : option string) : pyval :=
  stored FromApply (map Some (map of_text labels)) (Some (of_text label)).

Definition street_cell `{Pandas} (streets : list (option string))
           (street : option string) : pyval :=
  stored FromList (map Some (map of_text streets)) (Some (of_text street)).

(** A null cell: [None] or NaN. *)
Definition null `{FloatOps} (v : pyval) : Prop :=
  v = VNone \/ v = VFloat nan.

(** A point outside zone A whose attributes name a coordinate inside it. *)
Definition lat_attribute : elem :=
  Grid.point_pm "hp1" "30,30,0"
    [Grid.el "ExtendedData"
       [Grid.data "lat" "5"; Grid.data "lon" "6";
        Grid.data "homepass" "HP-001"]].

Definition lat_attribute_row : list (key * @pyval Grid.grid_float) :=
  [(Some "homepass", @VStr Grid.grid_float "HP-001");
   (Some "lat", @VStr Grid.grid_float "5");
   (Some "lon", @VStr Grid.grid_float "6")].

Definition lat_attribute_doc : elem := Grid.document [zone_a; lat_attribute].

Definition lat_attribute_table : @table Grid.grid_float :=
  @Table Grid.grid_float
    [Some "homepass"; Some "lat"; Some "lon"; Some "boundary"]
    [[@VStr Grid.grid_float "HP-001"; @VStr Grid.grid_float "5";
      @VStr Grid.grid_float "6"; @VStr Grid.grid_float "Zone A"]].

Definition one_point_rows : list (list (key * @pyval Grid.grid_float)) :=
  [[(Some "homepass", @VStr Grid.grid_float "hp1");
    (Some "lat", Grid.vnum 7); (Some "lon", Grid.vnum 7);
    (Some "owner", @VStr Grid.grid_float "flat");
    (Some "kind", @VStr Grid.grid_float "house")];
   [(Some "homepass", @VStr Grid.grid_float "hp2");
    (Some "lat", Grid.vnum 30); (Some "lon", Grid.vnum 30);
    (Some "kind", @VStr Grid.grid_float "shop");
    (Some "floors", @VStr Grid.grid_float "2")]].

Definition one_point_table : @table Grid.grid_float :=
  @Table Grid.grid_float
    [Some "homepass"; Some "lat"; Some "lon"; Some "boundary";
     Some "owner"; Some "kind"; Some "floors"]
    [[@VStr Grid.grid_float "hp1"; Grid.vnum 7; Grid.vnum 7;
      @VStr Grid.grid_float "Zone A"; @VStr Grid.grid_float "flat";
      @VStr Grid.grid_float "house"; @VFloat Grid.grid_float Grid.GNaN];
     [@VStr Grid.grid_float "hp2"; Grid.vnum 30; Grid.vnum 30;
      @VFloat Grid.grid_float Grid.GNaN; @VFloat Grid.grid_float Grid.GNaN;
      @VStr Grid.grid_float "shop"; @VStr Grid.grid_float "2"]].

(** A column is present in the frame [convert] builds when a record has it
    as a key, when it is the boundary column, or when it is the street
    column and the geocode pass ran. *)
Definition present `{FloatOps} (points : list (list (key * pyval)))
           (flag : option string) (c : key) : bool :=
  mem c (all_keys points)
  || bool_decide (Some "boundary" = c)
  || match flag with
     | Some _ => bool_decide (Some "nama_jalan" = c)
     | None => false
     end.

(** ** Further views and samples *)

(** The three keys every point record starts with. *)
Definition base_keys : list key :=
  [Some "homepass"; Some "lat"; Some "lon"].

(** A string that neither begins nor ends with whitespace. *)
Definition no_edge_space (l : list ascii) : Prop :=
  match l with
  | [] => True
  | c :: _ => Str.isspace c = false
  end.

Definition trimmed (s : string) : Prop :=
  no_edge_space (list_ascii_of_string s)
  ∧ no_edge_space (rev (list_ascii_of_string s)).

Definition flat_only_ext : elem :=
  Grid.el "ExtendedData"
    [Grid.data "owner" "first"; Grid.data "owner" "second";
     Elem (kml "Data") [("name", "note")] None [];
     Grid.el "SchemaData" [Grid.simple "kind" "house"]].

Definition flat_only : elem := Grid.point_pm "hp1" "106,-6,12" [flat_only_ext].

Definition flat_only_row : list (key * @pyval Grid.grid_float) :=
  [(Some "homepass", @VStr Grid.grid_float "hp1");
   (Some "lat", Grid.vnum (-6)); (Some "lon", Grid.vnum 106);
   (Some "owner", @VStr Grid.grid_float "second");
   (Some "note", @VNone Grid.grid_float);
   (Some "kind", @VStr Grid.grid_float "house")].

(** A ring token read as a vertex: its first field is the longitude, its
    second the latitude; further fields are not read. *)
Definition reads_vertex `{FloatOps} (token : string) (c : float * float)
  : Prop :=
  ∃ a b extra,
    Str.split_on "," token = a :: b :: extra
    ∧ float_of_str a = Some (fst c)
    ∧ float_of_str b = Some (snd c).

(** Whether a placemark holds a [Point], a [Polygon]. *)
Definition has_point (pm : elem) : bool :=
  match first (desc (kml "Point") pm) with
  | Some _ => true
  | None => false
  end.

Definition has_polygon (pm : elem) : bool :=
  match first (desc (kml "Polygon") pm) with
  | Some _ => true
  | None => false
  end.

Definition entry_name {P Q} (entry : string * P * Q) : string :=
  fst (fst entry).

Definition mixed_doc : elem :=
  Grid.document [ring_bad_text; point_good; zone_a; point_no_text].

(** An address component that Python's [or] skips: missing, [None] or
    the empty string (or an empty container). *)
Definition skipped (o : option json) : Prop :=
  json_truthy (from_option id JNull o) = false.

(** What a run of lookups may have done between two worlds: the request
    log grew by at most [n] entries at its end, and every sleep taken goes
    with one new cache entry and one of the new requests. *)
Definition accounted `{FloatOps} (w w' : world) (n : nat) : Prop :=
  ∃ new d,
    requests w' = requests w ++ new
    ∧ (length new ≤ n)%nat
    ∧ (d ≤ length new)%nat
    ∧ sleeps w' = (sleeps w + d)%nat
    ∧ size (cache w') = (size (cache w) + d)%nat.

(** Every entry of the cache of [w] is an entry of the cache of [w']. *)
Definition cache_kept `{FloatOps} (w w' : world) : Prop :=
  ∀ k v, cache w !! k = Some v → cache w' !! k = Some v.

Definition residential_payload : json :=
  JObj [("address",
         JObj [("road", JStr ""); ("residential", JStr "Gang Mawar");
               ("pedestrian", JStr "Jalan Setapak")])].

Definition w_merdeka : @world Grid.grid_float :=
  @World Grid.grid_float
         {[ ("7.00000", "7.00000") := (Some "Jalan Merdeka", "{...}") ]}
         [(Grid.GNum 7, Grid.GNum 7)] 1.

(** A parser that knows one document, for running [convert]. *)
Definition grid_lxml : Lxml :=
  {| fromstring := fun b =>
       if String.eqb (string_of_list_byte b) "<kml>first</kml>"
       then Some polygons_only else None |}.

Definition zone_a_entry : string * Grid.rect * Grid.rect :=
  ("Zone A", rect_a, rect_a).

(** Two points of zone A: their frame rows once the boundary labels are
    set, and the conversion with the geocode pass from the empty world,
    where the provider's second reply fails. *)
Definition labelled_77 : list (key * @pyval Grid.grid_float) :=
  row_77 ++ [(Some "boundary", @VStr Grid.grid_float "Zone A")].
Definition labelled_99 : list (key * @pyval Grid.grid_float) :=
  row_99 ++ [(Some "boundary", @VStr Grid.grid_float "Zone A")].

Definition w_merdeka_failed : @world Grid.grid_float :=
  @World Grid.grid_float
         {[ ("7.00000", "7.00000") := (Some "Jalan Merdeka", "{...}") ]}
         [(Grid.GNum 7, Grid.GNum 7); (Grid.GNum 9, Grid.GNum 9)] 1.

Definition two_streets_table : @table Grid.grid_float :=
  @Table Grid.grid_float
    [Some "homepass"; Some "lat"; Some "lon"; Some "nama_jalan";
     Some "boundary"]
    [[@VStr Grid.grid_float "hp1"; Grid.vnum 7; Grid.vnum 7;
      @VStr Grid.grid_float "Jalan Merdeka"; @VStr Grid.grid_float "Zone A"];
     [@VStr Grid.grid_float "hp2"; Grid.vnum 9; Grid.vnum 9;
      @VFloat Grid.grid_float Grid.GNaN; @VStr Grid.grid_float "Zone A"]].

Definition bad_ring_only : elem := Grid.document [ring_bad_text].

Definition two_points : elem :=
  Grid.document
    [zone_a; Grid.point_pm "hp1" "7,7,0" []; Grid.point_pm "hp2" "9,9" []].
(** * Properties *)

(** ** Dictionaries *)

Section DictFacts.
Context {K V : Type} `{EqDecision K}.
Implicit Types (d items : list (K * V)) (k : K) (v : V).

Lemma dict_get_set_eq d k v : dict_get k (dict_set k v d) = Some v.
Proof.
  induction d as [|[k' v'] d IH]; cbn [dict_get dict_set dict_keys map fst snd fold_left].
  - by rewrite decide_True.
  - destruct (decide (k' = k)) as [->|Hne]; cbn [dict_get dict_set dict_keys map fst snd fold_left].
    + by rewrite decide_True.
    + by rewrite decide_False.
Qed.

Lemma dict_get_set_ne d k k' v :
  k ≠ k' → dict_get k' (dict_set k v d) = dict_get k' d.
Proof.
  intros Hne. induction d as [|[k0 v0] d IH]; cbn [dict_get dict_set dict_keys map fst snd fold_left].
  - by rewrite decide_False.
  - destruct (decide (k0 = k)) as [->|Hk0]; cbn [dict_get dict_set dict_keys map fst snd fold_left].
    + by rewrite !decide_False.
    + destruct (decide (k0 = k')); [done | apply IH].
Qed.

Lemma dict_keys_set d k v :
  dict_keys (dict_set k v d)
  = if decide (k ∈ dict_keys d) then dict_keys d else dict_keys d ++ [k].
Proof.
  unfold dict_keys. induction d as [|[k0 v0] d IH]; cbn [dict_get dict_set dict_keys map fst snd fold_left].
  - rewrite decide_False; [done | apply not_elem_of_nil].
  - destruct (decide (k0 = k)) as [->|Hk0]; cbn [dict_get dict_set dict_keys map fst snd fold_left].
    + rewrite decide_True; [done | apply elem_of_cons; by left].
    + rewrite IH. destruct (decide (k ∈ map fst d)) as [Hin|Hin].
      * rewrite decide_True; [done | apply elem_of_cons; by right].
      * rewrite decide_False; [done |].
        intros [?|?]%elem_of_cons; [congruence | done].
Qed.

Lemma dict_get_update_None d items k :
  dict_get k items = None →
  dict_get k (dict_update d items) = dict_get k d.
Proof.
  unfold dict_update. revert d.
  induction items as [|[k0 v0] items IH]; intros d Hk; cbn [dict_get dict_set dict_keys map fst snd fold_left] in *; [done|].
  destruct (decide (k0 = k)) as [->|Hne]; [done|].
  rewrite IH; [by apply dict_get_set_ne | done].
Qed.

(** Assigning the items of a dict that holds [k] leaves its value at [k],
    when [items] has no repeated key. *)
Lemma dict_get_update_Some d items k v :
  NoDup (dict_keys items) →
  dict_get k items = Some v →
  dict_get k (dict_update d items) = Some v.
Proof.
  unfold dict_update, dict_keys. revert d.
  induction items as [|[k0 v0] items IH]; intros d Hnd Hk; cbn [dict_get dict_set dict_keys map fst snd fold_left] in *;
    [done|].
  apply NoDup_cons in Hnd as [Hnotin Hnd].
  destruct (decide (k0 = k)) as [->|Hne].
  - injection Hk as ->.
    assert (Hnone : dict_get k items = None).
    { clear -Hnotin. induction items as [|[k1 v1] items IH]; [done|].
      cbn [dict_get dict_set dict_keys map fst snd fold_left] in *. apply not_elem_of_cons in Hnotin as [Hne Hnotin].
      rewrite decide_False; [by apply IH | done]. }
    pose proof (dict_get_update_None (dict_set k v d) items k Hnone) as Hu.
    unfold dict_update in Hu. rewrite Hu. apply dict_get_set_eq.
  - by apply IH.
Qed.

Lemma dict_set_NoDup d k v :
  NoDup (dict_keys d) → NoDup (dict_keys (dict_set k v d)).
Proof.
  intros Hnd. rewrite dict_keys_set. case_decide; [done|].
  apply NoDup_app. split; [done|]. split.
  - intros x Hx [->|[]%elem_of_nil]%elem_of_cons. done.
  - apply NoDup_singleton.
Qed.

Lemma dict_get_None_keys d k : dict_get k d = None ↔ k ∉ dict_keys d.
Proof.
  unfold dict_keys. induction d as [|[k0 v0] d IH]; cbn [dict_get dict_set dict_keys map fst snd fold_left].
  - split; [intros _; apply not_elem_of_nil | done].
  - destruct (decide (k0 = k)) as [->|Hne].
    + split; [done | intros Hn; exfalso; apply Hn, elem_of_cons; by left].
    + rewrite IH. split.
      * intros Hn [?|?]%elem_of_cons; [congruence | done].
      * intros Hn Hin. apply Hn, elem_of_cons. by right.
Qed.

End DictFacts.

Section DictOrder.
Context {K V : Type} `{EqDecision K}.
Implicit Types (d items : list (K * V)) (k : K) (v : V).

Lemma dict_update_app d items1 items2 :
  dict_update d (items1 ++ items2)
  = dict_update (dict_update d items1) items2.
Proof. unfold dict_update. apply fold_left_app. Qed.

(** Last write wins. *)
Lemma dict_get_update_last d before after k v :
  k ∉ dict_keys after →
  dict_get k (dict_update d (before ++ (k, v) :: after)) = Some v.
Proof.
  intros Hafter. rewrite dict_update_app.
  change ((k, v) :: after) with ([(k, v)] ++ after).
  rewrite dict_update_app, dict_get_update_None.
  - unfold dict_update. cbn [fold_left fst snd]. apply dict_get_set_eq.
  - by apply dict_get_None_keys.
Qed.

Lemma last_occurrence items k :
  k ∈ dict_keys items →
  ∃ before v after,
    items = before ++ (k, v) :: after ∧ (k ∉ dict_keys after).
Proof.
  unfold dict_keys.
  induction items as [|[k0 v0] items IH]; cbn [map fst].
  - by intros ?%elem_of_nil.
  - intros Hin. destruct (decide (k ∈ map fst items)) as [Hlater|Hlater].
    + destruct (IH Hlater) as (before & v & after & -> & Hafter).
      by exists ((k0, v0) :: before), v, after.
    + apply elem_of_cons in Hin as [->|Hin]; [|done].
      by exists [], v0, items.
Qed.

Lemma dict_update_keys_NoDup d items :
  NoDup (dict_keys d) → NoDup (dict_keys (dict_update d items)).
Proof.
  unfold dict_update. revert d.
  induction items as [|[k v] items IH]; intros d Hd; cbn [fold_left];
    [done|].
  by apply IH, dict_set_NoDup.
Qed.

End DictOrder.

(** ** Strings *)

Lemma lstrip_l_spaces (s : list ascii) :
  forallb Str.isspace s = true → Str.lstrip_l s = [].
Proof.
  induction s as [|c s IH]; [done|].
  cbn [forallb Str.lstrip_l]. intros [Hc Hs]%andb_prop.
  rewrite Hc. by apply IH.
Qed.

Lemma strip_spaces (t : string) :
  forallb Str.isspace (list_ascii_of_string t) = true → Str.strip t = "".
Proof.
  intros Hall. unfold Str.strip, Str.strip_l.
  by rewrite (lstrip_l_spaces _ Hall).
Qed.

Lemma truthy_nonempty (t : string) : Str.truthy t = true ↔ t ≠ "".
Proof. destruct t; cbn; split; (done || congruence). Qed.

Lemma startswith_l_diff (p q s : list ascii) (a b : ascii) :
  a ≠ b →
  Str.startswith_l (a :: p) s = true → Str.startswith_l (b :: q) s = false.
Proof.
  intros Hab. destruct s as [|c s]; cbn; [done|].
  intros [Hac _]%andb_prop. apply Ascii.eqb_eq in Hac as <-.
  apply andb_false_intro1. by apply Ascii.eqb_neq.
Qed.

(** A name cannot end in both suffixes. *)
Lemma endswith_kmz_not_kml (s : string) :
  Str.endswith s ".kmz" = true → Str.endswith s ".kml" = false.
Proof.
  unfold Str.endswith. cbn [list_ascii_of_string rev app].
  by apply startswith_l_diff.
Qed.

(** ** Extended attributes *)

Lemma fold_left_flat_map {A B C} (g : A -> C -> A) (f : B -> list C)
      (l : list B) (a : A) :
  fold_left (fun acc x => fold_left g (f x) acc) l a
  = fold_left g (List.flat_map f l) a.
Proof.
  revert a. induction l as [|x l IH]; intros a; cbn [fold_left List.flat_map];
    [done|].
  by rewrite fold_left_app, IH.
Qed.

Lemma fold_left_map' {A B C} (g : A -> C -> A) (f : B -> C) (l : list B) (a : A) :
  fold_left (fun acc x => g acc (f x)) l a = fold_left g (map f l) a.
Proof. revert a. induction l as [|x l IH]; intros a; cbn; [done | apply IH]. Qed.

Lemma parse_extended_data_items (pm ext : elem) :
  first (desc (kml "ExtendedData") pm) = Some ext →
  parse_extended_data pm
  = dict_update (dict_update [] (data_items ext)) (schema_items ext).
Proof.
  intros Hext. unfold parse_extended_data. rewrite Hext.
  unfold dict_update, schema_items, data_items.
  rewrite <- !fold_left_map', fold_left_flat_map. done.
Qed.

Lemma parse_extended_data_NoDup (pm : elem) :
  NoDup (dict_keys (parse_extended_data pm)).
Proof.
  destruct (first (desc (kml "ExtendedData") pm)) as [ext|] eqn:Hext.
  - rewrite (parse_extended_data_items _ _ Hext).
    apply dict_update_keys_NoDup, dict_update_keys_NoDup, NoDup_nil_2.
  - unfold parse_extended_data. rewrite Hext. apply NoDup_nil_2.
Qed.

(** C5. When an attribute name is supplied both by a flat [Data] pair and
    by a schema-based [SimpleData] pair of a placemark's extended data, the
    merged mapping holds a schema-based value for that name: the value of
    the last [SimpleData] pair with that name. It replaces the flat value
    the mapping held for the name after the first loop. *)
Theorem C5_schema_value_wins (pm ext : elem) (name : key) :
  first (desc (kml "ExtendedData") pm) = Some ext →
  name ∈ dict_keys (data_items ext) →
  name ∈ dict_keys (schema_items ext) →
  ∃ flat_v before v after,
    dict_get name (dict_update [] (data_items ext)) = Some flat_v
    ∧ (name, flat_v) ∈ data_items ext
    ∧ schema_items ext = before ++ (name, v) :: after
    ∧ (name ∉ dict_keys after)
    ∧ dict_get name (parse_extended_data pm) = Some v.
Proof.
  intros Hext Hdata Hschema.
  destruct (last_occurrence _ _ Hdata) as (fbefore & flat_v & fafter & Hf & Hfafter).
  destruct (last_occurrence _ _ Hschema) as (before & v & after & Hsplit & Hafter).
  exists flat_v, before, v, after. split; [|split; [|split; [done|split; [done|]]]].
  - rewrite Hf. by apply dict_get_update_last.
  - rewrite Hf. apply elem_of_app. right. apply elem_of_cons. by left.
  - rewrite (parse_extended_data_items _ _ Hext), Hsplit.
    by apply dict_get_update_last.
Qed.

Lemma C5_schema_value_wins_witness :
  dict_get (Some "owner") (dict_update [] (data_items both_forms_ext))
  = Some (Some "flat")
  ∧ dict_get (Some "owner") (parse_extended_data both_forms)
    = Some (Some "schema").
Proof.
  destruct (C5_schema_value_wins both_forms both_forms_ext (Some "owner"))
    as (flat_v & before & v & after & Hflat & _ & _ & _ & Hv).
  - reflexivity.
  - vm_compute. constructor.
  - vm_compute. constructor.
  - split; reflexivity.
Defined.

(** ** Loops that append, skip or raise *)

Section Collect.
Context {A B : Type} (body : A -> result (option B)).

Lemma collect_app_skip (before after : list A) (x : A) :
  body x = Ok None →
  collect body (before ++ x :: after) = collect body (before ++ after).
Proof.
  intros Hx. induction before as [|y before IH]; cbn [collect app].
  - rewrite Hx. cbn. by destruct (collect body after).
  - by rewrite IH.
Qed.

Lemma collect_raise (l : list A) (x : A) (e : exn) :
  x ∈ l → body x = Raise e → ∃ e', collect body l = Raise e'.
Proof.
  intros Hin Hx. induction l as [|y l IH]; [by apply elem_of_nil in Hin|].
  cbn [collect]. apply elem_of_cons in Hin as [<-|Hin].
  - rewrite Hx. by exists e.
  - destruct (body y) as [r|e0]; cbn; [|by exists e0].
    destruct (IH Hin) as [e' ->]. by exists e'.
Qed.

Lemma collect_Ok_inv (l : list A) (rs : list B) (r : B) :
  collect body l = Ok rs → r ∈ rs → ∃ x, x ∈ l ∧ body x = Ok (Some r).
Proof.
  revert rs. induction l as [|y l IH]; intros rs; cbn [collect].
  - intros [= <-] Hin. by apply elem_of_nil in Hin.
  - destruct (body y) as [o|e] eqn:Hy; cbn; [|done].
    destruct (collect body l) as [rs'|e]; cbn; [|done].
    intros [= <-] Hin.
    assert (Hrest : r ∈ rs' → ∃ x, x ∈ y :: l ∧ body x = Ok (Some r)).
    { intros Hr. destruct (IH rs' eq_refl Hr) as (x & Hx & Hbx).
      exists x. split; [by apply elem_of_cons; right | done]. }
    destruct o as [b|]; [|by apply Hrest].
    apply elem_of_cons in Hin as [->|Hin]; [|by apply Hrest].
    exists y. split; [by apply elem_of_cons; left | done].
Qed.

End Collect.

(** ** Placemark extractor *)

Section ExtractorFacts.
Context `{FloatOps} `{!Pandas} `{!Shapely} `{!Provider}.

Lemma boundary_name_cases (pm : elem) :
  boundary_name pm
  = match first (child (kml "name") pm) with
    | Some name_el =>
        match text name_el with
        | Some t => if bool_decide (t = "") then "UNKNOWN_BOUNDARY"
                    else Str.strip t
        | None => "UNKNOWN_BOUNDARY"
        end
    | None => "UNKNOWN_BOUNDARY"
    end.
Proof.
  unfold boundary_name.
  destruct (first _) as [name_el|]; [|done].
  destruct (text name_el) as [[|c t]|]; done.
Qed.

(** C8, amended. The boundary identifier of a polygon placemark is its
    name with surrounding whitespace trimmed; the sentinel
    ["UNKNOWN_BOUNDARY"] stands in when the name element is absent or its
    text is missing or empty. A name of whitespace only is trimmed to the
    empty identifier. *)
Theorem C8_boundary_name (pm : elem) :
  (∀ bname ppoly poly,
      polygon_record pm = Ok (Some (bname, ppoly, poly)) →
      bname = boundary_name pm)
  ∧ (first (child (kml "name") pm) = None →
     boundary_name pm = "UNKNOWN_BOUNDARY")
  ∧ (∀ name_el,
        first (child (kml "name") pm) = Some name_el →
        (text name_el = None ∨ text name_el = Some "" →
         boundary_name pm = "UNKNOWN_BOUNDARY")
        ∧ (∀ t, text name_el = Some t → t ≠ "" →
                boundary_name pm = Str.strip t)
        ∧ (∀ t, text name_el = Some t → t ≠ "" →
                forallb Str.isspace (list_ascii_of_string t) = true →
                boundary_name pm = "")).
Proof.
  split; [|split].
  - intros bname ppoly poly. unfold polygon_record.
    destruct (first (desc _ pm)); [|done].
    destruct (no_coords _); [done|].
    destruct (ring_coords _) as [coords|]; cbn; [|done].
    destruct (Polygon coords); cbn; [|done]. by intros [= <- _ _].
  - intros Hnone. by rewrite boundary_name_cases, Hnone.
  - intros name_el Hsome. rewrite boundary_name_cases, Hsome.
    split; [|split].
    + by intros [->| ->].
    + intros t -> Ht. by rewrite bool_decide_eq_false_2.
    + intros t -> Ht Hws. rewrite bool_decide_eq_false_2; [|done].
      by apply strip_spaces.
Qed.

Lemma point_record_blank (pm : elem) :
  no_coords (point_coords_el pm) = true → point_record pm = Ok None.
Proof.
  intros Hblank. unfold point_record.
  destruct (first _); [|done]. by rewrite Hblank.
Qed.

Lemma polygon_record_blank (pm : elem) :
  no_coords (ring_coords_el pm) = true → polygon_record pm = Ok None.
Proof.
  intros Hblank. unfold polygon_record.
  destruct (first _); [|done]. by rewrite Hblank.
Qed.

Lemma bad_token_raises (token : string) :
  bad_token token →
  (let? (lon, lat) := unpack2 (Str.split_on "," token) in
   let? x := float_str lon in
   let? y := float_str lat in
   Ok (x, y)) = Raise ValueError.
Proof.
  intros Hbad. unfold bad_token in Hbad.
  destruct (unpack2 _) as [[lon lat]|e] eqn:Hun; cbn.
  - unfold float_str.
    destruct (Hbad lon lat eq_refl) as [-> | Hlat]; [done|].
    rewrite Hlat. by destruct (float_of_str lon).
  - unfold unpack2 in Hun.
    by destruct (Str.split_on _ _) as [|? [|? ?]]; simplify_eq.
Qed.

Lemma ring_coords_bad (tokens : list string) (token : string) :
  token ∈ tokens → bad_token token → ring_coords tokens = Raise ValueError.
Proof.
  intros Hin Hbad. induction tokens as [|t tokens IH];
    [by apply elem_of_nil in Hin|].
  cbn [ring_coords].
  destruct (decide (t = token)) as [->|Hne].
  - pose proof (bad_token_raises token Hbad) as Hr.
    destruct (unpack2 _) as [[lon lat]|e]; cbn in *; [|by simplify_eq].
    destruct (float_str lon); cbn in *; [|by simplify_eq].
    destruct (float_str lat); cbn in *; by simplify_eq.
  - apply elem_of_cons in Hin as [?|Hin]; [congruence|].
    rewrite (IH Hin).
    destruct (unpack2 _) as [[lon lat]|e] eqn:Hun; cbn.
    + unfold float_str.
      destruct (float_of_str lon); cbn; [|done].
      destruct (float_of_str lat); cbn; done.
    + unfold unpack2 in Hun.
      by destruct (Str.split_on _ _) as [|? [|? ?]]; simplify_eq.
Qed.

Lemma convert_root_raise (root pm : elem) (flag : option string)
      (w : world) (e : exn) :
  pm ∈ desc (kml "Placemark") root →
  point_record pm = Raise e ∨ polygon_record pm = Raise e →
  ∃ e', convert_root root flag w = (Raise e', w).
Proof.
  intros Hin Hraise. unfold convert_root, parse_polygons, parse_points.
  destruct (collect polygon_record _) as [polys|e1] eqn:Hpolys;
    [|by exists e1].
  destruct Hraise as [Hpt|Hpoly].
  - destruct (collect_raise point_record _ _ _ Hin Hpt) as [e' ->].
    by exists e'.
  - destruct (collect_raise polygon_record _ _ _ Hin Hpoly) as [e' He'].
    congruence.
Qed.

(** C4, amended. A placemark whose coordinate element is missing or holds
    only blank text is skipped: its record is left out and nothing is
    raised. Coordinate text that is not blank but cannot be read (a token
    with fewer than two fields or with a field that is not a float) is not
    recovered: the error leaves the extractor and ends the conversion. *)
Theorem C4_blank_geometry_skipped (pm : elem) :
  (no_coords (point_coords_el pm) = true →
   point_record pm = Ok None
   ∧ ∀ before after,
       collect point_record (before ++ pm :: after)
       = collect point_record (before ++ after))
  ∧ (no_coords (ring_coords_el pm) = true →
     polygon_record pm = Ok None
     ∧ ∀ before after,
         collect polygon_record (before ++ pm :: after)
         = collect polygon_record (before ++ after))
  ∧ (first (desc (kml "Point") pm) ≠ None →
     no_coords (point_coords_el pm) = false →
     bad_token (coords_text (point_coords_el pm)) →
     point_record pm = Raise ValueError)
  ∧ (first (desc (kml "Polygon") pm) ≠ None →
     no_coords (ring_coords_el pm) = false →
     (∃ token,
         token ∈ Str.split_ws (coords_text (ring_coords_el pm))
         ∧ bad_token token) →
     polygon_record pm = Raise ValueError)
  ∧ (∀ root flag w e,
        pm ∈ desc (kml "Placemark") root →
        point_record pm = Raise e ∨ polygon_record pm = Raise e →
        ∃ e', convert_root root flag w = (Raise e', w)).
Proof.
  split; [|split; [|split; [|split]]].
  - intros Hblank. pose proof (point_record_blank pm Hblank) as Hskip.
    split; [done|]. intros before after. by apply collect_app_skip.
  - intros Hblank. pose proof (polygon_record_blank pm Hblank) as Hskip.
    split; [done|]. intros before after. by apply collect_app_skip.
  - intros Hpoint Hcoords Hbad. unfold point_record.
    destruct (first (desc _ pm)); [|done]. rewrite Hcoords.
    pose proof (bad_token_raises _ Hbad) as Hr.
    destruct (unpack2 _) as [[lon lat]|e0]; cbn in *; [|by simplify_eq].
    destruct (float_str lon); cbn in *; [|by simplify_eq].
    destruct (float_str lat); cbn in *; by simplify_eq.
  - intros Hpoly Hcoords (token & Hin & Hbad). unfold polygon_record.
    destruct (first (desc _ pm)); [|done]. rewrite Hcoords.
    by rewrite (ring_coords_bad _ _ Hin Hbad).
  - intros root flag w e. apply convert_root_raise.
Qed.

End ExtractorFacts.

Lemma C8_boundary_name_witness :
  boundary_name zone_a = "Zone A".
Proof.
  destruct (@C8_boundary_name Grid.grid_float Grid.grid_shapely zone_a)
    as (_ & _ & Hname).
  destruct (Hname zone_a_name eq_refl) as (_ & Hstrip & _).
  apply (Hstrip " Zone A "); [reflexivity | discriminate].
Defined.

(** C8 as stated fails: a polygon placemark whose name is three spaces gets
    the empty identifier, not the sentinel. *)
Lemma C8_whitespace_name_counterexample :
  first (child (kml "name") zone_blank) = Some (Grid.leaf "name" "   ")
  ∧ boundary_name zone_blank = ""
  ∧ boundary_name zone_blank ≠ "UNKNOWN_BOUNDARY"
  ∧ @polygon_record Grid.grid_float Grid.grid_shapely zone_blank
    = Ok (Some ("", rect_a, rect_a)).
Proof. repeat split; (reflexivity || discriminate). Qed.

Lemma C4_blank_geometry_skipped_witness :
  @point_record Grid.grid_float point_no_text = Ok None
  ∧ @point_record Grid.grid_float point_bad_text = Raise ValueError.
Proof.
  destruct (@C4_blank_geometry_skipped Grid.grid_float Grid.grid_pandas Grid.grid_shapely
              Grid.grid_provider point_no_text) as (Hskip & _).
  destruct (@C4_blank_geometry_skipped Grid.grid_float Grid.grid_pandas Grid.grid_shapely
              Grid.grid_provider point_bad_text) as (_ & _ & Hbad & _).
  split.
  - apply Hskip. reflexivity.
  - apply Hbad; [discriminate | reflexivity |].
    intros lon lat Hun. vm_compute in Hun. discriminate Hun.
Defined.

(** C4 as stated fails: a point placemark whose coordinate text is ["abc"]
    is not skipped; the error ends the conversion of a document that also
    holds a well-formed point. The same holds for a ring with an unreadable
    token. *)
Lemma C4_unparsable_geometry_counterexample :
  @parse_points Grid.grid_float
     (Grid.document [zone_a; point_good; point_bad_text]) = Raise ValueError
  ∧ @convert_root Grid.grid_float Grid.grid_pandas Grid.grid_shapely
      Grid.grid_provider
      (Grid.document [zone_a; point_good; point_bad_text]) None Grid.w0
    = (Raise ValueError, Grid.w0)
  ∧ @convert_root Grid.grid_float Grid.grid_pandas Grid.grid_shapely
      Grid.grid_provider
      (Grid.document [ring_bad_text; point_good]) None Grid.w0
    = (Raise ValueError, Grid.w0).
Proof. repeat split. Qed.

(** ** Boundary index *)

Section BoundaryFacts.
Context `{FloatOps} `{!Shapely}.
Implicit Types (polygons : list (string * prepared * polygon)).

Lemma first_match_none (p : point) polygons :
  Forall (fun entry => encloses p entry = false) polygons →
  first_match p polygons = None.
Proof.
  induction 1 as [|[[bname ppoly] poly] polygons Hmiss _ IH]; [done|].
  cbn [first_match]. unfold encloses in Hmiss. cbn in Hmiss.
  by rewrite Hmiss.
Qed.

Lemma first_match_first (p : point) before entry after :
  Forall (fun entry' => encloses p entry' = false) before →
  encloses p entry = true →
  first_match p (before ++ entry :: after) = Some (fst (fst entry)).
Proof.
  intros Hbefore Hhit.
  induction Hbefore as [|[[bname ppoly] poly] before Hmiss _ IH].
  - destruct entry as [[bname ppoly] poly]. cbn [app first_match].
    unfold encloses in Hhit. cbn in Hhit. by rewrite Hhit.
  - cbn [app first_match]. unfold encloses in Hmiss. cbn in Hmiss.
    by rewrite Hmiss.
Qed.

Lemma first_match_spec (p : point) polygons :
  match first_match p polygons with
  | None => Forall (fun entry => encloses p entry = false) polygons
  | Some bname =>
      ∃ before entry after,
        polygons = before ++ entry :: after
        ∧ Forall (fun entry' => encloses p entry' = false) before
        ∧ encloses p entry = true
        ∧ bname = fst (fst entry)
  end.
Proof.
  induction polygons as [|[[bname ppoly] poly] polygons IH];
    cbn [first_match]; [by constructor|].
  destruct (contains ppoly p || touches poly p) eqn:Hhit.
  - by exists [], (bname, ppoly, poly), polygons.
  - destruct (first_match p polygons) as [b|].
    + destruct IH as (before & entry & after & -> & Hbefore & Hentry & ->).
      exists ((bname, ppoly, poly) :: before), entry, after.
      split; [done|]. split; [by constructor|]. done.
    + by constructor.
Qed.

(** C1. [assign_boundary] walks the polygons in list order and returns
    the identifier of the first one that contains the coordinate or
    touches it; it returns [None] when no polygon does, in particular for
    the empty list. Of two polygons that both enclose the point, the one
    listed first gives the identifier. *)
Theorem C1_assign_first_match (lat lon : float) polygons :
  let p := point_xy lon lat in
  let assign := assign_boundary (VFloat lat) (VFloat lon) in
  assign [] = Ok None
  ∧ (Forall (fun entry => encloses p entry = false) polygons →
     assign polygons = Ok None)
  ∧ (∀ before entry after,
        polygons = before ++ entry :: after →
        Forall (fun entry' => encloses p entry' = false) before →
        encloses p entry = true →
        assign polygons = Ok (Some (fst (fst entry))))
  ∧ (∃ r, assign polygons = Ok r
          ∧ match r with
            | None => Forall (fun entry => encloses p entry = false) polygons
            | Some bname =>
                ∃ before entry after,
                  polygons = before ++ entry :: after
                  ∧ Forall (fun entry' => encloses p entry' = false) before
                  ∧ encloses p entry = true
                  ∧ bname = fst (fst entry)
            end)
  ∧ (∀ a b,
        encloses p a = true → encloses p b = true →
        assign [a; b] = Ok (Some (fst (fst a)))
        ∧ assign [b; a] = Ok (Some (fst (fst b)))).
Proof.
  intros p assign. subst assign. unfold assign_boundary, Point.
  cbn [rbind]. fold p. split; [done|]. split; [|split; [|split]].
  - intros Hmiss. by rewrite first_match_none.
  - intros before entry after -> Hbefore Hhit.
    by rewrite first_match_first.
  - exists (first_match p polygons). split; [done|].
    apply first_match_spec.
  - intros a b Ha Hb.
    split; f_equal; by apply (first_match_first p [] _ [_]).
Qed.

End BoundaryFacts.

Lemma C1_assign_first_match_witness :
  @assign_boundary Grid.grid_float Grid.grid_shapely
     (Grid.vnum 7) (Grid.vnum 7) [entry_a; entry_b]
  = Ok (Some "A")
  ∧ @assign_boundary Grid.grid_float Grid.grid_shapely
      (Grid.vnum 7) (Grid.vnum 7) [entry_b; entry_a]
    = Ok (Some "B")
  ∧ @assign_boundary Grid.grid_float Grid.grid_shapely
      (Grid.vnum 10) (Grid.vnum 15) [entry_a; entry_b]
    = Ok (Some "B")
  ∧ @assign_boundary Grid.grid_float Grid.grid_shapely
      (Grid.vnum 30) (Grid.vnum 30) [entry_a; entry_b]
    = Ok None.
Proof.
  destruct (@C1_assign_first_match Grid.grid_float Grid.grid_shapely
              (Grid.GNum 7) (Grid.GNum 7) [entry_a; entry_b])
    as (_ & _ & _ & _ & Hswap).
  destruct (Hswap entry_a entry_b eq_refl eq_refl) as [Hab Hba].
  destruct (@C1_assign_first_match Grid.grid_float Grid.grid_shapely
              (Grid.GNum 10) (Grid.GNum 15) [entry_a; entry_b])
    as (_ & _ & Hfirst & _).
  destruct (@C1_assign_first_match Grid.grid_float Grid.grid_shapely
              (Grid.GNum 30) (Grid.GNum 30) [entry_a; entry_b])
    as (_ & Hnone & _).
  split; [exact Hab|]. split; [exact Hba|]. split.
  - apply (Hfirst [entry_a] entry_b []); [reflexivity | | reflexivity].
    repeat constructor.
  - apply Hnone. repeat constructor.
Defined.

(** ** Geocode client *)

Section GeocodeFacts.
Context `{FloatOps} `{!Provider}.

Lemma lookup_hit (lat lon : float) (w : world) (road : option string)
      (raw : string) :
  cache w !! cache_key lat lon = Some (road, raw) →
  reverse_geocode_nominatim_cached lat lon w = (Ok road, w).
Proof.
  unfold cache_key, reverse_geocode_nominatim_cached. by intros ->.
Qed.

Lemma lookup_Ok_cached (lat lon : float) (w w1 : world)
      (road : option string) :
  reverse_geocode_nominatim_cached lat lon w = (Ok road, w1) →
  ∃ raw, cache w1 !! cache_key lat lon = Some (road, raw).
Proof.
  unfold cache_key, reverse_geocode_nominatim_cached.
  destruct (cache w !! (fmt5 lat, fmt5 lon)) as [[road0 raw0]|] eqn:Hrow.
  - intros [= <- <-]. by exists raw0.
  - destruct (http_get _ lat lon) as [| | |j]; try done.
    destruct (let? road := select_road j in sql_text road) as [road1|e];
      [|done].
    intros [= <- <-]. eexists. cbn [cache]. apply lookup_insert_eq.
Qed.

Lemma lookup_Raise_inv (lat lon : float) (w w1 : world) (e : exn) :
  reverse_geocode_nominatim_cached lat lon w = (Raise e, w1) →
  cache w !! cache_key lat lon = None ∧ w1 = sent lat lon w.
Proof.
  unfold cache_key, reverse_geocode_nominatim_cached.
  destruct (cache w !! (fmt5 lat, fmt5 lon)) as [row|]; [done|].
  destruct (http_get _ lat lon) as [| | |j]; try by intros [= <- <-].
  destruct (let? road := select_road j in sql_text road) as [road1|e1];
    [done|].
  by intros [= <- <-].
Qed.

(** C2. When the rounded key of the coordinate is in the cache store, the
    lookup returns the stored street name, a stored [None] included, and
    leaves the world as it was: no request is sent and no throttle sleep
    is taken. Hence after a lookup that returned, a lookup of any
    coordinate with the same rounded key returns the same result from the
    cache alone. *)
Theorem C2_cache_hit (lat lon : float) (w : world) :
  (∀ road raw,
      cache w !! cache_key lat lon = Some (road, raw) →
      reverse_geocode_nominatim_cached lat lon w = (Ok road, w))
  ∧ (∀ road w1,
        reverse_geocode_nominatim_cached lat lon w = (Ok road, w1) →
        ∀ lat' lon',
          cache_key lat' lon' = cache_key lat lon →
          reverse_geocode_nominatim_cached lat' lon' w1 = (Ok road, w1)
          ∧ requests (snd (reverse_geocode_nominatim_cached lat' lon' w1))
            = requests w1
          ∧ sleeps (snd (reverse_geocode_nominatim_cached lat' lon' w1))
            = sleeps w1).
Proof.
  split.
  - intros road raw. apply lookup_hit.
  - intros road w1 Hfirst lat' lon' Hkey.
    destruct (lookup_Ok_cached _ _ _ _ _ Hfirst) as [raw Hrow].
    rewrite <- Hkey in Hrow.
    by rewrite (lookup_hit _ _ _ _ _ Hrow).
Qed.

Lemma select_road_not_obj (j : json) :
  is_obj j = false → select_road j = Raise AttributeError.
Proof. by destruct j. Qed.

Lemma select_road_address_not_obj (items : list (string * json)) (a : json) :
  dict_get "address" items = Some a → is_obj a = false →
  select_road (JObj items) = Raise AttributeError.
Proof.
  intros Ha Hobj. unfold select_road. cbn [py_get rbind]. rewrite Ha.
  by destruct a.
Qed.

Lemma lookup_miss_fails (lat lon : float) (w : world) :
  cache w !! cache_key lat lon = None →
  match http_get (length (requests w)) lat lon with
  | Payload j => ∃ e, (let? road := select_road j in sql_text road) = Raise e
  | _ => True
  end →
  ∃ e, reverse_geocode_nominatim_cached lat lon w = (Raise e, sent lat lon w).
Proof.
  unfold cache_key, reverse_geocode_nominatim_cached. intros ->.
  destruct (http_get _ lat lon) as [| | |j]; try by eexists.
  intros [e ->]. by exists e.
Qed.

End GeocodeFacts.

Lemma C2_cache_hit_witness :
  @reverse_geocode_nominatim_cached Grid.grid_float Grid.grid_provider
     (Grid.GNum 7) (Grid.GNum 7) w_null = (Ok None, w_null)
  ∧ ∃ w1,
      @reverse_geocode_nominatim_cached Grid.grid_float Grid.grid_provider
         (Grid.GNum 7) (Grid.GNum 7) Grid.w0 = (Ok (Some "Jalan Merdeka"), w1)
      ∧ @reverse_geocode_nominatim_cached Grid.grid_float Grid.grid_provider
          (Grid.GNum 7) (Grid.GNum 7) w1 = (Ok (Some "Jalan Merdeka"), w1).
Proof.
  destruct (@C2_cache_hit Grid.grid_float Grid.grid_provider
              (Grid.GNum 7) (Grid.GNum 7) w_null) as [Hhit _].
  destruct (@C2_cache_hit Grid.grid_float Grid.grid_provider
              (Grid.GNum 7) (Grid.GNum 7) Grid.w0) as [_ Hagain].
  split.
  - apply (Hhit None "{...}"). reflexivity.
  - eexists. split; [reflexivity|].
    apply (Hagain _ _ eq_refl (Grid.GNum 7) (Grid.GNum 7) eq_refl).
Defined.

(** ** Container unpacking *)

Lemma filter_first {A} (f : A -> bool) (l : list A) (x : A) (rest : list A) :
  List.filter f l = x :: rest →
  ∃ before after,
    l = before ++ x :: after
    ∧ Forall (fun y => f y = false) before
    ∧ f x = true.
Proof.
  induction l as [|y l IH]; cbn [List.filter]; [done|].
  destruct (f y) eqn:Hy.
  - intros [= -> <-]. by exists [], l.
  - intros Hl. destruct (IH Hl) as (before & after & -> & Hbefore & Hx).
    exists (y :: before), after. split; [done|]. split; [by constructor | done].
Qed.

(** C10. For an upload whose name ends in [.kmz], whatever the case, and
    whose archive lists one or more [.kml] members, [extract_kml_bytes]
    returns what the archive reader gives for the first such name in
    listing order; the other [.kml] members are not read and are no
    error. *)
Theorem C10_first_kml_member `{Zip} (upload_bytes : bytes)
        (filename : option string) (z : archive) (n : string)
        (rest : list string) :
  Str.endswith (Str.lower (or_empty filename)) ".kmz" = true →
  ZipFile upload_bytes = Ok z →
  List.filter is_kml_name (namelist z) = n :: rest →
  extract_kml_bytes upload_bytes filename = zread z n
  ∧ ∃ before after,
      namelist z = before ++ n :: after
      ∧ Forall (fun m => is_kml_name m = false) before
      ∧ is_kml_name n = true.
Proof.
  intros Hkmz Hzip Hkml. split.
  - unfold extract_kml_bytes.
    rewrite (endswith_kmz_not_kml _ Hkmz), Hkmz, Hzip. cbn [rbind].
    by rewrite Hkml.
  - by apply (filter_first _ _ _ rest).
Qed.

Lemma C10_first_kml_member_witness :
  @extract_kml_bytes Grid.grid_zip (Grid.bytes_of "PK-two") (Some "Area.KMZ")
  = Ok (Grid.bytes_of "<kml>first</kml>").
Proof.
  destruct (@C10_first_kml_member Grid.grid_zip (Grid.bytes_of "PK-two")
              (Some "Area.KMZ") Grid.two_kml "doc.KML" ["extra.kml"])
    as [Hread _]; [reflexivity | reflexivity | reflexivity |].
  rewrite Hread. reflexivity.
Defined.

(** ** Conversion pipeline *)

Section ApplyRows.
Context {A B : Type} (f : A -> result B).

Lemma apply_rows_Raise_inv (l : list A) (e : exn) :
  apply_rows f l = Raise e → ∃ x, x ∈ l ∧ f x = Raise e.
Proof.
  induction l as [|x l IH]; cbn [apply_rows]; [done|].
  destruct (f x) as [y|e0] eqn:Hx; cbn.
  - destruct (apply_rows f l) as [ys|e1]; cbn; [done|].
    intros [= <-]. destruct (IH eq_refl) as (x' & Hin & Hx').
    exists x'. split; [by apply elem_of_cons; right | done].
  - intros [= <-]. exists x. split; [by apply elem_of_cons; left | done].
Qed.

Lemma apply_rows_total (l : list A) :
  Forall (fun x => ∃ y, f x = Ok y) l → ∃ ys, apply_rows f l = Ok ys.
Proof.
  induction 1 as [|x l [y Hy] _ [ys Hys]]; cbn [apply_rows].
  - by exists [].
  - rewrite Hy, Hys. by eexists.
Qed.

End ApplyRows.

Lemma apply_rows_length {A B} (f : A -> result B) (l : list A) (ys : list B) :
  apply_rows f l = Ok ys → length ys = length l.
Proof.
  revert ys. induction l as [|x l IH]; intros ys; cbn [apply_rows].
  - by intros [= <-].
  - destruct (f x); cbn; [|done].
    destruct (apply_rows f l) as [ys'|]; cbn; [|done].
    intros [= <-]. cbn. by rewrite (IH ys').
Qed.

Lemma apply_rows_lookup {A B} (f : A -> result B) (l : list A) (ys : list B)
      (i : nat) (x : A) :
  apply_rows f l = Ok ys → l !! i = Some x →
  ∃ y, ys !! i = Some y ∧ f x = Ok y.
Proof.
  revert ys i. induction l as [|x0 l IH]; intros ys i; cbn [apply_rows];
    [done|].
  destruct (f x0) as [y0|] eqn:Hx0; cbn; [|done].
  destruct (apply_rows f l) as [ys'|]; cbn; [|done].
  intros [= <-]. destruct i as [|i]; cbn.
  - intros [= <-]. by exists y0.
  - by apply IH.
Qed.

Lemma apply_rows_raises {A B} (f : A -> result B) (l : list A) (x : A)
      (e : exn) :
  x ∈ l → f x = Raise e → ∃ e', apply_rows f l = Raise e'.
Proof.
  intros Hin Hx. induction l as [|x0 l IH]; [by apply elem_of_nil in Hin|].
  cbn [apply_rows]. apply elem_of_cons in Hin as [<-|Hin].
  - rewrite Hx. by exists e.
  - destruct (f x0) as [y0|e0]; cbn; [|by exists e0].
    destruct (IH Hin) as [e' ->]. by exists e'.
Qed.

(** ** Column order *)

Lemma mem_true (c : key) (l : list key) : mem c l = true ↔ c ∈ l.
Proof.
  induction l as [|c' l IH]; cbn [mem].
  - split; [done | by intros ?%elem_of_nil].
  - rewrite orb_true_iff, bool_decide_eq_true, IH, elem_of_cons.
    split; (intros [?|?]; [by left | by right]).
Qed.

Lemma mem_app (c : key) (l1 l2 : list key) :
  mem c (l1 ++ l2) = mem c l1 || mem c l2.
Proof.
  induction l1 as [|c' l1 IH]; cbn [mem app]; [done|].
  by rewrite IH, orb_assoc.
Qed.

Lemma mem_filter (f : key -> bool) (c : key) (l : list key) :
  mem c (List.filter f l) = f c && mem c l.
Proof.
  induction l as [|c' l IH]; cbn [List.filter mem].
  - by rewrite andb_false_r.
  - destruct (f c') eqn:Hc'; cbn [mem]; rewrite IH.
    + destruct (bool_decide (c' = c)) eqn:Heq; cbn; [|done].
      apply bool_decide_eq_true in Heq as <-. by rewrite Hc'.
    + destruct (bool_decide (c' = c)) eqn:Heq; cbn; [|done].
      apply bool_decide_eq_true in Heq as <-. by rewrite Hc'.
Qed.

Lemma mem_first_seen (c : key) (l : list key) :
  mem c (first_seen l) = mem c l.
Proof.
  induction l as [|c' l IH]; cbn [first_seen mem]; [done|].
  rewrite mem_filter, IH.
  destruct (bool_decide (c' = c)) eqn:Heq; cbn; [done|].
  apply bool_decide_eq_false in Heq.
  rewrite bool_decide_eq_false_2; [done | congruence].
Qed.

Lemma filter_filter_both {A} (f g : A -> bool) (l : list A) :
  List.filter g (List.filter f l) = List.filter (fun x => f x && g x) l.
Proof.
  induction l as [|x l IH]; cbn [List.filter]; [done|].
  destruct (f x); cbn [List.filter andb]; [|done].
  destruct (g x); by rewrite IH.
Qed.

Lemma filter_all {A} (f : A -> bool) (l : list A) :
  (∀ x, f x = true) → List.filter f l = l.
Proof.
  intros Hf. induction l as [|x l IH]; cbn [List.filter]; [done|].
  by rewrite Hf, IH.
Qed.

Lemma fold_add_column (l acc : list key) :
  fold_left add_column l acc
  = acc ++ List.filter (fun c => negb (mem c acc)) (first_seen l).
Proof.
  revert acc. induction l as [|c l IH]; intros acc;
    cbn [fold_left first_seen List.filter].
  - by rewrite app_nil_r.
  - rewrite IH. unfold add_column. destruct (mem c acc) eqn:Hc; cbn [negb].
    + f_equal. rewrite filter_filter_both. apply List.filter_ext.
      intros x. destruct (bool_decide (x = c)) eqn:Hx; cbn; [|done].
      apply bool_decide_eq_true in Hx as ->. by rewrite Hc.
    + rewrite <- app_assoc. cbn [app]. do 2 f_equal.
      rewrite filter_filter_both. apply List.filter_ext.
      intros x. rewrite mem_app. cbn [mem]. rewrite orb_false_r.
      rewrite negb_orb, andb_comm. f_equal. f_equal.
      apply bool_decide_ext. split; congruence.
Qed.


Lemma elem_of_list_filter {A} (f : A -> bool) (l : list A) (x : A) :
  x ∈ List.filter f l ↔ f x = true ∧ x ∈ l.
Proof.
  rewrite !list_elem_of_In, List.filter_In. tauto.
Qed.
(** Evaluate the comparisons of two literal column names. *)
Ltac eval_key_tests :=
  repeat match goal with
         | |- context [bool_decide (Some ?a = Some ?b)] =>
             let v := eval vm_compute in (bool_decide (Some a = Some b)) in
             change (bool_decide (Some a = Some b)) with v
         end.


(** ** The geocode loop *)

Section LoopFacts.
Context `{FloatOps} `{!Pandas} `{!Provider}.

Lemma row_street_failure (r : list (key * pyval)) (lat lon : float)
      (w w1 : world) (e : exn) :
  row_float r (Some "lat") = Ok lat →
  row_float r (Some "lon") = Ok lon →
  reverse_geocode_nominatim_cached lat lon w = (Raise e, w1) →
  row_street r w = (None, w1).
Proof. unfold row_street. by intros -> -> ->. Qed.

Lemma geocode_rows_app (rs1 rs2 : list (list (key * pyval))) (w : world) :
  geocode_rows (rs1 ++ rs2) w
  = let '(streets1, w1) := geocode_rows rs1 w in
    let '(streets2, w2) := geocode_rows rs2 w1 in
    (streets1 ++ streets2, w2).
Proof.
  revert w. induction rs1 as [|r rs1 IH]; intros w; cbn [app geocode_rows].
  - by destruct (geocode_rows rs2 w).
  - destruct (row_street r w) as [street w1]. rewrite IH.
    destruct (geocode_rows rs1 w1) as [streets1 w2].
    by destruct (geocode_rows rs2 w2).
Qed.

Lemma geocode_rows_length (rs : list (list (key * pyval))) (w : world) :
  length (fst (geocode_rows rs w)) = length rs.
Proof.
  revert w. induction rs as [|r rs IH]; intros w; cbn [geocode_rows];
    [done|].
  destruct (row_street r w) as [street w1]. specialize (IH w1).
  destruct (geocode_rows rs w1). cbn in *. by rewrite IH.
Qed.

End LoopFacts.

(** ** Frames *)

Section Frames.
Context `{FloatOps} `{!Pandas}.
Implicit Types (points rs : list (list (key * pyval)))
         (r fr : list (key * pyval)).

Lemma record_keys_first_seen points :
  record_keys points = first_seen (all_keys points).
Proof.
  unfold record_keys, all_keys.
  rewrite (fold_left_flat_map add_column dict_keys), fold_add_column.
  cbn [app]. by apply filter_all.
Qed.

Lemma rest_add_front_column (cols : list key) (c : key) :
  mem c front = true →
  List.filter (fun c' => negb (mem c' front)) (add_column cols c)
  = List.filter (fun c' => negb (mem c' front)) cols.
Proof.
  intros Hc. unfold add_column. destruct (mem c cols); [done|].
  rewrite List.filter_app. cbn [List.filter]. rewrite Hc. cbn.
  by rewrite app_nil_r.
Qed.

Lemma mem_add_column (c c' : key) (cols : list key) :
  mem c (add_column cols c') = mem c cols || bool_decide (c' = c).
Proof.
  unfold add_column. destruct (mem c' cols) eqn:Hc'.
  - destruct (bool_decide (c' = c)) eqn:Heq; [|by rewrite orb_false_r].
    apply bool_decide_eq_true in Heq as <-. by rewrite Hc'.
  - rewrite mem_app. cbn [mem]. by rewrite orb_false_r.
Qed.

Lemma dict_update_keeps r (items : list (key * pyval)) (k : key) :
  mem k (dict_keys r) = true → mem k (dict_keys (dict_update r items)) = true.
Proof.
  unfold dict_update. revert r.
  induction items as [|[k0 v0] items IH]; intros r Hk; cbn [fold_left];
    [done|].
  apply IH. cbn [fst snd]. rewrite dict_keys_set.
  case_decide; [done|]. rewrite mem_app, Hk. done.
Qed.

Lemma point_record_keys (pm : elem) r (k : key) :
  point_record pm = Ok (Some r) →
  k ∈ [Some "homepass"; Some "lat"; Some "lon"] →
  mem k (dict_keys r) = true.
Proof.
  unfold point_record. destruct (first _); [|done].
  destruct (no_coords _); [done|].
  destruct (unpack2 _) as [[lon lat]|]; cbn; [|done].
  destruct (float_str lon); cbn; [|done].
  destruct (float_str lat); cbn; [|done].
  intros [= <-] Hk. apply dict_update_keeps.
  apply mem_true. cbn. done.
Qed.

Lemma parse_points_keys (root : elem) points r (k : key) :
  parse_points root = Ok points → r ∈ points →
  k ∈ [Some "homepass"; Some "lat"; Some "lon"] →
  mem k (dict_keys r) = true.
Proof.
  intros Hparse Hin Hk.
  destruct (collect_Ok_inv _ _ _ _ Hparse Hin) as (pm & _ & Hpm).
  by apply (point_record_keys pm).
Qed.

Lemma dict_get_tabulate (f : key -> pyval) (cols : list key) (c : key) :
  dict_get c (map (fun c' => (c', f c')) cols)
  = if mem c cols then Some (f c) else None.
Proof.
  induction cols as [|c0 cols IH]; cbn [map dict_get mem]; [done|].
  destruct (decide (c0 = c)) as [->|Hne].
  - by rewrite bool_decide_eq_true_2.
  - by rewrite bool_decide_eq_false_2.
Qed.

Lemma mem_dict_keys {V} (d : list (key * V)) (c : key) :
  mem c (dict_keys d) = false → dict_get c d = None.
Proof.
  intros Hc. apply dict_get_None_keys. intros Hin%mem_true. congruence.
Qed.

Lemma record_key_known points r (c : key) :
  r ∈ points → mem c (record_keys points) = false → dict_get c r = None.
Proof.
  intros Hr Hc. apply mem_dict_keys.
  rewrite record_keys_first_seen, mem_first_seen in Hc.
  destruct (mem c (dict_keys r)) eqn:Hk; [|done].
  assert (Hall : mem c (all_keys points) = true); [|congruence].
  apply mem_true. unfold all_keys. apply list_elem_of_In, in_flat_map.
  exists r. split; apply list_elem_of_In; [done | by apply mem_true].
Qed.

(** The value the frame holds for a record under any column. *)
Lemma cell_frame_row points r (c : key) :
  r ∈ points → cell (frame_row points r) c = record_cell points r c.
Proof.
  intros Hr. unfold cell, frame_row, record_cell.
  rewrite dict_get_tabulate.
  destruct (mem c (record_keys points)) eqn:Hc; [done|].
  by rewrite (record_key_known _ _ _ Hr Hc).
Qed.

Lemma dict_get_frame_row points r (c : key) :
  dict_get c r ≠ None → r ∈ points →
  dict_get c (frame_row points r) = Some (record_cell points r c).
Proof.
  intros Hc Hr. unfold frame_row, record_cell. rewrite dict_get_tabulate.
  destruct (mem c (record_keys points)) eqn:Hmem; [done|].
  by rewrite (record_key_known _ _ _ Hr Hmem) in Hc.
Qed.

Lemma frame_rows_lookup points (i : nat) :
  rows (DataFrame points) !! i = frame_row points <$> points !! i.
Proof.
  cbn [rows DataFrame].
  change (map ?f points) with (f <$> points). apply list_lookup_fmap.
Qed.

Lemma frame_rows_length points :
  length (rows (DataFrame points)) = length points.
Proof. cbn [rows DataFrame]. apply length_map. Qed.

Lemma frame_row_elem points fr :
  fr ∈ rows (DataFrame points) → ∃ r, r ∈ points ∧ fr = frame_row points r.
Proof.
  cbn [rows DataFrame]. intros (r & <- & Hr)%list_elem_of_In%in_map_iff.
  exists r. split; [by apply list_elem_of_In | done].
Qed.

Lemma item_found (s : site) fr (c : key) (v : pyval) :
  dict_get c fr = Some v →
  item s fr c = Ok (stored s (map (fun kv => Some (snd kv)) fr) (Some v)).
Proof. unfold item. by intros ->. Qed.

Lemma item_str (s : site) fr (c : key) (x : string) :
  dict_get c fr = Some (VStr x) → item s fr c = Ok (VStr x).
Proof. intros Hc. by rewrite (item_found _ _ _ _ Hc). Qed.

Lemma item_float (s : site) fr (c : key) (x : float) :
  dict_get c fr = Some (VFloat x) → item s fr c = Ok (VFloat x).
Proof. intros Hc. by rewrite (item_found _ _ _ _ Hc). Qed.

Lemma stored_null (s : site) (raw : list (option pyval)) :
  null (stored s raw (Some VNone)).
Proof. apply none_in_null. Qed.

Lemma set_column_rows_length (s : site) (c : key) (vals : list pyval)
      (df : frame) :
  length vals = length (rows df) →
  length (rows (set_column s c vals df)) = length (rows df).
Proof. intros Hlen. cbn. by apply length_zip_with_l_eq. Qed.

Lemma set_column_lookup (s : site) (c : key) (vals : list pyval) (df : frame)
      (i : nat) fr' :
  rows (set_column s c vals df) !! i = Some fr' →
  ∃ fr v,
    rows df !! i = Some fr ∧ vals !! i = Some v
    ∧ fr' = dict_set c (stored s (map Some vals) (Some v)) fr.
Proof.
  cbn [rows set_column].
  intros (fr & v & -> & Hfr & Hv)%lookup_zip_with_Some. by exists fr, v.
Qed.

Lemma lookup_of_text (l : list (option string)) (i : nat) (v : pyval) :
  map of_text l !! i = Some v → ∃ x, l !! i = Some x ∧ v = of_text x.
Proof.
  change (map of_text l) with (of_text <$> l). rewrite list_lookup_fmap.
  destruct (l !! i) as [x|]; [|done]. intros [= <-]. by exists x.
Qed.

Lemma cell_dict_set fr (c c' : key) (v : pyval) :
  c ≠ c' → cell (dict_set c v fr) c' = cell fr c'.
Proof. intros Hne. unfold cell. by rewrite dict_get_set_ne. Qed.

Lemma cell_set_same (c : key) (v : pyval) fr : cell (dict_set c v fr) c = v.
Proof. unfold cell. by rewrite dict_get_set_eq. Qed.

Lemma row_cell fr (cols : list key) (j : nat) (c : key) :
  cols !! j = Some c → map (cell fr) cols !! j = Some (cell fr c).
Proof.
  intros Hj. change (map ?f cols) with (f <$> cols).
  by rewrite list_lookup_fmap, Hj.
Qed.

(** The rows of the frame once the boundary column is set, and once the
    street column is set. *)
Lemma labelled_lookup points (labels : list (option string)) (i : nat) fr' :
  rows (labelled points labels) !! i = Some fr' →
  ∃ r label,
    points !! i = Some r ∧ labels !! i = Some label
    ∧ fr' = dict_set (Some "boundary") (label_cell labels label)
                     (frame_row points r).
Proof.
  intros (fr & v & Hfr & Hv & ->)%set_column_lookup.
  rewrite frame_rows_lookup in Hfr.
  destruct (points !! i) as [r|]; [|done]. injection Hfr as <-.
  destruct (lookup_of_text _ _ _ Hv) as (label & Hlabel & ->).
  by exists r, label.
Qed.

Lemma geocoded_lookup (df : frame) (streets : list (option string))
      (i : nat) fr' :
  rows (geocoded df streets) !! i = Some fr' →
  ∃ fr street,
    rows df !! i = Some fr ∧ streets !! i = Some street
    ∧ fr' = dict_set (Some "nama_jalan") (street_cell streets street) fr.
Proof.
  intros (fr & v & Hfr & Hv & ->)%set_column_lookup.
  destruct (lookup_of_text _ _ _ Hv) as (street & Hstreet & ->).
  by exists fr, street.
Qed.

Lemma labelled_length points (labels : list (option string)) :
  length labels = length points →
  length (rows (labelled points labels)) = length points.
Proof.
  intros Hlen. unfold labelled.
  rewrite set_column_rows_length; rewrite ?length_map, frame_rows_length; done.
Qed.

Lemma table_of_lookup (df : frame) (i : nat) (row : list pyval) :
  body (table_of df) !! i = Some row →
  ∃ fr, rows df !! i = Some fr
        ∧ row = map (cell fr) (header (table_of df)).
Proof.
  cbn [body header table_of select].
  change (map ?f (rows df)) with (f <$> rows df).
  rewrite list_lookup_fmap.
  destruct (rows df !! i) as [fr|]; [|done]. intros [= <-]. by exists fr.
Qed.

End Frames.

(** ** From the records to the table *)

Section PipelineFacts.
Context `{FloatOps} `{!Pandas} `{!Shapely} `{!Provider}.
Implicit Types (points rs : list (list (key * pyval)))
         (r fr : list (key * pyval)).

Lemma build_table_Ok_inv polygons points flag w t w' :
  build_table polygons points flag w = (Ok t, w') →
  ∃ labels,
    points ≠ []
    ∧ apply_rows (row_boundary polygons) (rows (DataFrame points)) = Ok labels
    ∧ length labels = length points
    ∧ match flag with
      | None => w' = w ∧ t = table_of (labelled points labels)
      | Some _ =>
          w' = snd (geocode_rows (rows (labelled points labels)) w)
          ∧ t = table_of
                  (geocoded (labelled points labels)
                     (fst (geocode_rows (rows (labelled points labels)) w)))
      end.
Proof.
  unfold build_table. destruct points as [|r0 points']; [done|].
  set (points := r0 :: points').
  destruct (apply_rows _ _) as [labels|e] eqn:Hlabels; [|done].
  pose proof (apply_rows_length _ _ _ Hlabels) as Hlen.
  rewrite frame_rows_length in Hlen.
  intros Hbuild. exists labels. split; [done|]. split; [done|].
  split; [done|]. fold (labelled points labels) in Hbuild.
  destruct flag as [flag|].
  - destruct (geocode_rows (rows (labelled points labels)) w)
      as [streets w2].
    by injection Hbuild as <- <-.
  - by injection Hbuild as <- <-.
Qed.

Lemma build_table_Raise_inv polygons points flag w e w1 :
  build_table polygons points flag w = (Raise e, w1) →
  w1 = w
  ∧ ((points = [] ∧ e = no_points)
     ∨ (∃ r, r ∈ points
             ∧ row_boundary polygons (frame_row points r) = Raise e)).
Proof.
  unfold build_table. destruct points as [|r0 points'].
  - intros [= <- <-]. split; [done|]. by left.
  - destruct (apply_rows _ _) as [labels|e0] eqn:Hlabels.
    + destruct flag as [flag|]; [|done].
      by destruct (geocode_rows _ w).
    + intros [= <- <-]. split; [done|]. right.
      apply apply_rows_Raise_inv in Hlabels as (fr & Hfr & Hraise).
      apply frame_row_elem in Hfr as (r & Hr & ->). by exists r.
Qed.

(** A row whose boundary assignment raises ends the table building. *)
Lemma build_table_row_raises polygons points flag w r e :
  r ∈ points → row_boundary polygons (frame_row points r) = Raise e →
  ∃ e', build_table polygons points flag w = (Raise e', w).
Proof.
  intros Hr Hraise. unfold build_table.
  destruct points as [|r0 points']; [by apply elem_of_nil in Hr|].
  set (points := r0 :: points') in *.
  destruct (apply_rows_raises (row_boundary polygons)
              (rows (DataFrame points)) (frame_row points r) e)
    as [e' ->]; [|done|by exists e'].
  cbn [rows DataFrame]. apply list_elem_of_In, in_map.
  by apply list_elem_of_In.
Qed.

Lemma row_boundary_floats polygons points r (lat lon : float) :
  r ∈ points →
  dict_get (Some "lat") r = Some (VFloat lat) →
  dict_get (Some "lon") r = Some (VFloat lon) →
  row_boundary polygons (frame_row points r)
  = Ok (first_match (point_xy lon lat) polygons).
Proof.
  intros Hr Hlat Hlon. unfold row_boundary.
  rewrite (item_float _ _ _ lat), (item_float _ _ _ lon); [done| |].
  - rewrite dict_get_frame_row; [|by rewrite Hlon|done].
    unfold record_cell. by rewrite Hlon.
  - rewrite dict_get_frame_row; [|by rewrite Hlat|done].
    unfold record_cell. by rewrite Hlat.
Qed.

Lemma build_table_header polygons points flag w t w1 :
  build_table polygons points flag w = (Ok t, w1) →
  header t
  = order_columns
      (match flag with
       | Some _ =>
           add_column (add_column (record_keys points) (Some "boundary"))
                      (Some "nama_jalan")
       | None => add_column (record_keys points) (Some "boundary")
       end).
Proof.
  intros Hbuild.
  destruct (build_table_Ok_inv _ _ _ _ _ _ Hbuild) as (labels & _ & _ & _ & Ht).
  destruct flag as [flag|]; by destruct Ht as [_ ->].
Qed.

Lemma convert_root_Ok_inv (root : elem) flag w t w1 :
  convert_root root flag w = (Ok t, w1) →
  ∃ polygons r0 points',
    parse_polygons root = Ok polygons
    ∧ parse_points root = Ok (r0 :: points')
    ∧ build_table polygons (r0 :: points') flag w = (Ok t, w1).
Proof.
  unfold convert_root.
  destruct (parse_polygons root) as [polygons|]; [|done].
  destruct (parse_points root) as [[|r0 points']|]; [done| |done].
  intros Hbuild. by exists polygons, r0, points'.
Qed.

Lemma convert_root_build (root : elem) polygons points flag w :
  parse_polygons root = Ok polygons → parse_points root = Ok points →
  convert_root root flag w = build_table polygons points flag w.
Proof. unfold convert_root. by intros -> ->. Qed.

(** Every way in which [convert] fails once the document is parsed. *)
Lemma convert_root_Raise_inv (root : elem) flag w e w1 :
  convert_root root flag w = (Raise e, w1) →
  w1 = w
  ∧ (parse_polygons root = Raise e
     ∨ (∃ polygons,
           parse_polygons root = Ok polygons ∧ parse_points root = Raise e)
     ∨ (∃ polygons,
           parse_polygons root = Ok polygons ∧ parse_points root = Ok []
           ∧ e = no_points)
     ∨ (∃ polygons points r,
           parse_polygons root = Ok polygons ∧ parse_points root = Ok points
           ∧ r ∈ points
           ∧ row_boundary polygons (frame_row points r) = Raise e)).
Proof.
  unfold convert_root.
  destruct (parse_polygons root) as [polygons|e0].
  - destruct (parse_points root) as [points|e1].
    + intros [-> [[-> ->]|(r & Hr & Hraise)]]%build_table_Raise_inv.
      * split; [done|]. right. right. left. by exists polygons.
      * split; [done|]. right. right. right. by exists polygons, points, r.
    + intros [= <- <-]. split; [done|]. right. left. by exists polygons.
  - intros [= <- <-]. split; [done|]. by left.
Qed.

Lemma convert_root_header (root : elem) (flag : option string)
        (w w1 : world) (t : table) points :
  parse_points root = Ok points →
  convert_root root flag w = (Ok t, w1) →
  header t
  = [Some "homepass"; Some "lat"; Some "lon"]
    ++ (if match flag with
           | Some _ => true
           | None => mem (Some "nama_jalan") (all_keys points)
           end
        then [Some "nama_jalan"] else [])
    ++ [Some "boundary"]
    ++ List.filter (fun c => negb (mem c front)) (first_seen (all_keys points)).
Proof.
  intros Hpoints Hconv.
  destruct (convert_root_Ok_inv _ _ _ _ _ Hconv)
    as (polygons & r0 & points' & _ & Hpoints' & Hbuild).
  rewrite Hpoints in Hpoints'. injection Hpoints' as ->.
  assert (Hkeys : ∀ k, k ∈ [Some "homepass"; Some "lat"; Some "lon"] →
                       mem k (all_keys (r0 :: points')) = true).
  { intros k Hk. unfold all_keys. cbn [List.flat_map]. rewrite mem_app.
    rewrite (parse_points_keys root (r0 :: points') r0 k Hpoints); [done| |done].
    apply elem_of_cons. by left. }
  rewrite (build_table_header _ _ _ _ _ _ Hbuild), record_keys_first_seen.
  unfold order_columns.
  pose proof (Hkeys (Some "homepass")) as Hhp.
  pose proof (Hkeys (Some "lat")) as Hlat.
  pose proof (Hkeys (Some "lon")) as Hlon.
  specialize (Hhp ltac:(set_solver)).
  specialize (Hlat ltac:(set_solver)).
  specialize (Hlon ltac:(set_solver)).
  destruct flag as [flag|].
  - rewrite !rest_add_front_column by reflexivity.
    cbn [front List.filter].
    rewrite !mem_add_column, !mem_first_seen, Hhp, Hlat, Hlon.
    eval_key_tests. rewrite ?orb_false_r, ?orb_true_r. done.
  - rewrite !rest_add_front_column by reflexivity.
    cbn [front List.filter].
    rewrite !mem_add_column, !mem_first_seen, Hhp, Hlat, Hlon.
    eval_key_tests. rewrite ?orb_false_r, ?orb_true_r.
    by destruct (mem (Some "nama_jalan") _).
Qed.

Lemma build_table_columns polygons points flag w t w1 :
  build_table polygons points flag w = (Ok t, w1) →
  header t
  = List.filter (present points flag) front
    ++ List.filter (fun c => negb (mem c front)) (first_seen (all_keys points)).
Proof.
  intros Hbuild.
  rewrite (build_table_header _ _ _ _ _ _ Hbuild), record_keys_first_seen.
  unfold order_columns. f_equal.
  - apply List.filter_ext. intros c. unfold present.
    destruct flag as [flag|].
    + by rewrite !mem_add_column, mem_first_seen.
    + by rewrite mem_add_column, mem_first_seen, orb_false_r.
  - destruct flag as [flag|]; by rewrite !rest_add_front_column by reflexivity.
Qed.

Lemma header_has_boundary polygons points flag w t w' :
  build_table polygons points flag w = (Ok t, w') →
  Some "boundary" ∈ header t
  ∧ (flag ≠ None → Some "nama_jalan" ∈ header t).
Proof.
  intros Hbuild. rewrite (build_table_columns _ _ _ _ _ _ Hbuild). split.
  - apply elem_of_app. left. apply elem_of_list_filter. split.
    + unfold present. by rewrite bool_decide_eq_true_2, orb_true_r.
    + set_solver.
  - intros Hflag. apply elem_of_app. left. apply elem_of_list_filter. split.
    + unfold present. destruct flag; [|done].
      rewrite (bool_decide_eq_true_2 (Some "nama_jalan" = Some "nama_jalan"))
        by done.
      by rewrite orb_true_r.
    + set_solver.
Qed.

Lemma build_table_length polygons points flag w t w' :
  build_table polygons points flag w = (Ok t, w') →
  length (body t) = length points.
Proof.
  intros Hbuild.
  destruct (build_table_Ok_inv _ _ _ _ _ _ Hbuild)
    as (labels & _ & _ & Hlen & Ht).
  pose proof (labelled_length points labels Hlen) as Hrows.
  destruct flag as [flag|]; destruct Ht as [_ ->];
    cbn [body table_of select]; rewrite length_map; [|done].
  unfold geocoded. rewrite set_column_rows_length; [done|].
  by rewrite length_map, geocode_rows_length.
Qed.

(** With the geocode pass the table is built whenever it is built without
    it, and it has one row per point. *)
Lemma build_table_geocode_total polygons points (flag : option string)
      (w : world) (t : table) :
  fst (build_table polygons points None w) = Ok t →
  ∃ t' w',
    build_table polygons points flag w = (Ok t', w')
    ∧ length (body t') = length points.
Proof.
  intros Hnone.
  assert (Hbuild : ∃ t' w', build_table polygons points flag w = (Ok t', w')).
  { revert Hnone. unfold build_table.
    destruct points as [|r0 points']; [done|].
    destruct (apply_rows _ _) as [labels|e]; [|done]. intros _.
    destruct flag as [flag|]; [|by eexists _, _].
    destruct (geocode_rows _ w) as [streets w']. by eexists _, _. }
  destruct Hbuild as (t' & w' & Hbuild). exists t', w'. split; [done|].
  by apply (build_table_length polygons _ flag w _ w').
Qed.

Lemma convert_root_geocode_total (root : elem) (flag : option string)
      (w : world) (t : table) :
  fst (convert_root root None w) = Ok t →
  ∃ t' w',
    convert_root root flag w = (Ok t', w')
    ∧ length (body t') = length (body t).
Proof.
  unfold convert_root.
  destruct (parse_polygons root) as [polygons|]; [|done].
  destruct (parse_points root) as [points|]; [|done].
  intros Hnone.
  destruct (build_table_geocode_total _ _ flag _ _ Hnone)
    as (t' & w' & Hbuild & Hlen).
  exists t', w'. split; [done|]. rewrite Hlen. symmetry.
  destruct (build_table polygons points None w) as [res w0] eqn:Hbuild0.
  cbn [fst] in Hnone. subst res.
  by apply (build_table_length polygons _ None w _ w0).
Qed.

(** The rows of the table: row [i] is read off the frame row of the
    [i]-th record, with the boundary label set and, with the geocode pass,
    the street name. *)
Lemma build_table_row polygons points flag w t w' labels (i : nat)
      (row : list pyval) :
  build_table polygons points flag w = (Ok t, w') →
  apply_rows (row_boundary polygons) (rows (DataFrame points)) = Ok labels →
  body t !! i = Some row →
  ∃ r label fr,
    points !! i = Some r ∧ labels !! i = Some label
    ∧ row_boundary polygons (frame_row points r) = Ok label
    ∧ rows (labelled points labels) !! i = Some fr
    ∧ fr = dict_set (Some "boundary") (label_cell labels label)
                    (frame_row points r)
    ∧ match flag with
      | None => row = map (cell fr) (header t)
      | Some _ =>
          ∃ street,
            fst (geocode_rows (rows (labelled points labels)) w) !! i
            = Some street
            ∧ row
              = map (cell
                       (dict_set (Some "nama_jalan")
                          (street_cell
                             (fst (geocode_rows
                                     (rows (labelled points labels)) w))
                             street)
                          fr))
                    (header t)
      end.
Proof.
  intros Hbuild Hlabels Hrow.
  destruct (build_table_Ok_inv _ _ _ _ _ _ Hbuild)
    as (labels' & _ & Hlabels' & _ & Ht).
  rewrite Hlabels in Hlabels'. injection Hlabels' as <-.
  assert (Hfr : ∀ fr, rows (labelled points labels) !! i = Some fr →
            ∃ r label,
              points !! i = Some r ∧ labels !! i = Some label
              ∧ row_boundary polygons (frame_row points r) = Ok label
              ∧ fr = dict_set (Some "boundary") (label_cell labels label)
                              (frame_row points r)).
  { intros fr (r & label & Hr & Hlabel & ->)%labelled_lookup.
    exists r, label. split; [done|]. split; [done|]. split; [|done].
    destruct (apply_rows_lookup _ _ _ i (frame_row points r) Hlabels)
      as (label' & Hlabel' & Hok).
    - by rewrite frame_rows_lookup, Hr.
    - rewrite Hlabel in Hlabel'. by injection Hlabel' as <-. }
  destruct flag as [flag|]; destruct Ht as [_ ->].
  - destruct (table_of_lookup _ _ _ Hrow) as (fr2 & Hfr2 & ->).
    destruct (geocoded_lookup _ _ _ _ Hfr2) as (fr & street & Hi & Hstreet & ->).
    destruct (Hfr fr Hi) as (r & label & Hr & Hlabel & Hok & Heq).
    exists r, label, fr. repeat (split; [done|]). by exists street.
  - destruct (table_of_lookup _ _ _ Hrow) as (fr & Hi & ->).
    destruct (Hfr fr Hi) as (r & label & Hr & Hlabel & Hok & Heq).
    by exists r, label, fr.
Qed.

Lemma build_table_has_row polygons points flag w t w' (i : nat) r :
  build_table polygons points flag w = (Ok t, w') →
  points !! i = Some r → ∃ row, body t !! i = Some row.
Proof.
  intros Hbuild Hr. apply lookup_lt_is_Some.
  rewrite (build_table_length _ _ _ _ _ _ Hbuild).
  by apply lookup_lt_is_Some.
Qed.

(** The cell of the street column and of the boundary column in a row of
    the table. *)
Lemma street_column polygons points (flag : string) w t w' labels (i : nat)
      (row : list pyval) :
  build_table polygons points (Some flag) w = (Ok t, w') →
  apply_rows (row_boundary polygons) (rows (DataFrame points)) = Ok labels →
  body t !! i = Some row →
  ∃ j street,
    header t !! j = Some (Some "nama_jalan")
    ∧ fst (geocode_rows (rows (labelled points labels)) w) !! i = Some street
    ∧ row !! j
      = Some (street_cell
                (fst (geocode_rows (rows (labelled points labels)) w)) street).
Proof.
  intros Hbuild Hlabels Hrow.
  destruct (header_has_boundary _ _ _ _ _ _ Hbuild) as [_ Hnj].
  specialize (Hnj ltac:(done)).
  apply list_elem_of_lookup in Hnj as [j Hj].
  destruct (build_table_row _ _ _ _ _ _ _ _ _ Hbuild Hlabels Hrow)
    as (r & label & fr & _ & _ & _ & _ & _ & street & Hstreet & ->).
  exists j, street. split; [done|]. split; [done|].
  by rewrite (row_cell _ _ _ _ Hj), cell_set_same.
Qed.

Lemma boundary_column polygons points flag w t w' labels (i : nat)
      (row : list pyval) :
  build_table polygons points flag w = (Ok t, w') →
  apply_rows (row_boundary polygons) (rows (DataFrame points)) = Ok labels →
  body t !! i = Some row →
  ∃ j r label,
    header t !! j = Some (Some "boundary")
    ∧ points !! i = Some r ∧ labels !! i = Some label
    ∧ row_boundary polygons (frame_row points r) = Ok label
    ∧ row !! j = Some (label_cell labels label).
Proof.
  intros Hbuild Hlabels Hrow.
  destruct (header_has_boundary _ _ _ _ _ _ Hbuild) as [Hbd _].
  apply list_elem_of_lookup in Hbd as [j Hj].
  destruct (build_table_row _ _ _ _ _ _ _ _ _ Hbuild Hlabels Hrow)
    as (r & label & fr & Hr & Hlabel & Hok & _ & -> & Hcells).
  exists j, r, label. repeat (split; [done|]).
  destruct flag as [flag|].
  - destruct Hcells as (street & _ & ->).
    rewrite (row_cell _ _ _ _ Hj), cell_dict_set by done.
    by rewrite cell_set_same.
  - rewrite Hcells. by rewrite (row_cell _ _ _ _ Hj), cell_set_same.
Qed.

Lemma record_column polygons points flag w t w' (i j : nat)
      (row : list pyval) r (c : key) :
  build_table polygons points flag w = (Ok t, w') →
  body t !! i = Some row → points !! i = Some r →
  header t !! j = Some c →
  c ≠ Some "boundary" → c ≠ Some "nama_jalan" →
  row !! j = Some (record_cell points r c).
Proof.
  intros Hbuild Hrow Hr Hj Hbd Hnj.
  destruct (build_table_Ok_inv _ _ _ _ _ _ Hbuild)
    as (labels & _ & Hlabels & _ & _).
  destruct (build_table_row _ _ _ _ _ _ _ _ _ Hbuild Hlabels Hrow)
    as (r' & label & fr & Hr' & _ & _ & _ & -> & Hcells).
  rewrite Hr in Hr'. injection Hr' as <-.
  assert (Hin : r ∈ points) by by eapply list_elem_of_lookup_2.
  destruct flag as [flag|].
  - destruct Hcells as (street & _ & ->).
    rewrite (row_cell _ _ _ _ Hj), !cell_dict_set by done.
    by rewrite cell_frame_row.
  - rewrite Hcells, (row_cell _ _ _ _ Hj), cell_dict_set by done.
    by rewrite cell_frame_row.
Qed.

(** ** Geocode failures *)

(** C3. A lookup that raises leaves the cache store as it was and takes
    no sleep; a lookup that misses the cache raises when the request
    fails, the status is rejected, the body is not JSON, or the payload is
    not of the expected shape. In the geocode loop the exception of one row
    gives [None] as that row's street name and the loop goes on with the
    rows that follow. The geocode pass never makes the conversion fail:
    with the flag the table is built whenever it is built without it, with
    as many rows. In the table [convert] returns with the flag, the street
    column of row [i] holds what pandas stores for the [i]-th result of
    that loop run over the rows of the frame, the name when there is one
    and a null value when the result is [None], and the world after the
    conversion is the world after the loop; so a row whose lookup raises
    has a null street name, and the rows after it are looked up from the
    world the failed lookup left. *)
Theorem C3_geocode_failure (lat lon : float) (w : world) :
  (∀ e w1,
      reverse_geocode_nominatim_cached lat lon w = (Raise e, w1) →
      cache w1 = cache w ∧ sleeps w1 = sleeps w)
  ∧ (cache w !! cache_key lat lon = None →
     match http_get (length (requests w)) lat lon with
     | ConnectionFailed | BadStatus | NotJson => True
     | Payload j =>
         is_obj j = false
         ∨ (∃ items a, j = JObj items
                       ∧ dict_get "address" items = Some a
                       ∧ is_obj a = false)
         ∨ (∃ e, (let? road := select_road j in sql_text road) = Raise e)
     end →
     ∃ e, reverse_geocode_nominatim_cached lat lon w
          = (Raise e, sent lat lon w))
  ∧ (∀ e w1 before r after w0 streets,
        geocode_rows before w0 = (streets, w) →
        row_float r (Some "lat") = Ok lat →
        row_float r (Some "lon") = Ok lon →
        reverse_geocode_nominatim_cached lat lon w = (Raise e, w1) →
        geocode_rows (before ++ r :: after) w0
        = (streets ++ None :: fst (geocode_rows after w1),
           snd (geocode_rows after w1)))
  ∧ (∀ polygons points flag t,
        fst (build_table polygons points None w) = Ok t →
        ∃ t' w',
          build_table polygons points flag w = (Ok t', w')
          ∧ length (body t') = length points)
  ∧ (∀ root flag t,
        fst (convert_root root None w) = Ok t →
        ∃ t' w',
          convert_root root flag w = (Ok t', w')
          ∧ length (body t') = length (body t))
  ∧ (∀ root polygons points flag t w',
        parse_polygons root = Ok polygons →
        parse_points root = Ok points →
        convert_root root (Some flag) w = (Ok t, w') →
        ∃ labels,
          apply_rows (row_boundary polygons) (rows (DataFrame points))
          = Ok labels
          ∧ w' = snd (geocode_rows (rows (labelled points labels)) w)
          ∧ length (body t) = length points
          ∧ ∀ i row,
              body t !! i = Some row →
              ∃ j street,
                header t !! j = Some (Some "nama_jalan")
                ∧ fst (geocode_rows (rows (labelled points labels)) w) !! i
                  = Some street
                ∧ row !! j
                  = Some (street_cell
                            (fst (geocode_rows
                                    (rows (labelled points labels)) w))
                            street)
                ∧ (∀ s, street = Some s → row !! j = Some (VStr s))
                ∧ (street = None → ∃ v, row !! j = Some v ∧ null v))
  ∧ (∀ root polygons points flag t w' w0 labels before fr after streets e w1,
        parse_polygons root = Ok polygons →
        parse_points root = Ok points →
        convert_root root (Some flag) w0 = (Ok t, w') →
        apply_rows (row_boundary polygons) (rows (DataFrame points))
        = Ok labels →
        rows (labelled points labels) = before ++ fr :: after →
        geocode_rows before w0 = (streets, w) →
        row_float fr (Some "lat") = Ok lat →
        row_float fr (Some "lon") = Ok lon →
        reverse_geocode_nominatim_cached lat lon w = (Raise e, w1) →
        w' = snd (geocode_rows after w1)
        ∧ ∃ row j v,
            body t !! length before = Some row
            ∧ header t !! j = Some (Some "nama_jalan")
            ∧ row !! j = Some v ∧ null v).
Proof.
  assert (Hloop : ∀ e w1 before r after w0 streets,
        geocode_rows before w0 = (streets, w) →
        row_float r (Some "lat") = Ok lat →
        row_float r (Some "lon") = Ok lon →
        reverse_geocode_nominatim_cached lat lon w = (Raise e, w1) →
        geocode_rows (before ++ r :: after) w0
        = (streets ++ None :: fst (geocode_rows after w1),
           snd (geocode_rows after w1))).
  { intros e w1 before r after w0 streets Hbefore Hlat Hlon Hraise.
    rewrite geocode_rows_app, Hbefore. cbn [geocode_rows].
    rewrite (row_street_failure _ _ _ _ _ _ Hlat Hlon Hraise).
    by destruct (geocode_rows after w1). }
  assert (Hcells : ∀ polygons points flag t w' w0 labels i row,
        build_table polygons points (Some flag) w0 = (Ok t, w') →
        apply_rows (row_boundary polygons) (rows (DataFrame points))
        = Ok labels →
        body t !! i = Some row →
        ∃ j street,
          header t !! j = Some (Some "nama_jalan")
          ∧ fst (geocode_rows (rows (labelled points labels)) w0) !! i
            = Some street
          ∧ row !! j
            = Some (street_cell
                      (fst (geocode_rows (rows (labelled points labels)) w0))
                      street)
          ∧ (∀ s, street = Some s → row !! j = Some (VStr s))
          ∧ (street = None → ∃ v, row !! j = Some v ∧ null v)).
  { intros polygons points flag t w' w0 labels i row Hbuild Hlabels Hrow.
    destruct (street_column _ _ _ _ _ _ _ _ _ Hbuild Hlabels Hrow)
      as (j & street & Hj & Hstreet & Hcell).
    exists j, street. repeat (split; [done|]). split.
    - intros s ->. by rewrite Hcell.
    - intros ->. eexists. split; [done|]. apply stored_null. }
  split; [|split; [|split; [|split; [|split; [|split]]]]].
  - intros e w1 Hraise.
    destruct (lookup_Raise_inv _ _ _ _ _ Hraise) as [_ ->]. done.
  - intros Hmiss Hreply. apply lookup_miss_fails; [done|].
    destruct (http_get _ lat lon) as [| | |j]; try done.
    destruct Hreply as [Hj|[(items & a & -> & Ha & Hobj)|Hbad]].
    + exists AttributeError. by rewrite select_road_not_obj.
    + exists AttributeError.
      by rewrite (select_road_address_not_obj _ _ Ha Hobj).
    + done.
  - exact Hloop.
  - intros polygons points flag t. apply build_table_geocode_total.
  - intros root flag t. apply convert_root_geocode_total.
  - intros root polygons points flag t w' Hpolys Hpoints Hbuild.
    rewrite (convert_root_build _ _ _ _ _ Hpolys Hpoints) in Hbuild.
    destruct (build_table_Ok_inv _ _ _ _ _ _ Hbuild)
      as (labels & _ & Hlabels & _ & -> & _).
    exists labels. split; [done|]. split; [done|].
    split; [by eapply build_table_length|].
    intros i row Hrow. by eapply Hcells.
  - intros root polygons points flag t w' w0 labels before fr after streets
           e w1 Hpolys Hpoints Hbuild Hlabels Hrows Hbefore Hlat Hlon Hraise.
    rewrite (convert_root_build _ _ _ _ _ Hpolys Hpoints) in Hbuild.
    destruct (build_table_Ok_inv _ _ _ _ _ _ Hbuild)
      as (labels' & _ & Hlabels' & Hlen & -> & _).
    rewrite Hlabels in Hlabels'. injection Hlabels' as <-.
    pose proof (Hloop e w1 before fr after w0 streets Hbefore Hlat Hlon Hraise)
      as Hrun.
    rewrite <- Hrows in Hrun. split; [by rewrite Hrun|].
    assert (Hlenb : length streets = length before).
    { pose proof (geocode_rows_length before w0) as Hl.
      by rewrite Hbefore in Hl. }
    assert (Hi : (length before < length points)%nat).
    { rewrite <- (labelled_length points labels Hlen), Hrows, length_app.
      cbn [length]. lia. }
    apply lookup_lt_is_Some in Hi as [r Hr].
    destruct (build_table_has_row _ _ _ _ _ _ _ _ Hbuild Hr) as [row Hrow].
    destruct (Hcells polygons points flag t _ w0 labels _ row Hbuild Hlabels Hrow)
      as (j & street & Hj & Hstreet & _ & _ & Hnull).
    rewrite Hrun in Hstreet. cbn [fst] in Hstreet.
    rewrite lookup_app_r, Hlenb, Nat.sub_diag in Hstreet by lia.
    injection Hstreet as <-.
    destruct (Hnull eq_refl) as (v & Hv & Hvnull).
    by exists row, j, v.
Qed.

(** ** No point record *)

(** C6, amended. When both extractions succeed and the point extraction
    yields no record, the conversion stops with the rejection "no points
    found" (status 400), with or without the geocode flag, and the world is
    left as it was. It is the only validation after parsing, not the only
    way to fail: the polygons are extracted first, so an exception of
    theirs ends the conversion also when there is no point; every failure
    of [convert] after the document is parsed is an exception of the
    polygon extraction, one of the point extraction, the rejection for no
    point, or an exception that the boundary assignment of a row raised,
    and it leaves the world as it was. There is no failure when both
    extractions succeed, there is a point record, and the records hold
    float coordinates: the table then has one row per record. *)
Theorem C6_no_points_rejected (root : elem) (flag : option string)
        (w : world) :
  (∀ polygons,
      build_table polygons [] flag w
      = (Raise (HTTPException 400
                  "Tidak ada titik (Point/homepass) ditemukan di file."), w))
  ∧ (∀ polygons,
        parse_polygons root = Ok polygons → parse_points root = Ok [] →
        convert_root root flag w
        = (Raise (HTTPException 400
                    "Tidak ada titik (Point/homepass) ditemukan di file."),
           w))
  ∧ (∀ e, parse_polygons root = Raise e →
          convert_root root flag w = (Raise e, w))
  ∧ (∀ e w1,
        convert_root root flag w = (Raise e, w1) →
        w1 = w
        ∧ (parse_polygons root = Raise e
           ∨ (∃ polygons,
                 parse_polygons root = Ok polygons
                 ∧ parse_points root = Raise e)
           ∨ (∃ polygons,
                 parse_polygons root = Ok polygons
                 ∧ parse_points root = Ok []
                 ∧ e = no_points)
           ∨ (∃ polygons points r,
                 parse_polygons root = Ok polygons
                 ∧ parse_points root = Ok points
                 ∧ r ∈ points
                 ∧ row_boundary polygons (frame_row points r) = Raise e)))
  ∧ (∀ polygons points e w1,
        build_table polygons points flag w = (Raise e, w1) →
        w1 = w
        ∧ ((points = [] ∧ e = no_points)
           ∨ (∃ r, r ∈ points
                   ∧ row_boundary polygons (frame_row points r) = Raise e)))
  ∧ (∀ polygons points,
        parse_polygons root = Ok polygons → parse_points root = Ok points →
        points ≠ [] →
        Forall (fun r => ∃ lat lon,
                    dict_get (Some "lat") r = Some (VFloat lat)
                    ∧ dict_get (Some "lon") r = Some (VFloat lon))
               points →
        ∃ t w1, convert_root root flag w = (Ok t, w1)
                ∧ length (body t) = length points).
Proof.
  split; [|split; [|split; [|split; [|split]]]].
  - done.
  - intros polygons Hpolys Hpoints. unfold convert_root.
    by rewrite Hpolys, Hpoints.
  - intros e Hpolys. unfold convert_root. by rewrite Hpolys.
  - intros e w1. apply convert_root_Raise_inv.
  - intros polygons points e w1. apply build_table_Raise_inv.
  - intros polygons points Hpolys Hpoints Hne Hfloats.
    unfold convert_root. rewrite Hpolys, Hpoints.
    destruct (build_table polygons points flag w) as [[t|e] w1] eqn:Hbuild.
    + exists t, w1. split; [done|].
      by apply (build_table_length polygons _ flag w _ w1).
    + destruct (build_table_Raise_inv _ _ _ _ _ _ Hbuild)
        as [_ [[-> _]|(r & Hin & Hr)]]; [done|].
      rewrite Forall_forall in Hfloats.
      destruct (Hfloats r Hin) as (lat & lon & Hlat & Hlon).
      by rewrite (row_boundary_floats _ _ _ _ _ Hin Hlat Hlon) in Hr.
Qed.

(** ** Column order of the table *)

(** C7. The header of the table starts with the preferred columns in
    their fixed order, those that are absent from the frame left out: the
    point label, the latitude and the longitude, then the street name when
    the geocode pass ran or a record carries an attribute of that name,
    then the boundary label. The other attribute columns follow in the
    order in which the records first show them. *)
Theorem C7_column_order (root : elem) (flag : option string)
        (w w1 : world) (t : table) points :
  parse_points root = Ok points →
  convert_root root flag w = (Ok t, w1) →
  header t
  = List.filter (present points flag) front
    ++ List.filter (fun c => negb (mem c front)) (first_seen (all_keys points))
  ∧ header t
    = [Some "homepass"; Some "lat"; Some "lon"]
      ++ (if match flag with
             | Some _ => true
             | None => mem (Some "nama_jalan") (all_keys points)
             end
          then [Some "nama_jalan"] else [])
      ++ [Some "boundary"]
      ++ List.filter (fun c => negb (mem c front))
                     (first_seen (all_keys points))
  ∧ (flag = None → mem (Some "nama_jalan") (all_keys points) = false →
     Some "nama_jalan" ∉ header t).
Proof.
  intros Hpoints Hconv.
  pose proof (convert_root_header _ _ _ _ _ _ Hpoints Hconv) as Hheader.
  destruct (convert_root_Ok_inv _ _ _ _ _ Hconv)
    as (polygons & r0 & points' & _ & Hpoints' & Hbuild).
  rewrite Hpoints in Hpoints'. injection Hpoints' as ->.
  split; [by apply (build_table_columns polygons _ _ w _ w1)|].
  split; [done|].
  intros -> Hnone. rewrite Hheader, Hnone. cbn [app].
  intros Hin. apply mem_true in Hin. cbn [mem] in Hin.
  rewrite mem_filter in Hin. revert Hin. eval_key_tests. cbn. done.
Qed.

(** ** Attributes named like the parsed fields *)

Lemma dict_get_map_values {V W} (f : V -> W) (d : list (key * V)) (k : key) :
  dict_get k (map (fun kv => (fst kv, f (snd kv))) d) = f <$> dict_get k d.
Proof.
  induction d as [|[k0 v0] d IH]; cbn [map dict_get fst snd]; [done|].
  by case_decide.
Qed.

Lemma dict_keys_map_values {V W} (f : V -> W) (d : list (key * V)) :
  dict_keys (map (fun kv => (fst kv, f (snd kv))) d) = dict_keys d.
Proof.
  unfold dict_keys. induction d as [|[k0 v0] d IH]; cbn; [done|].
  by rewrite IH.
Qed.

Lemma point_record_inv (pm : elem) r :
  point_record pm = Ok (Some r) →
  ∃ lat lon,
    r = dict_update
          [(Some "homepass", of_text (homepass_name pm));
           (Some "lat", VFloat lat); (Some "lon", VFloat lon)]
          (map (fun kv => (fst kv, of_text (snd kv)))
               (parse_extended_data pm)).
Proof.
  unfold point_record. destruct (first _); [|done].
  destruct (no_coords _); [done|].
  destruct (unpack2 _) as [[lon lat]|]; cbn; [|done].
  destruct (float_str lon) as [x|]; cbn; [|done].
  destruct (float_str lat) as [y|]; cbn; [|done].
  intros [= <-]. by exists y, x.
Qed.

Lemma point_record_attribute (pm : elem) r (k : key) (v : option string) :
  point_record pm = Ok (Some r) →
  dict_get k (parse_extended_data pm) = Some v →
  dict_get k r = Some (of_text v).
Proof.
  intros Hr Hv. destruct (point_record_inv _ _ Hr) as (lat & lon & ->).
  rewrite (dict_get_update_Some _ _ k (of_text v)); [done| |].
  - rewrite dict_keys_map_values. apply parse_extended_data_NoDup.
  - by rewrite dict_get_map_values, Hv.
Qed.

(** A string of a record is the value of the frame and of the rows that
    [df.apply] and [df.iterrows] hand out. *)
Lemma frame_row_str points r (c : key) (s : string) :
  r ∈ points → dict_get c r = Some (VStr s) →
  dict_get c (frame_row points r) = Some (VStr s)
  ∧ item RowOfApply (frame_row points r) c = Ok (VStr s)
  ∧ item RowOfIterrows (frame_row points r) c = Ok (VStr s).
Proof.
  intros Hr Hc.
  assert (Hfr : dict_get c (frame_row points r) = Some (VStr s)).
  { rewrite dict_get_frame_row; [|by rewrite Hc|done].
    unfold record_cell. by rewrite Hc. }
  split; [done|]. split; by apply item_str.
Qed.

Lemma frame_row_item (s : site) points r (c : key) :
  r ∈ points → mem c (dict_keys r) = true →
  ∃ v, item s (frame_row points r) c = Ok v.
Proof.
  intros Hr Hc.
  assert (Hget : dict_get c r ≠ None).
  { intros Hnone%dict_get_None_keys. by apply Hnone, mem_true. }
  eexists. apply item_found. by apply dict_get_frame_row.
Qed.

(** C9. A point placemark whose extended attributes carry a key named
    [homepass], [lat] or [lon] gets the attribute's value in its record in
    place of the parsed label or coordinate: the attributes are merged
    last. The frame holds the attribute's string in the row of the record,
    and the rows handed to the boundary assignment and to the geocode loop
    hold it too; the boundary assignment of the row is [assign_boundary]
    on the string, so [Point] is built from the string and not from the
    parsed float. In [convert] that assignment decides the row: when it
    raises, the conversion fails; otherwise the boundary column of the
    row in the table [convert] returns holds what pandas stores for the
    label it returned, and the column named like the attribute holds the
    string. *)
Theorem C9_attributes_override (pm : elem) r :
  point_record pm = Ok (Some r) →
  (∀ k v,
      k ∈ ["homepass"; "lat"; "lon"] →
      dict_get (Some k) (parse_extended_data pm) = Some v →
      dict_get (Some k) r = Some (of_text v))
  ∧ (∀ points k s,
        r ∈ points →
        k ∈ ["homepass"; "lat"; "lon"] →
        dict_get (Some k) (parse_extended_data pm) = Some (Some s) →
        dict_get (Some k) (frame_row points r) = Some (VStr s)
        ∧ item RowOfApply (frame_row points r) (Some k) = Ok (VStr s)
        ∧ item RowOfIterrows (frame_row points r) (Some k) = Ok (VStr s))
  ∧ (∀ points polygons s,
        r ∈ points →
        dict_get (Some "lat") (parse_extended_data pm) = Some (Some s) →
        ∃ lon,
          item RowOfApply (frame_row points r) (Some "lon") = Ok lon
          ∧ row_boundary polygons (frame_row points r)
            = assign_boundary (VStr s) lon polygons
          ∧ row_boundary polygons (frame_row points r)
            = (let? p := point_coerce lon (VStr s) in
               Ok (first_match p polygons)))
  ∧ (∀ points polygons s,
        r ∈ points →
        dict_get (Some "lon") (parse_extended_data pm) = Some (Some s) →
        ∃ lat,
          item RowOfApply (frame_row points r) (Some "lat") = Ok lat
          ∧ row_boundary polygons (frame_row points r)
            = assign_boundary lat (VStr s) polygons
          ∧ row_boundary polygons (frame_row points r)
            = (let? p := point_coerce (VStr s) lat in
               Ok (first_match p polygons)))
  ∧ (∀ polygons points flag w i,
        points !! i = Some r →
        (∀ e, row_boundary polygons (frame_row points r) = Raise e →
              ∃ e', build_table polygons points flag w = (Raise e', w))
        ∧ (∀ t w1,
              build_table polygons points flag w = (Ok t, w1) →
              ∃ labels label row j,
                apply_rows (row_boundary polygons) (rows (DataFrame points))
                = Ok labels
                ∧ labels !! i = Some label
                ∧ row_boundary polygons (frame_row points r) = Ok label
                ∧ body t !! i = Some row
                ∧ header t !! j = Some (Some "boundary")
                ∧ row !! j = Some (label_cell labels label)
                ∧ (∀ b, label = Some b → row !! j = Some (VStr b))))
  ∧ (∀ root flag w t w1 points i k s,
        parse_points root = Ok points →
        convert_root root flag w = (Ok t, w1) →
        points !! i = Some r →
        k ∈ ["homepass"; "lat"; "lon"] →
        dict_get (Some k) (parse_extended_data pm) = Some (Some s) →
        ∃ row j,
          body t !! i = Some row
          ∧ header t !! j = Some (Some k)
          ∧ row !! j = Some (VStr s)
          ∧ ∃ polygons labels label jb,
              parse_polygons root = Ok polygons
              ∧ apply_rows (row_boundary polygons) (rows (DataFrame points))
                = Ok labels
              ∧ labels !! i = Some label
              ∧ row_boundary polygons (frame_row points r) = Ok label
              ∧ header t !! jb = Some (Some "boundary")
              ∧ row !! jb = Some (label_cell labels label)
              ∧ (∀ b, label = Some b → row !! jb = Some (VStr b))).
Proof.
  intros Hrec.
  assert (Hkey : ∀ k, k ∈ [Some "homepass"; Some "lat"; Some "lon"] →
                      mem k (dict_keys r) = true)
    by (intros k; by apply (point_record_keys pm)).
  split; [|split; [|split; [|split; [|split]]]].
  - intros k v _. by apply point_record_attribute.
  - intros points k s Hr _ Hs. apply frame_row_str; [done|].
    by rewrite (point_record_attribute _ _ _ _ Hrec Hs).
  - intros points polygons s Hr Hs.
    destruct (frame_row_item RowOfApply points r (Some "lon") Hr)
      as [lon Hlon]; [apply Hkey; set_solver|].
    destruct (frame_row_str points r (Some "lat") s Hr) as (_ & Hlat & _);
      [by rewrite (point_record_attribute _ _ _ _ Hrec Hs)|].
    exists lon. split; [done|]. unfold row_boundary. rewrite Hlat, Hlon.
    cbn [rbind]. split; [done|]. unfold assign_boundary, Point.
    by destruct lon.
  - intros points polygons s Hr Hs.
    destruct (frame_row_item RowOfApply points r (Some "lat") Hr)
      as [lat Hlat]; [apply Hkey; set_solver|].
    destruct (frame_row_str points r (Some "lon") s Hr) as (_ & Hlon & _);
      [by rewrite (point_record_attribute _ _ _ _ Hrec Hs)|].
    exists lat. split; [done|]. unfold row_boundary. rewrite Hlat, Hlon.
    cbn [rbind]. split; [done|]. unfold assign_boundary, Point.
    by destruct lat.
  - intros polygons points flag w i Hi.
    assert (Hr : r ∈ points) by by eapply list_elem_of_lookup_2.
    split.
    + intros e Hraise. by apply (build_table_row_raises _ _ _ _ r e).
    + intros t w1 Hbuild.
      destruct (build_table_Ok_inv _ _ _ _ _ _ Hbuild)
        as (labels & _ & Hlabels & _ & _).
      destruct (build_table_has_row _ _ _ _ _ _ _ _ Hbuild Hi) as [row Hrow].
      destruct (boundary_column _ _ _ _ _ _ _ _ _ Hbuild Hlabels Hrow)
        as (j & r' & label & Hj & Hr' & Hlabel & Hok & Hcell).
      rewrite Hi in Hr'. injection Hr' as <-.
      exists labels, label, row, j. repeat (split; [done|]).
      intros b ->. by rewrite Hcell.
  - intros root flag w t w1 points i k s Hpoints Hconv Hi Hk Hs.
    pose proof (convert_root_header _ _ _ _ _ _ Hpoints Hconv) as Hheader.
    destruct (convert_root_Ok_inv _ _ _ _ _ Hconv)
      as (polygons & r0 & points' & Hpolys & Hpoints' & Hbuild).
    rewrite Hpoints in Hpoints'. injection Hpoints' as ->.
    destruct (build_table_has_row _ _ _ _ _ _ _ _ Hbuild Hi) as [row Hrow].
    assert (Hlabel : ∃ polygons labels label jb,
              parse_polygons root = Ok polygons
              ∧ apply_rows (row_boundary polygons)
                           (rows (DataFrame (r0 :: points')))
                = Ok labels
              ∧ labels !! i = Some label
              ∧ row_boundary polygons (frame_row (r0 :: points') r) = Ok label
              ∧ header t !! jb = Some (Some "boundary")
              ∧ row !! jb = Some (label_cell labels label)
              ∧ (∀ b, label = Some b → row !! jb = Some (VStr b))).
    { destruct (build_table_Ok_inv _ _ _ _ _ _ Hbuild)
        as (labels & _ & Hlabels & _ & _).
      destruct (boundary_column _ _ _ _ _ _ _ _ _ Hbuild Hlabels Hrow)
        as (jb & r' & label & Hjb & Hr' & Hlabel & Hok & Hcell).
      rewrite Hi in Hr'. injection Hr' as <-.
      exists polygons, labels, label, jb. repeat (split; [done|]).
      intros b ->. by rewrite Hcell. }
    assert (Hcases : k = "homepass" ∨ k = "lat" ∨ k = "lon").
    { apply elem_of_cons in Hk as [->|Hk]; [by left|].
      apply elem_of_cons in Hk as [->|Hk]; [by right; left|].
      apply elem_of_cons in Hk as [->|Hk]; [by right; right|].
      by apply elem_of_nil in Hk. }
    assert (Hcell : ∀ j, header t !! j = Some (Some k) →
                         row !! j = Some (VStr s)).
    { intros j Hj.
      rewrite (record_column _ _ _ _ _ _ _ _ _ _ _ Hbuild Hrow Hi Hj).
      - unfold record_cell.
        by rewrite (point_record_attribute _ _ _ _ Hrec Hs).
      - intros [= ->]. by destruct Hcases as [?|[?|?]].
      - intros [= ->]. by destruct Hcases as [?|[?|?]]. }
    exists row.
    destruct Hcases as [->|[->| ->]].
    + exists 0%nat. split; [done|].
      assert (Hj : header t !! 0%nat = Some (Some "homepass"))
        by by rewrite Hheader.
      split; [done|]. split; [by apply Hcell | done].
    + exists 1%nat. split; [done|].
      assert (Hj : header t !! 1%nat = Some (Some "lat"))
        by by rewrite Hheader.
      split; [done|]. split; [by apply Hcell | done].
    + exists 2%nat. split; [done|].
      assert (Hj : header t !! 2%nat = Some (Some "lon"))
        by by rewrite Hheader.
      split; [done|]. split; [by apply Hcell | done].
Qed.

End PipelineFacts.

Lemma C3_geocode_failure_witness :
  (∃ e, @reverse_geocode_nominatim_cached Grid.grid_float Grid.grid_provider
          (Grid.GNum 7) (Grid.GNum 7) w_one
        = (Raise e, @sent Grid.grid_float (Grid.GNum 7) (Grid.GNum 7) w_one))
  ∧ @geocode_rows Grid.grid_float Grid.grid_pandas Grid.grid_provider
      [row_77; row_99] w_one
    = ([None; None], w_one_after)
  ∧ @convert_root Grid.grid_float Grid.grid_pandas Grid.grid_shapely
      Grid.grid_provider two_points (Some "on") Grid.w0
    = (Ok two_streets_table, w_merdeka_failed)
  ∧ ∃ row j v,
      body two_streets_table !! 1%nat = Some row
      ∧ header two_streets_table !! j = Some (Some "nama_jalan")
      ∧ row !! j = Some v
      ∧ @null Grid.grid_float v.
Proof.
  destruct (@C3_geocode_failure Grid.grid_float Grid.grid_pandas
              Grid.grid_shapely Grid.grid_provider
              (Grid.GNum 7) (Grid.GNum 7) w_one)
    as (_ & Hfails & Hloop & _).
  destruct (@C3_geocode_failure Grid.grid_float Grid.grid_pandas
              Grid.grid_shapely Grid.grid_provider
              (Grid.GNum 9) (Grid.GNum 9) w_merdeka)
    as (_ & _ & _ & _ & _ & _ & Htable).
  split; [|split; [|split]].
  - apply Hfails; [reflexivity | exact I].
  - exact (Hloop RequestException
             (@sent Grid.grid_float (Grid.GNum 7) (Grid.GNum 7) w_one)
             [] row_77 [row_99] w_one [] eq_refl eq_refl eq_refl eq_refl).
  - reflexivity.
  - exact (proj2
             (Htable two_points [zone_a_entry] [row_77; row_99] "on"
                two_streets_table w_merdeka_failed Grid.w0
                [Some "Zone A"; Some "Zone A"]
                [labelled_77] labelled_99 [] [Some "Jalan Merdeka"]
                RequestException
                (@sent Grid.grid_float (Grid.GNum 9) (Grid.GNum 9) w_merdeka)
                eq_refl eq_refl eq_refl eq_refl eq_refl eq_refl eq_refl
                eq_refl eq_refl)).
Defined.

Lemma C6_no_points_rejected_witness :
  @convert_root Grid.grid_float Grid.grid_pandas Grid.grid_shapely
     Grid.grid_provider polygons_only (Some "on") Grid.w0
  = (Raise (HTTPException 400
              "Tidak ada titik (Point/homepass) ditemukan di file."), Grid.w0)
  ∧ @convert_root Grid.grid_float Grid.grid_pandas Grid.grid_shapely
      Grid.grid_provider polygons_only None Grid.w0
    = (Raise (HTTPException 400
                "Tidak ada titik (Point/homepass) ditemukan di file."),
       Grid.w0)
  ∧ @convert_root Grid.grid_float Grid.grid_pandas Grid.grid_shapely
      Grid.grid_provider bad_ring_only None Grid.w0
    = (Raise ValueError, Grid.w0).
Proof.
  destruct (@C6_no_points_rejected Grid.grid_float Grid.grid_pandas
              Grid.grid_shapely Grid.grid_provider polygons_only (Some "on")
              Grid.w0)
    as (_ & Hon & _).
  destruct (@C6_no_points_rejected Grid.grid_float Grid.grid_pandas
              Grid.grid_shapely Grid.grid_provider polygons_only None Grid.w0)
    as (_ & Hoff & _).
  destruct (@C6_no_points_rejected Grid.grid_float Grid.grid_pandas
              Grid.grid_shapely Grid.grid_provider bad_ring_only None Grid.w0)
    as (_ & _ & Hring & _).
  split; [|split].
  - apply (Hon [("Zone A", rect_a, rect_a); ("", rect_a, rect_a)]);
      reflexivity.
  - apply (Hoff [("Zone A", rect_a, rect_a); ("", rect_a, rect_a)]);
      reflexivity.
  - apply Hring. reflexivity.
Defined.

(** C6 as stated fails: for a document with no point and a ring with an
    unreadable token the point extraction yields no record, and the
    conversion ends with the [ValueError] of the polygon extraction, not
    with the rejection for no point. *)
Lemma C6_bad_ring_counterexample :
  @parse_points Grid.grid_float bad_ring_only = Ok []
  ∧ @convert_root Grid.grid_float Grid.grid_pandas Grid.grid_shapely
      Grid.grid_provider bad_ring_only (Some "on") Grid.w0
    = (Raise ValueError, Grid.w0)
  ∧ @convert_root Grid.grid_float Grid.grid_pandas Grid.grid_shapely
      Grid.grid_provider bad_ring_only None Grid.w0
    = (Raise ValueError, Grid.w0)
  ∧ ValueError ≠ no_points.
Proof. repeat split. done. Qed.

Lemma C7_column_order_witness :
  @convert_root Grid.grid_float Grid.grid_pandas Grid.grid_shapely
     Grid.grid_provider one_point None Grid.w0 = (Ok one_point_table, Grid.w0)
  ∧ header one_point_table
    = [Some "homepass"; Some "lat"; Some "lon"; Some "boundary";
       Some "owner"; Some "kind"; Some "floors"].
Proof.
  assert (Hpoints : @parse_points Grid.grid_float one_point = Ok one_point_rows)
    by reflexivity.
  assert (Hconv : @convert_root Grid.grid_float Grid.grid_pandas
                    Grid.grid_shapely Grid.grid_provider one_point None
                    Grid.w0
                  = (Ok one_point_table, Grid.w0))
    by reflexivity.
  split; [exact Hconv|].
  destruct (@C7_column_order Grid.grid_float Grid.grid_pandas
              Grid.grid_shapely Grid.grid_provider one_point None Grid.w0
              Grid.w0 one_point_table one_point_rows Hpoints Hconv)
    as (_ & -> & _).
  reflexivity.
Defined.

Lemma C9_attributes_override_witness :
  dict_get (Some "lat") lat_attribute_row = Some (@VStr Grid.grid_float "5")
  ∧ @row_boundary Grid.grid_float Grid.grid_pandas Grid.grid_shapely
      [zone_a_entry]
      (@frame_row Grid.grid_float Grid.grid_pandas [lat_attribute_row]
         lat_attribute_row)
    = Ok (Some "Zone A")
  ∧ @convert_root Grid.grid_float Grid.grid_pandas Grid.grid_shapely
      Grid.grid_provider lat_attribute_doc None Grid.w0
    = (Ok lat_attribute_table, Grid.w0)
  ∧ (∃ row j,
        body lat_attribute_table !! 0%nat = Some row
        ∧ header lat_attribute_table !! j = Some (Some "lat")
        ∧ row !! j = Some (@VStr Grid.grid_float "5")
        ∧ ∃ polygons labels label jb,
            @parse_polygons Grid.grid_float Grid.grid_shapely
               lat_attribute_doc = Ok polygons
            ∧ apply_rows
                (@row_boundary Grid.grid_float Grid.grid_pandas
                   Grid.grid_shapely polygons)
                (rows (@DataFrame Grid.grid_float Grid.grid_pandas
                         [lat_attribute_row]))
              = Ok labels
            ∧ labels !! 0%nat = Some label
            ∧ @row_boundary Grid.grid_float Grid.grid_pandas
                Grid.grid_shapely polygons
                (@frame_row Grid.grid_float Grid.grid_pandas
                   [lat_attribute_row] lat_attribute_row)
              = Ok label
            ∧ header lat_attribute_table !! jb = Some (Some "boundary")
            ∧ row !! jb = Some (@label_cell Grid.grid_float Grid.grid_pandas
                                  labels label)
            ∧ (∀ b, label = Some b →
                    row !! jb = Some (@VStr Grid.grid_float b)))
  ∧ ∃ labels label row j,
      apply_rows
        (@row_boundary Grid.grid_float Grid.grid_pandas Grid.grid_shapely
           [zone_a_entry])
        (rows (@DataFrame Grid.grid_float Grid.grid_pandas
                 [lat_attribute_row]))
      = Ok labels
      ∧ labels !! 0%nat = Some label
      ∧ @row_boundary Grid.grid_float Grid.grid_pandas Grid.grid_shapely
          [zone_a_entry]
          (@frame_row Grid.grid_float Grid.grid_pandas [lat_attribute_row]
             lat_attribute_row)
        = Ok label
      ∧ body lat_attribute_table !! 0%nat = Some row
      ∧ header lat_attribute_table !! j = Some (Some "boundary")
      ∧ row !! j = Some (@label_cell Grid.grid_float Grid.grid_pandas
                           labels label)
      ∧ (∀ b, label = Some b → row !! j = Some (@VStr Grid.grid_float b)).
Proof.
  destruct (@C9_attributes_override Grid.grid_float Grid.grid_pandas
              Grid.grid_shapely Grid.grid_provider lat_attribute
              lat_attribute_row eq_refl)
    as (Hrecord & _ & _ & _ & Hbuild & Hout).
  split; [|split; [|split; [|split]]].
  - apply (Hrecord "lat" (Some "5")); [repeat constructor | reflexivity].
  - reflexivity.
  - reflexivity.
  - apply (Hout lat_attribute_doc None Grid.w0 lat_attribute_table Grid.w0
             [lat_attribute_row] 0%nat "lat" "5");
      [reflexivity | reflexivity | reflexivity | repeat constructor
      | reflexivity].
  - destruct (Hbuild [zone_a_entry] [lat_attribute_row] None Grid.w0 0%nat
                eq_refl) as [_ Htable].
    exact (Htable lat_attribute_table Grid.w0 eq_refl).
Defined.
(** * Further properties of the code *)

(** ** Key order of dictionaries *)

Lemma filter_id_on {A} (f : A -> bool) (l : list A) :
  (∀ x, x ∈ l → f x = true) → List.filter f l = l.
Proof.
  induction l as [|x l IH]; intros Hf; cbn [List.filter]; [done|].
  rewrite Hf by (apply elem_of_cons; by left).
  f_equal. apply IH. intros y Hy. apply Hf, elem_of_cons. by right.
Qed.

Lemma first_seen_NoDup (l : list key) : NoDup l → first_seen l = l.
Proof.
  induction 1 as [|c l Hc _ IH]; cbn [first_seen]; [done|].
  rewrite IH. f_equal. apply filter_id_on. intros x Hx.
  apply negb_true_iff, bool_decide_eq_false. by intros ->.
Qed.

Lemma NoDup_list_filter {A} (f : A -> bool) (l : list A) :
  NoDup l → NoDup (List.filter f l).
Proof.
  induction 1 as [|x l Hx _ IH]; cbn [List.filter]; [constructor|].
  destruct (f x); [|done]. constructor; [|done].
  by intros [_ ?]%elem_of_list_filter.
Qed.

Lemma NoDup_first_seen (l : list key) : NoDup (first_seen l).
Proof.
  induction l as [|c l IH]; cbn [first_seen]; constructor.
  - intros [Hc _]%elem_of_list_filter.
    by rewrite bool_decide_eq_true_2 in Hc.
  - by apply NoDup_list_filter.
Qed.

Lemma dict_keys_set_add {V} (d : list (key * V)) (k : key) (v : V) :
  dict_keys (dict_set k v d) = add_column (dict_keys d) k.
Proof.
  rewrite dict_keys_set. unfold add_column.
  destruct (mem k (dict_keys d)) eqn:Hk.
  - apply mem_true in Hk. by rewrite decide_True.
  - rewrite decide_False; [done|]. intros Hin%mem_true. congruence.
Qed.

Lemma dict_keys_update {V} (d items : list (key * V)) :
  dict_keys (dict_update d items)
  = dict_keys d
    ++ List.filter (fun c => negb (mem c (dict_keys d)))
                   (first_seen (dict_keys items)).
Proof.
  rewrite <- fold_add_column. revert d.
  induction items as [|[k v] items IH]; intros d; [done|].
  change (dict_update d ((k, v) :: items))
    with (dict_update (dict_set k v d) items).
  change (dict_keys ((k, v) :: items)) with (k :: dict_keys items).
  cbn [fold_left]. by rewrite IH, dict_keys_set_add.
Qed.

Lemma dict_get_map_fst {V W} (f : V -> W) (d : list (key * V)) (k : key) :
  dict_get k (map (fun kv => (fst kv, f (snd kv))) d) = f <$> dict_get k d.
Proof.
  induction d as [|[k0 v0] d IH]; cbn [map dict_get fst snd]; [done|].
  by case_decide.
Qed.

(** ** Extended attributes: keys and flat values *)

Lemma parse_extended_data_none (pm : elem) :
  first (desc (kml "ExtendedData") pm) = None → parse_extended_data pm = [].
Proof. unfold parse_extended_data. by intros ->. Qed.

(** X1. The keys of the mapping [parse_extended_data] returns are the
    [name] attributes of the [Data] pairs and then of the [SimpleData]
    pairs of the first [ExtendedData] element, each key once, in the order
    in which the names first appear; the mapping is empty when the
    placemark has no [ExtendedData]. *)
Theorem X1_extended_data_keys (pm : elem) :
  NoDup (dict_keys (parse_extended_data pm))
  ∧ (first (desc (kml "ExtendedData") pm) = None →
     parse_extended_data pm = [])
  ∧ (∀ ext,
        first (desc (kml "ExtendedData") pm) = Some ext →
        dict_keys (parse_extended_data pm)
        = first_seen (dict_keys (data_items ext ++ schema_items ext))).
Proof.
  split; [apply parse_extended_data_NoDup|].
  split; [apply parse_extended_data_none|].
  intros ext Hext. rewrite (parse_extended_data_items _ _ Hext).
  rewrite <- dict_update_app, dict_keys_update. cbn [dict_keys map app].
  by apply filter_all.
Qed.

Lemma X1_extended_data_keys_witness :
  dict_keys (parse_extended_data flat_only)
  = [Some "owner"; Some "note"; Some "kind"].
Proof.
  destruct (X1_extended_data_keys flat_only) as (_ & _ & Hkeys).
  rewrite (Hkeys flat_only_ext eq_refl). reflexivity.
Defined.

(** X2. A name that only flat [Data] pairs supply is mapped to the value
    of the last [Data] pair with that name ([None] when that pair has no
    [value] child or the child has no text); a name that no pair supplies
    is not a key of the mapping. *)
Theorem X2_flat_value (pm ext : elem) (name : key) :
  first (desc (kml "ExtendedData") pm) = Some ext →
  name ∉ dict_keys (schema_items ext) →
  (∀ before v after,
      data_items ext = before ++ (name, v) :: after →
      name ∉ dict_keys after →
      dict_get name (parse_extended_data pm) = Some v)
  ∧ (name ∉ dict_keys (data_items ext) →
     dict_get name (parse_extended_data pm) = None).
Proof.
  intros Hext Hschema. rewrite (parse_extended_data_items _ _ Hext).
  apply dict_get_None_keys in Hschema.
  rewrite (dict_get_update_None _ _ _ Hschema). split.
  - intros before v after -> Hafter. by apply dict_get_update_last.
  - intros Hdata. apply dict_get_None_keys in Hdata.
    by rewrite (dict_get_update_None _ _ _ Hdata).
Qed.

Lemma X2_flat_value_witness :
  dict_get (Some "owner") (parse_extended_data flat_only) = Some (Some "second")
  ∧ dict_get (Some "note") (parse_extended_data flat_only) = Some None
  ∧ dict_get (Some "colour") (parse_extended_data flat_only) = None.
Proof.
  assert (Hkind : ∀ name : key,
             name ≠ Some "kind" → name ∉ dict_keys (schema_items flat_only_ext)).
  { intros name Hne [->|Hin%elem_of_nil]%elem_of_cons; done. }
  destruct (X2_flat_value flat_only flat_only_ext (Some "owner") eq_refl)
    as [Howner _]; [by apply Hkind|].
  destruct (X2_flat_value flat_only flat_only_ext (Some "note") eq_refl)
    as [Hnote _]; [by apply Hkind|].
  destruct (X2_flat_value flat_only flat_only_ext (Some "colour") eq_refl)
    as [_ Hcolour]; [by apply Hkind|].
  split; [|split].
  - apply (Howner [(Some "owner", Some "first")] (Some "second")
                  [(Some "note", None)]); [reflexivity|].
    intros [[=]|Hin%elem_of_nil]%elem_of_cons; done.
  - apply (Hnote [(Some "owner", Some "first"); (Some "owner", Some "second")]
                 None []); [reflexivity|].
    by intros Hin%elem_of_nil.
  - apply Hcolour.
    intros [[=]|[[=]|[[=]|Hin%elem_of_nil]%elem_of_cons]%elem_of_cons]%elem_of_cons.
    done.
Defined.

(** ** Point records *)

Section PointRecords.
Context `{FloatOps}.
Implicit Types (r : list (key * pyval)).

Lemma dict_keys_of_text (d : list (key * option string)) :
  dict_keys (map (fun kv => (fst kv, of_text (snd kv))) d) = dict_keys d.
Proof.
  unfold dict_keys. induction d as [|[k0 v0] d IH]; cbn; [done|].
  by rewrite IH.
Qed.

Lemma point_record_shape (pm : elem) r :
  point_record pm = Ok (Some r) →
  ∃ a b extra x y,
    Str.split_on "," (coords_text (point_coords_el pm)) = a :: b :: extra
    ∧ float_of_str a = Some x
    ∧ float_of_str b = Some y
    ∧ r = dict_update
            [(Some "homepass", of_text (homepass_name pm));
             (Some "lat", VFloat y); (Some "lon", VFloat x)]
            (map (fun kv => (fst kv, of_text (snd kv)))
                 (parse_extended_data pm)).
Proof.
  unfold point_record. destruct (first _); [|done].
  destruct (no_coords _); [done|].
  destruct (Str.split_on _ _) as [|a [|b extra]] eqn:Hsplit; cbn;
    [done|done|].
  unfold float_str.
  destruct (float_of_str a) as [x|] eqn:Ha; cbn; [|done].
  destruct (float_of_str b) as [y|] eqn:Hb; cbn; [|done].
  intros [= <-]. by exists a, b, extra, x, y.
Qed.

(** X3. Every point record starts with the keys [homepass], [lat], [lon]
    in this order, followed by the names of the extended attributes other
    than these three in their own order; no key occurs twice. *)
Theorem X3_point_record_keys (pm : elem) r :
  point_record pm = Ok (Some r) →
  dict_keys r
  = base_keys
    ++ List.filter (fun k => negb (mem k base_keys))
                   (dict_keys (parse_extended_data pm))
  ∧ NoDup (dict_keys r).
Proof.
  intros Hr.
  destruct (point_record_shape _ _ Hr) as (a & b & extra & x & y & _ & _ & _ & ->).
  split.
  - rewrite dict_keys_update, dict_keys_of_text.
    by rewrite (first_seen_NoDup _ (parse_extended_data_NoDup pm)).
  - apply dict_update_keys_NoDup.
    by apply (bool_decide_unpack (NoDup base_keys)).
Qed.

(** X4. A point placemark with a [Point], whose coordinate text has two or
    more comma-separated fields of which the first two are floats, gives a
    record: the first field is the longitude and the second the latitude,
    whatever fields follow (the altitude is not read), and the label is the
    trimmed name or [None], unless an extended attribute of the same name
    replaces them. Every record comes from such a placemark. *)
Theorem X4_point_record_fields (pm : elem) :
  (∀ a b extra x y,
      first (desc (kml "Point") pm) ≠ None →
      no_coords (point_coords_el pm) = false →
      Str.split_on "," (coords_text (point_coords_el pm)) = a :: b :: extra →
      float_of_str a = Some x → float_of_str b = Some y →
      ∃ r, point_record pm = Ok (Some r))
  ∧ (∀ r,
        point_record pm = Ok (Some r) →
        ∃ a b extra x y,
          Str.split_on "," (coords_text (point_coords_el pm)) = a :: b :: extra
          ∧ float_of_str a = Some x
          ∧ float_of_str b = Some y
          ∧ (dict_get (Some "lon") (parse_extended_data pm) = None →
             dict_get (Some "lon") r = Some (VFloat x))
          ∧ (dict_get (Some "lat") (parse_extended_data pm) = None →
             dict_get (Some "lat") r = Some (VFloat y))
          ∧ (dict_get (Some "homepass") (parse_extended_data pm) = None →
             dict_get (Some "homepass") r = Some (of_text (homepass_name pm)))).
Proof.
  split.
  - intros a b extra x y Hpoint Hcoords Hsplit Ha Hb. unfold point_record.
    destruct (first (desc _ pm)); [|done].
    rewrite Hcoords, Hsplit. cbn. unfold float_str. rewrite Ha, Hb. cbn.
    by eexists.
  - intros r Hr.
    destruct (point_record_shape _ _ Hr)
      as (a & b & extra & x & y & Hsplit & Ha & Hb & ->).
    exists a, b, extra, x, y. split; [done|]. split; [done|]. split; [done|].
    assert (Hkeep : ∀ k base,
               dict_get k (parse_extended_data pm) = None →
               dict_get k (dict_update base
                             (map (fun kv => (fst kv, of_text (snd kv)))
                                  (parse_extended_data pm)))
               = dict_get k base).
    { intros k base Hnone. apply dict_get_update_None.
      by rewrite dict_get_map_fst, Hnone. }
    split; [|split]; intros Hnone; by rewrite (Hkeep _ _ Hnone).
Qed.

End PointRecords.

Lemma X3_point_record_keys_witness :
  dict_keys flat_only_row
  = [Some "homepass"; Some "lat"; Some "lon"; Some "owner"; Some "note";
     Some "kind"].
Proof.
  destruct (@X3_point_record_keys Grid.grid_float flat_only flat_only_row
              eq_refl) as [-> _].
  reflexivity.
Defined.

Lemma X4_point_record_fields_witness :
  ∃ r, @point_record Grid.grid_float flat_only = Ok (Some r).
Proof.
  destruct (@X4_point_record_fields Grid.grid_float flat_only) as [Hok _].
  apply (Hok "106" "-6" ["12"] (Grid.GNum 106) (Grid.GNum (-6)));
    (reflexivity || discriminate).
Defined.

(** ** Trimmed names *)

Lemma lstrip_l_no_edge (l : list ascii) : no_edge_space (Str.lstrip_l l).
Proof.
  induction l as [|c l IH]; cbn [Str.lstrip_l]; [done|].
  destruct (Str.isspace c) eqn:Hc; [done|]. by cbn.
Qed.

Lemma lstrip_l_suffix (l : list ascii) : ∃ pre, l = pre ++ Str.lstrip_l l.
Proof.
  induction l as [|c l [pre IH]]; cbn [Str.lstrip_l]; [by exists []|].
  destruct (Str.isspace c); [|by exists []].
  exists (c :: pre). cbn. by f_equal.
Qed.

Lemma lstrip_l_id (l : list ascii) : no_edge_space l → Str.lstrip_l l = l.
Proof. destruct l as [|c l]; cbn; [done|]. by intros ->. Qed.

Lemma strip_l_trimmed (l : list ascii) :
  no_edge_space (Str.strip_l l) ∧ no_edge_space (rev (Str.strip_l l)).
Proof.
  unfold Str.strip_l. set (t := Str.lstrip_l l).
  set (u := Str.lstrip_l (rev t)). split.
  - destruct (lstrip_l_suffix (rev t)) as [pre Hpre]. fold u in Hpre.
    assert (Ht : t = rev u ++ rev pre).
    { rewrite <- (rev_involutive t), Hpre. by rewrite rev_app_distr. }
    pose proof (lstrip_l_no_edge l) as Hhead. fold t in Hhead.
    rewrite Ht in Hhead. by destruct (rev u).
  - rewrite rev_involutive. apply lstrip_l_no_edge.
Qed.

Lemma strip_trimmed (s : string) : trimmed (Str.strip s).
Proof.
  unfold trimmed, Str.strip. rewrite list_ascii_of_string_of_list_ascii.
  apply strip_l_trimmed.
Qed.

Lemma strip_id (s : string) : trimmed s → Str.strip s = s.
Proof.
  intros [Hhead Hlast]. unfold Str.strip, Str.strip_l.
  rewrite (lstrip_l_id _ Hhead), (lstrip_l_id _ Hlast), rev_involutive.
  apply string_of_list_ascii_of_string.
Qed.

(** X5. [strip] gives a string that neither begins nor ends with
    whitespace and leaves such a string as it is. Hence the boundary
    identifier of a polygon placemark and the label of a point placemark
    never begin or end with whitespace. *)
Theorem X5_names_trimmed (pm : elem) :
  (∀ s, trimmed (Str.strip s))
  ∧ (∀ s, trimmed s → Str.strip s = s)
  ∧ trimmed (boundary_name pm)
  ∧ (∀ n, homepass_name pm = Some n → trimmed n).
Proof.
  split; [apply strip_trimmed|]. split; [apply strip_id|]. split.
  - unfold boundary_name.
    destruct (first _) as [name_el|]; [|by split].
    destruct (text name_el) as [t|]; [|by split].
    destruct (Str.truthy t); [apply strip_trimmed | by split].
  - intros n. unfold homepass_name.
    destruct (first _) as [name_el|]; [|done].
    destruct (text name_el) as [t|]; [|done].
    destruct (Str.truthy t); [|done].
    intros [= <-]. apply strip_trimmed.
Qed.

Lemma X5_names_trimmed_witness :
  Str.strip "Zone A" = "Zone A" ∧ trimmed (boundary_name zone_a).
Proof.
  destruct (X5_names_trimmed zone_a) as (_ & Hid & Hname & _).
  split; [|exact Hname]. apply Hid. by split.
Defined.

(** ** Polygon rings and the extraction loops *)

Section CollectMore.
Context {A B : Type} (body : A -> result (option B)).

Lemma collect_filter (f : A -> bool) (l : list A) :
  (∀ x, f x = false → body x = Ok None) →
  collect body l = collect body (List.filter f l).
Proof.
  intros Hskip. induction l as [|x l IH]; cbn [collect List.filter]; [done|].
  destruct (f x) eqn:Hx; cbn [collect]; rewrite IH; [done|].
  rewrite (Hskip x Hx). cbn. by destruct (collect body (List.filter f l)).
Qed.

Lemma collect_length (l : list A) (rs : list B) :
  collect body l = Ok rs → (length rs ≤ length l)%nat.
Proof.
  revert rs. induction l as [|x l IH]; intros rs; cbn [collect].
  - by intros [= <-].
  - destruct (body x) as [o|]; cbn; [|done].
    destruct (collect body l) as [rs'|]; cbn; [|done].
    intros [= <-]. specialize (IH rs' eq_refl).
    destruct o; cbn; lia.
Qed.

Lemma collect_app (l1 l2 : list A) :
  collect body (l1 ++ l2)
  = (let? rs1 := collect body l1 in
     let? rs2 := collect body l2 in
     Ok (rs1 ++ rs2)).
Proof.
  induction l1 as [|x l1 IH]; cbn [collect app].
  - cbn. by destruct (collect body l2).
  - destruct (body x) as [o|]; cbn; [|done]. rewrite IH.
    destruct (collect body l1) as [rs1|]; cbn; [|done].
    destruct (collect body l2) as [rs2|]; cbn; [|done].
    by destruct o.
Qed.

End CollectMore.

Section Rings.
Context `{FloatOps} `{!Shapely}.

(** X6. The ring of a polygon is read token by token: [ring_coords]
    returns a list exactly when every token has two or more comma-separated
    fields whose first two are floats, and then the list has one vertex per
    token, in order, with the first field as longitude and the second as
    latitude. *)
Theorem X6_ring_coords (tokens : list string) (cs : list (float * float)) :
  ring_coords tokens = Ok cs ↔ Forall2 reads_vertex tokens cs.
Proof.
  revert cs. induction tokens as [|token tokens IH]; intros cs;
    cbn [ring_coords].
  - split; [intros [= <-]; constructor | by intros ->%Forall2_nil_inv_l].
  - split.
    + destruct (Str.split_on _ _) as [|a [|b extra]] eqn:Hsplit; cbn;
        [done|done|].
      unfold float_str.
      destruct (float_of_str a) as [x|] eqn:Ha; cbn; [|done].
      destruct (float_of_str b) as [y|] eqn:Hb; cbn; [|done].
      destruct (ring_coords tokens) as [cs'|]; cbn; [|done].
      intros [= <-]. constructor; [|by apply IH].
      by exists a, b, extra.
    + intros (c & cs' & (a & b & extra & Hsplit & Ha & Hb) & Hrest & ->)
        %Forall2_cons_inv_l.
      apply IH in Hrest. rewrite Hsplit. cbn. unfold float_str.
      rewrite Ha, Hb. cbn. rewrite Hrest. cbn. by destruct c.
Qed.

Lemma polygon_record_inv (pm : elem) entry :
  polygon_record pm = Ok (Some entry) →
  ∃ coords poly,
    has_polygon pm = true
    ∧ no_coords (ring_coords_el pm) = false
    ∧ ring_coords (Str.split_ws (coords_text (ring_coords_el pm))) = Ok coords
    ∧ Polygon coords = Ok poly
    ∧ entry = (boundary_name pm, prep poly, poly).
Proof.
  unfold polygon_record, has_polygon.
  destruct (first (desc _ pm)); [|done].
  destruct (no_coords _); [done|].
  destruct (ring_coords _) as [coords|]; cbn; [|done].
  destruct (Polygon coords) as [poly|] eqn:Hpoly; cbn; [|done].
  intros [= <-]. by exists coords, poly.
Qed.

(** X7. Every entry of the polygon list comes from a placemark of the
    document that holds a [Polygon]: its name is the boundary name of that
    placemark, its geometry is [Polygon] of the ring read from the
    placemark's coordinate text, and its prepared form is [prep] of that
    same geometry. There are at most as many entries as placemarks with a
    [Polygon]. *)
Theorem X7_polygon_entries (root : elem) polygons :
  parse_polygons root = Ok polygons →
  (∀ entry,
      entry ∈ polygons →
      ∃ pm coords poly,
        pm ∈ desc (kml "Placemark") root
        ∧ has_polygon pm = true
        ∧ ring_coords (Str.split_ws (coords_text (ring_coords_el pm)))
          = Ok coords
        ∧ Polygon coords = Ok poly
        ∧ entry = (boundary_name pm, prep poly, poly))
  ∧ (length polygons
     ≤ length (List.filter has_polygon (desc (kml "Placemark") root)))%nat.
Proof.
  intros Hparse. split.
  - intros entry Hin.
    destruct (collect_Ok_inv _ _ _ _ Hparse Hin) as (pm & Hpm & Hrec).
    destruct (polygon_record_inv _ _ Hrec)
      as (coords & poly & Hhas & _ & Hring & Hpoly & ->).
    by exists pm, coords, poly.
  - unfold parse_polygons in Hparse.
    rewrite (collect_filter polygon_record has_polygon) in Hparse.
    + by apply collect_length in Hparse.
    + intros pm. unfold has_polygon, polygon_record.
      by destruct (first (desc _ pm)).
Qed.

(** X8. Point extraction reads only the placemarks that hold a [Point],
    and polygon extraction only those that hold a [Polygon]: the other
    placemarks, well-formed or not, change neither the result nor the
    error. A document gives at most one point record per placemark with a
    [Point]. *)
Theorem X8_only_own_placemarks (root : elem) :
  parse_points root
  = collect point_record
      (List.filter has_point (desc (kml "Placemark") root))
  ∧ parse_polygons root
    = collect polygon_record
        (List.filter has_polygon (desc (kml "Placemark") root))
  ∧ (∀ points,
        parse_points root = Ok points →
        (length points
         ≤ length (List.filter has_point (desc (kml "Placemark") root)))%nat).
Proof.
  assert (Hpoints : parse_points root
                    = collect point_record
                        (List.filter has_point (desc (kml "Placemark") root))).
  { apply collect_filter. intros pm. unfold has_point, point_record.
    by destruct (first (desc _ pm)). }
  split; [done|]. split.
  - apply collect_filter. intros pm. unfold has_polygon, polygon_record.
    by destruct (first (desc _ pm)).
  - intros points Hparse. rewrite Hpoints in Hparse.
    by apply collect_length in Hparse.
Qed.

(** ** Boundary assignment: closed form *)

Implicit Types (polygons : list (string * prepared * polygon)).

Lemma first_match_filter (p : point) polygons :
  first_match p polygons
  = entry_name <$> first (List.filter (encloses p) polygons).
Proof.
  induction polygons as [|[[bname ppoly] poly] polygons IH];
    cbn [first_match List.filter]; [done|].
  unfold encloses at 1. cbn [fst snd].
  by destruct (contains ppoly p || touches poly p).
Qed.

Lemma first_match_app (p : point) polygons1 polygons2 :
  first_match p (polygons1 ++ polygons2)
  = match first_match p polygons1 with
    | Some bname => Some bname
    | None => first_match p polygons2
    end.
Proof.
  induction polygons1 as [|[[bname ppoly] poly] polygons1 IH];
    cbn [first_match app]; [done|].
  by destruct (contains ppoly p || touches poly p).
Qed.

(** X9. For float coordinates [assign_boundary] never raises, and its
    result is the name of the first entry of the list among those that
    enclose the point: entries that do not enclose the point have no
    effect, a returned name is the name of an entry of the list, and
    polygons appended to the list never change a name already assigned. *)
Theorem X9_assign_closed_form (lat lon : float) polygons :
  let p := point_xy lon lat in
  let assign := assign_boundary (VFloat lat) (VFloat lon) in
  assign polygons
  = Ok (entry_name <$> first (List.filter (encloses p) polygons))
  ∧ assign polygons = assign (List.filter (encloses p) polygons)
  ∧ (∀ bname,
        assign polygons = Ok (Some bname) →
        bname ∈ map entry_name polygons
        ∧ ∀ more, assign (polygons ++ more) = Ok (Some bname))
  ∧ (∀ more,
        assign polygons = Ok None → assign (polygons ++ more) = assign more).
Proof.
  intros p assign. subst assign. unfold assign_boundary, Point.
  cbn [rbind]. fold p. split; [by rewrite first_match_filter|].
  split; [|split].
  - rewrite !first_match_filter. do 3 f_equal.
    rewrite filter_filter_both. apply List.filter_ext. intros entry.
    by destruct (encloses p entry).
  - intros bname [= Hmatch]. split.
    + pose proof (first_match_spec p polygons) as Hspec.
      rewrite Hmatch in Hspec.
      destruct Hspec as (before & entry & after & -> & _ & _ & ->).
      rewrite map_app. apply elem_of_app. right. apply elem_of_cons. by left.
    + intros more. by rewrite first_match_app, Hmatch.
  - intros more [= Hnone]. by rewrite first_match_app, Hnone.
Qed.

End Rings.

Lemma X6_ring_coords_witness :
  @ring_coords Grid.grid_float ["0,0,0"; "10,0"; "10,10,5,7"]
  = Ok [(Grid.GNum 0, Grid.GNum 0); (Grid.GNum 10, Grid.GNum 0);
        (Grid.GNum 10, Grid.GNum 10)].
Proof.
  apply (@X6_ring_coords Grid.grid_float).
  repeat constructor.
  - by exists "0", "0", ["0"].
  - by exists "10", "0", [].
  - by exists "10", "10", ["5"; "7"].
Defined.

Lemma X7_polygon_entries_witness :
  ∃ pm coords,
    pm ∈ desc (kml "Placemark") polygons_only
    ∧ @ring_coords Grid.grid_float
        (Str.split_ws (coords_text (ring_coords_el pm))) = Ok coords
    ∧ @Polygon Grid.grid_float Grid.grid_shapely coords = Ok rect_a.
Proof.
  destruct (@X7_polygon_entries Grid.grid_float Grid.grid_shapely
              polygons_only [("Zone A", rect_a, rect_a); ("", rect_a, rect_a)]
              eq_refl) as [Hentry _].
  destruct (Hentry ("Zone A", rect_a, rect_a))
    as (pm & coords & poly & Hpm & _ & Hring & Hpoly & Heq).
  - apply elem_of_cons. by left.
  - injection Heq as _ _ <-. by exists pm, coords.
Defined.

Lemma X8_only_own_placemarks_witness :
  @parse_points Grid.grid_float mixed_doc
  = Ok [[(Some "homepass", @VStr Grid.grid_float "hp2");
         (Some "lat", Grid.vnum 5); (Some "lon", Grid.vnum 5)]].
Proof.
  destruct (@X8_only_own_placemarks Grid.grid_float Grid.grid_shapely mixed_doc)
    as (-> & _ & _).
  reflexivity.
Defined.

Lemma X9_assign_closed_form_witness :
  @assign_boundary Grid.grid_float Grid.grid_shapely
     (Grid.vnum 15) (Grid.vnum 15) ([entry_a; entry_b] ++ [entry_a])
  = Ok (Some "B").
Proof.
  destruct (@X9_assign_closed_form Grid.grid_float Grid.grid_shapely
              (Grid.GNum 15) (Grid.GNum 15) [entry_a; entry_b])
    as (_ & _ & Hkeep & _).
  destruct (Hkeep "B" eq_refl) as [_ Hmore]. apply Hmore.
Defined.

(** ** Geocode client: effects of a lookup *)

Lemma substring_length_le (n : nat) (s : string) :
  (String.length (String.substring 0 n s) ≤ n)%nat.
Proof.
  revert s. induction n as [|n IH]; intros s.
  - destruct s; cbn; lia.
  - destruct s as [|c s]; cbn; [lia|]. specialize (IH s). lia.
Qed.

Section GeocodeEffects.
Context `{FloatOps} `{!Pandas} `{!Provider}.

(** X10. A lookup that misses the cache and gets a payload with a
    street-like name (or none) sends one request with the coordinate as
    given, not rounded, stores the result under the rounded key together
    with the first 2000 characters at most of the payload text, takes one
    throttle sleep and returns the result. *)
Theorem X10_miss_effect (lat lon : float) (w : world) (j v : json)
        (road : option string) :
  cache w !! cache_key lat lon = None →
  http_get (length (requests w)) lat lon = Payload j →
  select_road j = Ok v →
  sql_text v = Ok road →
  ∃ raw,
    reverse_geocode_nominatim_cached lat lon w
    = (Ok road,
       World (<[cache_key lat lon := (road, raw)]> (cache w))
             (requests w ++ [(lat, lon)]) (S (sleeps w)))
    ∧ raw = String.substring 0 2000 (str_json j)
    ∧ (String.length raw ≤ 2000)%nat.
Proof.
  unfold cache_key. intros Hmiss Hreply Hroad Hsql.
  exists (String.substring 0 2000 (str_json j)).
  split; [|split; [done | apply substring_length_le]].
  unfold reverse_geocode_nominatim_cached.
  rewrite Hmiss, Hreply, Hroad. cbn [rbind]. by rewrite Hsql.
Qed.

(** X11. The street-like name of a payload is the [road] component of its
    address when that is a non-empty string, else the [residential]
    component when that is one, else the [pedestrian] component as it is.
    A payload that is an object without [address] gives no street: it is
    a result, not a failure. *)
Theorem X11_road_priority (items addr : list (string * json)) :
  (dict_get "address" items = None → select_road (JObj items) = Ok JNull)
  ∧ (dict_get "address" items = Some (JObj addr) →
     (∀ road,
         dict_get "road" addr = Some road → json_truthy road = true →
         select_road (JObj items) = Ok road)
     ∧ (∀ residential,
           skipped (dict_get "road" addr) →
           dict_get "residential" addr = Some residential →
           json_truthy residential = true →
           select_road (JObj items) = Ok residential)
     ∧ (skipped (dict_get "road" addr) →
        skipped (dict_get "residential" addr) →
        select_road (JObj items)
        = Ok (from_option id JNull (dict_get "pedestrian" addr)))).
Proof.
  unfold select_road, skipped. cbn [py_get rbind]. split.
  - by intros ->.
  - intros ->. cbn [from_option id py_get rbind]. split; [|split].
    + intros road -> Hroad. cbn. by rewrite Hroad.
    + intros residential Hroad -> Hres. rewrite Hroad. cbn. by rewrite Hres.
    + intros Hroad Hres. by rewrite Hroad, Hres.
Qed.

Lemma lookup_cache_kept (lat lon : float) (w : world) :
  cache_kept w (snd (reverse_geocode_nominatim_cached lat lon w)).
Proof.
  intros k v Hk. unfold reverse_geocode_nominatim_cached.
  destruct (cache w !! (fmt5 lat, fmt5 lon)) as [row|] eqn:Hrow; [done|].
  destruct (http_get _ lat lon) as [| | |j]; try done.
  destruct (let? road := select_road j in sql_text road) as [road|e];
    [|done].
  cbn [snd cache sent]. rewrite lookup_insert_ne; [done|].
  intros <-. congruence.
Qed.

Lemma lookup_accounted (lat lon : float) (w : world) :
  accounted w (snd (reverse_geocode_nominatim_cached lat lon w)) 1.
Proof.
  unfold reverse_geocode_nominatim_cached.
  destruct (cache w !! (fmt5 lat, fmt5 lon)) as [row|] eqn:Hrow.
  { exists [], 0%nat. cbn. rewrite app_nil_r. repeat split; lia. }
  assert (Hfail : accounted w (sent lat lon w) 1).
  { exists [(lat, lon)], 0%nat. cbn. repeat split; lia. }
  destruct (http_get _ lat lon) as [| | |j]; try done.
  destruct (let? road := select_road j in sql_text road) as [road|e];
    [|done].
  exists [(lat, lon)], 1%nat. cbn [snd cache requests sleeps sent length].
  repeat split; try lia.
  rewrite map_size_insert_None; [lia | done].
Qed.

Lemma accounted_trans (w1 w2 w3 : world) (n m : nat) :
  accounted w1 w2 n → accounted w2 w3 m → accounted w1 w3 (n + m).
Proof.
  intros (new1 & d1 & Hr1 & Hn1 & Hd1 & Hs1 & Hc1)
         (new2 & d2 & Hr2 & Hn2 & Hd2 & Hs2 & Hc2).
  exists (new1 ++ new2), (d1 + d2)%nat.
  rewrite Hr2, Hr1, Hs2, Hs1, Hc2, Hc1, length_app, app_assoc.
  repeat split; lia.
Qed.

Lemma accounted_refl (w : world) : accounted w w 0.
Proof. exists [], 0%nat. rewrite app_nil_r. cbn. repeat split; (done || lia). Qed.

Lemma accounted_weaken (w w' : world) (n m : nat) :
  (n ≤ m)%nat → accounted w w' n → accounted w w' m.
Proof.
  intros Hnm (new & d & Hr & Hn & Hd & Hs & Hc).
  exists new, d. repeat split; (done || lia).
Qed.

Implicit Types (r : list (key * pyval)) (rs : list (list (key * pyval))).

Lemma row_street_cache_kept r (w : world) :
  cache_kept w (snd (row_street r w)).
Proof.
  unfold row_street.
  destruct (row_float r (Some "lat")) as [lat|]; [|by intros k v].
  destruct (row_float r (Some "lon")) as [lon|]; [|by intros k v].
  pose proof (lookup_cache_kept lat lon w) as Hkept.
  by destruct (reverse_geocode_nominatim_cached lat lon w) as [[road|e] w'].
Qed.

Lemma row_street_accounted r (w : world) :
  accounted w (snd (row_street r w)) 1.
Proof.
  unfold row_street.
  destruct (row_float r (Some "lat")) as [lat|];
    [|apply (accounted_weaken _ _ 0); [lia | apply accounted_refl]].
  destruct (row_float r (Some "lon")) as [lon|];
    [|apply (accounted_weaken _ _ 0); [lia | apply accounted_refl]].
  pose proof (lookup_accounted lat lon w) as Hacc.
  by destruct (reverse_geocode_nominatim_cached lat lon w) as [[road|e] w'].
Qed.

Lemma geocode_rows_cache_kept rs (w : world) :
  cache_kept w (snd (geocode_rows rs w)).
Proof.
  revert w. induction rs as [|r rs IH]; intros w; cbn [geocode_rows];
    [by intros k v|].
  pose proof (row_street_cache_kept r w) as Hrow.
  destruct (row_street r w) as [street w1]. specialize (IH w1).
  destruct (geocode_rows rs w1) as [streets w2]. cbn [snd] in *.
  intros k v Hk. by apply IH, Hrow.
Qed.

Lemma geocode_rows_accounted rs (w : world) :
  accounted w (snd (geocode_rows rs w)) (length rs).
Proof.
  revert w. induction rs as [|r rs IH]; intros w; cbn [geocode_rows length].
  - apply accounted_refl.
  - pose proof (row_street_accounted r w) as Hrow.
    destruct (row_street r w) as [street w1]. specialize (IH w1).
    destruct (geocode_rows rs w1) as [streets w2]. cbn [snd] in *.
    change (S (length rs)) with (1 + length rs)%nat.
    by apply (accounted_trans w w1 w2).
Qed.

(** X12. A lookup never changes or removes an entry of the cache store:
    it writes only under a key that was missing. The same holds for the
    geocode loop over any rows. *)
Theorem X12_cache_entries_kept (w : world) :
  (∀ lat lon,
      cache_kept w (snd (reverse_geocode_nominatim_cached lat lon w)))
  ∧ (∀ rs, cache_kept w (snd (geocode_rows rs w))).
Proof.
  split; [intros lat lon; apply lookup_cache_kept|].
  intros rs. apply geocode_rows_cache_kept.
Qed.

(** X13. The geocode loop sends at most one request per row and appends
    them to the request log; it takes at most one sleep per request sent,
    and every sleep goes with exactly one new cache entry. *)
Theorem X13_loop_accounting (rs : list (list (key * pyval))) (w : world) :
  ∃ new d,
    requests (snd (geocode_rows rs w)) = requests w ++ new
    ∧ (length new ≤ length rs)%nat
    ∧ (d ≤ length new)%nat
    ∧ sleeps (snd (geocode_rows rs w)) = (sleeps w + d)%nat
    ∧ size (cache (snd (geocode_rows rs w))) = (size (cache w) + d)%nat.
Proof. apply geocode_rows_accounted. Qed.

(** X14. Once a lookup has returned a street name (or [None]) for a
    coordinate, every lookup of a coordinate with the same rounded key
    that comes after any further run of the geocode loop returns the same
    value and changes nothing. *)
Theorem X14_street_stable (lat lon : float) (w w1 : world)
        (road : option string) :
  reverse_geocode_nominatim_cached lat lon w = (Ok road, w1) →
  ∀ rs lat' lon',
    cache_key lat' lon' = cache_key lat lon →
    reverse_geocode_nominatim_cached lat' lon' (snd (geocode_rows rs w1))
    = (Ok road, snd (geocode_rows rs w1)).
Proof.
  intros Hfirst rs lat' lon' Hkey.
  destruct (lookup_Ok_cached _ _ _ _ _ Hfirst) as [raw Hrow].
  apply (geocode_rows_cache_kept rs) in Hrow. rewrite <- Hkey in Hrow.
  by apply (lookup_hit _ _ _ _ raw).
Qed.

End GeocodeEffects.

Lemma X10_miss_effect_witness :
  @reverse_geocode_nominatim_cached Grid.grid_float Grid.grid_provider
     (Grid.GNum 7) (Grid.GNum 7) Grid.w0
  = (Ok (Some "Jalan Merdeka"), w_merdeka).
Proof.
  destruct (@X10_miss_effect Grid.grid_float Grid.grid_provider
              (Grid.GNum 7) (Grid.GNum 7) Grid.w0
              (Grid.street_payload "Jalan Merdeka") (JStr "Jalan Merdeka")
              (Some "Jalan Merdeka") eq_refl eq_refl eq_refl eq_refl)
    as (raw & -> & -> & _).
  reflexivity.
Defined.

Lemma X11_road_priority_witness :
  select_road residential_payload = Ok (JStr "Gang Mawar").
Proof.
  destruct (X11_road_priority
              [("address",
                JObj [("road", JStr ""); ("residential", JStr "Gang Mawar");
                      ("pedestrian", JStr "Jalan Setapak")])]
              [("road", JStr ""); ("residential", JStr "Gang Mawar");
               ("pedestrian", JStr "Jalan Setapak")])
    as [_ Haddr].
  destruct (Haddr eq_refl) as (_ & Hres & _).
  apply (Hres (JStr "Gang Mawar")); reflexivity.
Defined.

Lemma X12_cache_entries_kept_witness :
  cache (snd (@geocode_rows Grid.grid_float Grid.grid_pandas Grid.grid_provider
                [row_77; row_99] w_null))
  !! ("7.00000", "7.00000") = Some (None, "{...}").
Proof.
  destruct (@X12_cache_entries_kept Grid.grid_float Grid.grid_pandas
              Grid.grid_provider w_null) as [_ Hloop].
  apply (Hloop [row_77; row_99]). reflexivity.
Defined.

Lemma X14_street_stable_witness :
  @reverse_geocode_nominatim_cached Grid.grid_float Grid.grid_provider
     (Grid.GNum 7) (Grid.GNum 7)
     (snd (@geocode_rows Grid.grid_float Grid.grid_pandas Grid.grid_provider
             [row_99] w_merdeka))
  = (Ok (Some "Jalan Merdeka"),
     snd (@geocode_rows Grid.grid_float Grid.grid_pandas Grid.grid_provider
            [row_99] w_merdeka)).
Proof.
  apply (@X14_street_stable Grid.grid_float Grid.grid_pandas
           Grid.grid_provider
           (Grid.GNum 7) (Grid.GNum 7) Grid.w0 w_merdeka
           (Some "Jalan Merdeka")); reflexivity.
Defined.


(** ** The table built by [convert] *)

Section TableFacts.
Context `{FloatOps} `{!Pandas} `{!Shapely} `{!Provider}.
Implicit Types (points rs : list (list (key * pyval)))
         (r : list (key * pyval)).

(** X15. The table has one row per point record, in the order of the
    records, and every row has one cell per column of the header. *)
Theorem X15_table_shape polygons points flag w t w' :
  build_table polygons points flag w = (Ok t, w') →
  length (body t) = length points
  ∧ Forall (fun row => length row = length (header t)) (body t).
Proof.
  intros Hbuild. split; [by eapply build_table_length|].
  destruct (build_table_Ok_inv _ _ _ _ _ _ Hbuild)
    as (labels & _ & _ & _ & Ht).
  assert (Hshape : ∀ df,
            Forall (fun row => length row = length (header (table_of df)))
                   (body (table_of df))).
  { intros df. apply Forall_forall. intros row Hrow.
    cbn [body header table_of select] in *.
    apply list_elem_of_In, in_map_iff in Hrow as (fr & <- & _).
    by rewrite length_map. }
  destruct flag as [flag|]; destruct Ht as [_ ->]; apply Hshape.
Qed.

(** X16. No column occurs twice in the header; every key of every point
    record is a column, and so is the boundary label; a column that is not
    one of the five preferred ones is a key of some record. *)
Theorem X16_header_columns polygons points flag w t w' :
  build_table polygons points flag w = (Ok t, w') →
  NoDup (header t)
  ∧ Some "boundary" ∈ header t
  ∧ (∀ r k, r ∈ points → k ∈ dict_keys r → k ∈ header t)
  ∧ (∀ c, c ∈ header t → c ∉ front → ∃ r, r ∈ points ∧ c ∈ dict_keys r).
Proof.
  intros Hbuild.
  pose proof (header_has_boundary _ _ _ _ _ _ Hbuild) as [Hbd _].
  split; [|split; [done|]]; rewrite (build_table_columns _ _ _ _ _ _ Hbuild).
  - apply NoDup_app. split; [|split].
    + apply NoDup_list_filter.
      by apply (bool_decide_unpack (NoDup front)).
    + intros c [_ Hfront]%elem_of_list_filter [Hnot _]%elem_of_list_filter.
      apply mem_true in Hfront. by rewrite Hfront in Hnot.
    + apply NoDup_list_filter, NoDup_first_seen.
  - split.
    + intros r k Hr Hk.
      assert (Hall : mem k (all_keys points) = true).
      { apply mem_true. unfold all_keys.
        apply list_elem_of_In, in_flat_map. exists r.
        split; by apply list_elem_of_In. }
      apply elem_of_app. destruct (mem k front) eqn:Hfront.
      * left. apply elem_of_list_filter. split; [|by apply mem_true].
        unfold present. by rewrite Hall.
      * right. apply elem_of_list_filter. rewrite Hfront. split; [done|].
        apply mem_true. by rewrite mem_first_seen.
    + intros c [[_ Hfront]%elem_of_list_filter|[_ Hc]%elem_of_list_filter]
        %elem_of_app Hnot; [done|].
      apply mem_true in Hc. rewrite mem_first_seen in Hc.
      apply mem_true, list_elem_of_In, in_flat_map in Hc as (r & Hr & Hk).
      exists r. split; by apply list_elem_of_In.
Qed.

(** X17. The cells of the table. The labels are those the boundary
    assignment returns on the rows of the frame made from the records. In
    row [i] the boundary column holds what pandas stores for the [i]-th
    label: the name when a polygon matched, a null value otherwise. Every
    column other than the boundary and the street column holds what the
    frame holds for the [i]-th record under that key: the record's string
    or float as it is, NaN when the record lacks the key, a null value when
    the record holds [None]. With the geocode pass the street column holds
    what pandas stores for the [i]-th result of the geocode loop run over
    the rows of the labelled frame, and the world after the table is built
    is the world after that loop; without it no lookup runs and the world
    is left as it was. *)
Theorem X17_table_cells polygons points flag w t w' :
  build_table polygons points flag w = (Ok t, w') →
  ∃ labels,
    apply_rows (row_boundary polygons) (rows (DataFrame points)) = Ok labels
    ∧ (∀ i row,
          body t !! i = Some row →
          ∃ j r label,
            header t !! j = Some (Some "boundary")
            ∧ points !! i = Some r
            ∧ labels !! i = Some label
            ∧ row_boundary polygons (frame_row points r) = Ok label
            ∧ row !! j = Some (label_cell labels label)
            ∧ (∀ b, label = Some b → row !! j = Some (VStr b))
            ∧ (label = None → ∃ v, row !! j = Some v ∧ null v))
    ∧ (∀ i row r j c,
          body t !! i = Some row → points !! i = Some r →
          header t !! j = Some c →
          c ≠ Some "boundary" → c ≠ Some "nama_jalan" →
          row !! j = Some (record_cell points r c)
          ∧ (∀ s, dict_get c r = Some (VStr s) → row !! j = Some (VStr s))
          ∧ (∀ x, dict_get c r = Some (VFloat x) →
                  row !! j = Some (VFloat x))
          ∧ (dict_get c r = None → row !! j = Some (VFloat nan))
          ∧ (dict_get c r = Some VNone → ∃ v, row !! j = Some v ∧ null v))
    ∧ (flag ≠ None →
       w' = snd (geocode_rows (rows (labelled points labels)) w)
       ∧ ∀ i row,
           body t !! i = Some row →
           ∃ j street,
             header t !! j = Some (Some "nama_jalan")
             ∧ fst (geocode_rows (rows (labelled points labels)) w) !! i
               = Some street
             ∧ row !! j
               = Some (street_cell
                         (fst (geocode_rows (rows (labelled points labels)) w))
                         street))
    ∧ (flag = None → w' = w).
Proof.
  intros Hbuild.
  destruct (build_table_Ok_inv _ _ _ _ _ _ Hbuild)
    as (labels & _ & Hlabels & _ & Ht).
  exists labels. split; [done|]. split; [|split; [|split]].
  - intros i row Hrow.
    destruct (boundary_column _ _ _ _ _ _ _ _ _ Hbuild Hlabels Hrow)
      as (j & r & label & Hj & Hr & Hlabel & Hok & Hcell).
    exists j, r, label. repeat (split; [done|]). split.
    + intros b ->. by rewrite Hcell.
    + intros ->. eexists. split; [done|]. apply stored_null.
  - intros i row r j c Hrow Hr Hj Hbd Hnj.
    rewrite (record_column _ _ _ _ _ _ _ _ _ _ _ Hbuild Hrow Hr Hj Hbd Hnj).
    unfold record_cell. split; [done|].
    split; [by intros s ->|]. split; [by intros x ->|].
    split; [by intros ->|].
    intros ->. eexists. split; [done|]. apply stored_null.
  - intros Hflag. destruct flag as [flag|]; [|done].
    destruct Ht as [-> _]. split; [done|].
    intros i row Hrow. by eapply street_column.
  - intros ->. by destruct Ht as [-> _].
Qed.

End TableFacts.

Lemma X15_table_shape_witness :
  length (body one_point_table) = 2%nat.
Proof.
  apply (@X15_table_shape Grid.grid_float Grid.grid_pandas Grid.grid_shapely
           Grid.grid_provider [zone_a_entry] one_point_rows None Grid.w0
           one_point_table Grid.w0).
  reflexivity.
Defined.

Lemma X16_header_columns_witness :
  Some "floors" ∈ header one_point_table.
Proof.
  destruct (@X16_header_columns Grid.grid_float Grid.grid_pandas
              Grid.grid_shapely Grid.grid_provider [zone_a_entry]
              one_point_rows None Grid.w0 one_point_table Grid.w0 eq_refl)
    as (_ & _ & Hkeys & _).
  apply (Hkeys [(Some "homepass", @VStr Grid.grid_float "hp2");
                (Some "lat", Grid.vnum 30); (Some "lon", Grid.vnum 30);
                (Some "kind", @VStr Grid.grid_float "shop");
                (Some "floors", @VStr Grid.grid_float "2")]).
  - apply elem_of_cons. right. apply elem_of_cons. by left.
  - cbn [dict_keys map fst]. do 4 (apply elem_of_cons; right).
    apply elem_of_cons. by left.
Defined.

Lemma X17_table_cells_witness :
  ∃ labels,
    apply_rows
       (@row_boundary Grid.grid_float Grid.grid_pandas Grid.grid_shapely
          [zone_a_entry])
       (rows (@DataFrame Grid.grid_float Grid.grid_pandas one_point_rows))
    = Ok labels
    ∧ ∀ i row,
        body one_point_table !! i = Some row →
        ∃ j r label,
          header one_point_table !! j = Some (Some "boundary")
          ∧ one_point_rows !! i = Some r
          ∧ labels !! i = Some label
          ∧ @row_boundary Grid.grid_float Grid.grid_pandas Grid.grid_shapely
              [zone_a_entry]
              (@frame_row Grid.grid_float Grid.grid_pandas one_point_rows r)
            = Ok label
          ∧ row !! j = Some (@label_cell Grid.grid_float Grid.grid_pandas
                               labels label)
          ∧ (∀ b, label = Some b → row !! j = Some (@VStr Grid.grid_float b))
          ∧ (label = None → ∃ v, row !! j = Some v ∧ @null Grid.grid_float v).
Proof.
  destruct (@X17_table_cells Grid.grid_float Grid.grid_pandas
              Grid.grid_shapely Grid.grid_provider [zone_a_entry]
              one_point_rows None Grid.w0 one_point_table Grid.w0 eq_refl)
    as (labels & Hlabels & Hcells & _).
  by exists labels.
Defined.
(** ** The whole conversion and the container *)

Section ConvertFacts.
Context `{FloatOps} `{!Pandas} `{!Shapely} `{!Provider} `{!Zip} `{!Lxml}.

Lemma convert_root_Raise_world (root : elem) flag (w w' : world) (e : exn) :
  convert_root root flag w = (Raise e, w') → w' = w.
Proof.
  unfold convert_root.
  destruct (parse_polygons root) as [polygons|]; [|by intros [= _ <-]].
  destruct (parse_points root) as [points|]; [|by intros [= _ <-]].
  intros Hbuild. by destruct (build_table_Raise_inv _ _ _ _ _ _ Hbuild).
Qed.

Lemma convert_root_no_flag_world (root : elem) (w : world) :
  snd (convert_root root None w) = w.
Proof.
  unfold convert_root.
  destruct (parse_polygons root) as [polygons|]; [|done].
  destruct (parse_points root) as [points|]; [|done].
  unfold build_table. destruct points as [|r0 points']; [done|].
  by destruct (apply_rows _ _).
Qed.

(** X18. A conversion that fails has sent no request and changed no cache
    entry, and neither has a conversion without the geocode flag. A
    document that does not parse is rejected with status 400, and an
    error of the container step is passed on as it is. *)
Theorem X18_world_untouched (filename : option string) (raw : bytes)
        (flag : option string) (w : world) :
  (∀ e w', convert filename raw flag w = (Raise e, w') → w' = w)
  ∧ snd (convert filename raw None w) = w
  ∧ (∀ kml_bytes,
        extract_kml_bytes raw filename = Ok kml_bytes →
        fromstring kml_bytes = None →
        convert filename raw flag w
        = (Raise (HTTPException 400 "KML tidak valid / gagal diparse."), w))
  ∧ (∀ e,
        extract_kml_bytes raw filename = Raise e →
        convert filename raw flag w = (Raise e, w)).
Proof.
  unfold convert. split; [|split; [|split]].
  - intros e w'.
    destruct (extract_kml_bytes raw filename) as [kml_bytes|];
      [|by intros [= _ <-]].
    destruct (fromstring kml_bytes) as [root|]; [|by intros [= _ <-]].
    apply convert_root_Raise_world.
  - destruct (extract_kml_bytes raw filename) as [kml_bytes|]; [|done].
    destruct (fromstring kml_bytes) as [root|]; [|done].
    apply convert_root_no_flag_world.
  - by intros kml_bytes -> ->.
  - by intros e ->.
Qed.

(** X19. [extract_kml_bytes] returns the upload as it is when the name
    ends in [.kml], whatever the case; it rejects with status 400 a name
    with neither suffix (a missing name included) and an archive without a
    [.kml] member; an error of the archive reader is passed on. *)
Theorem X19_container_cases (upload_bytes : bytes) (filename : option string) :
  let name := Str.lower (or_empty filename) in
  (Str.endswith name ".kml" = true →
   extract_kml_bytes upload_bytes filename = Ok upload_bytes)
  ∧ (Str.endswith name ".kml" = false → Str.endswith name ".kmz" = false →
     extract_kml_bytes upload_bytes filename
     = Raise (HTTPException 400 "File harus .kmz atau .kml"))
  ∧ extract_kml_bytes upload_bytes None
    = Raise (HTTPException 400 "File harus .kmz atau .kml")
  ∧ (Str.endswith name ".kmz" = true →
     (∀ e, ZipFile upload_bytes = Raise e →
           extract_kml_bytes upload_bytes filename = Raise e)
     ∧ (∀ z, ZipFile upload_bytes = Ok z →
             List.filter is_kml_name (namelist z) = [] →
             extract_kml_bytes upload_bytes filename
             = Raise (HTTPException 400 "KMZ tidak berisi file .kml"))).
Proof.
  intros name. unfold extract_kml_bytes. fold name.
  split; [by intros ->|]. split; [by intros -> ->|]. split; [done|].
  intros Hkmz. rewrite (endswith_kmz_not_kml _ Hkmz), Hkmz. split.
  - by intros e ->.
  - intros z -> Hnone. cbn [rbind]. by rewrite Hnone.
Qed.

End ConvertFacts.

Lemma X18_world_untouched_witness :
  @convert Grid.grid_float Grid.grid_pandas Grid.grid_shapely
     Grid.grid_provider Grid.grid_zip grid_lxml (Some "Area.KMZ")
     (Grid.bytes_of "PK-two") (Some "on") Grid.w0
  = (Raise (HTTPException 400
              "Tidak ada titik (Point/homepass) ditemukan di file."), Grid.w0).
Proof.
  destruct (@convert Grid.grid_float Grid.grid_pandas Grid.grid_shapely
              Grid.grid_provider Grid.grid_zip grid_lxml (Some "Area.KMZ")
              (Grid.bytes_of "PK-two") (Some "on") Grid.w0)
    as [res w'] eqn:Hconv.
  assert (Hres : res = Raise (HTTPException 400
                   "Tidak ada titik (Point/homepass) ditemukan di file.")).
  { apply (f_equal fst) in Hconv. symmetry. exact Hconv. }
  subst res.
  destruct (@X18_world_untouched Grid.grid_float Grid.grid_pandas
              Grid.grid_shapely Grid.grid_provider Grid.grid_zip grid_lxml
              (Some "Area.KMZ") (Grid.bytes_of "PK-two") (Some "on") Grid.w0)
    as [Hfail _].
  by rewrite (Hfail _ _ Hconv).
Defined.

Lemma X19_container_cases_witness :
  @extract_kml_bytes Grid.grid_zip (Grid.bytes_of "hello") (Some "notes.TXT")
  = Raise (HTTPException 400 "File harus .kmz atau .kml")
  ∧ @extract_kml_bytes Grid.grid_zip (Grid.bytes_of "<kml/>") (Some "Area.KML")
    = Ok (Grid.bytes_of "<kml/>").
Proof.
  destruct (@X19_container_cases Grid.grid_zip (Grid.bytes_of "hello")
              (Some "notes.TXT")) as (_ & Hreject & _).
  destruct (@X19_container_cases Grid.grid_zip (Grid.bytes_of "<kml/>")
              (Some "Area.KML")) as (Hkml & _).
  split; [by apply Hreject | by apply Hkml].
Defined.

